(** * RateMySite Excel export: a shallow embedding of [utils/excel_export.py]

    The development follows the source file top to bottom:

    - [Py]      the Python built-ins the module relies on ([str], [int],
                [str.isdigit], [str.split], [str.replace], true division
                and the [.1f] format), over the values a result record
                can hold;
    - [Sheet]   the part of an openpyxl worksheet the module touches: a
                finite map from (row, column) to styled cells, addressed
                through coordinate strings, and iterated column-wise;
    - [Styled]  [create_excel_report];
    - [Detailed] [create_detailed_excel_report] over a small model of the
                pandas writer session;
    - the vocabulary of the properties and the scenarios they are tried
      on, then the properties of both reports, C1 to C10.

    Modelling notes.  Characters are code points below 256, so the only
    non-ASCII characters [str.isdigit] accepts are the superscripts
    U+00B2, U+00B3 and U+00B9.  Record values are [None], booleans,
    integers and strings.  The interpreter is CPython with its default
    limit of 4300 digits on conversions between [int] and [str].  Of
    openpyxl the model has the checks that make an assignment raise: the
    coordinate pattern, the control characters refused in a stored text
    and the type of a hyperlink target.  openpyxl also cuts a stored text
    after 32767 characters; the model keeps the text whole.  The number
    of records is a machine-size integer, far below the digit limit.
    File-system effects are outside the model: a report is the workbook
    state handed to [save]. *)

From Stdlib Require Import ZArith String Ascii List Lia DecimalString DecimalPos.
From stdpp Require Import gmap strings list fin_maps.

Local Open Scope string_scope.
Local Open Scope nat_scope.

(** ** Exceptions and the error monad *)

Inductive exn :=
| ValueError_int (text : string)          (* invalid literal for int() *)
| ValueError_digits                        (* exceeds the limit (4300 digits) for
                                              integer string conversion *)
| TypeError_int                            (* int() of None *)
| TypeError_hyperlink                      (* hyperlink target: expected str *)
| IllegalCharacterError                    (* text cannot be used in worksheets *)
| ValueError_coordinate (col_letter row : nat) (* not a valid coordinate *)
| OverflowError                            (* int / int too large for a float *)
| ZeroDivisionError
| IndexError_no_sheet.                     (* at least one sheet must be visible *)

Inductive res (A : Type) :=
| Ok (a : A)
| Raise (e : exn).
Arguments Ok {A} a.
Arguments Raise {A} e.

#[global] Instance res_bind : MBind res := fun A B (k : A -> res B) (m : res A) =>
  match m with
  | Ok a => k a
  | Raise e => Raise e
  end.

(** [for x in xs: s = body(x, s)], stopping at the first exception. *)
Fixpoint for_each {A S} (body : A -> S -> res S) (xs : list A) (s : S) : res S :=
  match xs with
  | [] => Ok s
  | x :: xs' => s' ← body x s; for_each body xs' s'
  end.

(** [enumerate(xs, start)] *)
Fixpoint enumerate {A} (start : nat) (xs : list A) : list (nat * A) :=
  match xs with
  | [] => []
  | x :: xs' => (start, x) :: enumerate (S start) xs'
  end.

(** ** Python built-ins *)

Module Py.

Inductive PyVal :=
| VNone
| VBool (b : bool)
| VInt (z : Z)
| VStr (s : string).

Definition PyVal_eqb (a b : PyVal) : bool :=
  match a, b with
  | VNone, VNone => true
  | VBool x, VBool y => Bool.eqb x y
  | VInt x, VInt y => Z.eqb x y
  | VStr x, VStr y => String.eqb x y
  | VBool x, VInt y | VInt y, VBool x => Z.eqb (if x then 1 else 0)%Z y
  | _, _ => false
  end.

(** A record is a [dict] with string keys; the association list keeps the
    insertion order, which the tabular view of the detailed report uses. *)
Definition Record := list (string * PyVal).

(** [d.get(key, default)] *)
Fixpoint dict_get (d : Record) (key : string) (default : PyVal) : PyVal :=
  match d with
  | [] => default
  | (k, v) :: d' => if String.eqb k key then v else dict_get d' key default
  end.

Definition dict_keys (d : Record) : list string := map fst d.

(** [d[key]] when [key in d] *)
Fixpoint dict_lookup (d : Record) (key : string) : option PyVal :=
  match d with
  | [] => None
  | (k, v) :: d' => if String.eqb k key then Some v else dict_lookup d' key
  end.

(** [str(n)] for integers *)
Definition str_of_Z (z : Z) : string := NilEmpty.string_of_int (Z.to_int z).
Definition str_of_nat (n : nat) : string := str_of_Z (Z.of_nat n).

(** The text of a value: what [str(v)] returns when it returns. *)
Definition text (v : PyVal) : string :=
  match v with
  | VNone => "None"
  | VBool true => "True"
  | VBool false => "False"
  | VInt z => str_of_Z z
  | VStr s => s
  end.

(** [sys.get_int_max_str_digits()], at its default. *)
Definition int_max_str_digits : nat := 4300.

(** The number of decimal digits of an integer, its sign apart. *)
Definition decimal_digits (z : Z) : nat := String.length (str_of_Z (Z.abs z)).

(** [str(v)]: an integer of more than 4300 digits is refused. *)
Definition str (v : PyVal) : res string :=
  match v with
  | VInt z =>
      if int_max_str_digits <? decimal_digits z then Raise ValueError_digits
      else Ok (text v)
  | _ => Ok (text v)
  end.

(** [bool(v)] *)
Definition truthy (v : PyVal) : bool :=
  match v with
  | VNone => false
  | VBool b => b
  | VInt z => negb (Z.eqb z 0%Z)
  | VStr s => negb (String.eqb s "")
  end.

Definition ord (c : ascii) : N := N_of_ascii c.

(** The decimal digits [0-9]. *)
Definition is_decimal_char (c : ascii) : bool :=
  (48 <=? ord c)%N && (ord c <=? 57)%N.

(** What [str.isdigit] accepts per character: the decimal digits and the
    superscript digits, which have the Unicode property Digit but are not
    decimal. *)
Definition is_digit_char (c : ascii) : bool :=
  is_decimal_char c
  || (ord c =? 178)%N || (ord c =? 179)%N || (ord c =? 185)%N.

Fixpoint all_chars (p : ascii -> bool) (s : string) : bool :=
  match s with
  | EmptyString => true
  | String c s' => p c && all_chars p s'
  end.

(** [s.isdigit()]: at least one character, and all of them digits. *)
Definition isdigit (s : string) : bool :=
  negb (String.eqb s "") && all_chars is_digit_char s.

(** Non-empty text made of [0-9] only. *)
Definition decimal_text (s : string) : bool :=
  negb (String.eqb s "") && all_chars is_decimal_char s.

Fixpoint digits_value (acc : Z) (s : string) : Z :=
  match s with
  | EmptyString => acc
  | String c s' => digits_value (10 * acc + (Z.of_N (ord c) - 48))%Z s'
  end.

(** The length of the run of decimal digits a text starts with. *)
Fixpoint leading_decimals (s : string) : nat :=
  match s with
  | EmptyString => 0
  | String c s' => if is_decimal_char c then S (leading_decimals s') else 0
  end.

(** [int(v)].  On strings it is defined here for the text the call sites
    pass, which has gone through [isdigit]: the digits in front are
    counted against the limit first; then decimal text converts, and any
    other text is an invalid literal. *)
Definition int (v : PyVal) : res Z :=
  match v with
  | VInt z => Ok z
  | VBool b => Ok (if b then 1 else 0)%Z
  | VStr s =>
      if int_max_str_digits <? leading_decimals s then Raise ValueError_digits
      else if decimal_text s then Ok (digits_value 0%Z s)
      else Raise (ValueError_int s)
  | VNone => Raise TypeError_int
  end.

(** [s.startswith(p)] *)
Fixpoint startswith (p s : string) : bool :=
  match p, s with
  | EmptyString, _ => true
  | String a p', String b s' => Ascii.eqb a b && startswith p' s'
  | String _ _, EmptyString => false
  end.

(** [sub in s] *)
Fixpoint contains (sub s : string) : bool :=
  startswith sub s ||
  match s with
  | EmptyString => false
  | String _ s' => contains sub s'
  end.

(** [s.split(sep)] for a non-empty separator: a left-to-right scan; [skip]
    counts the characters of a separator occurrence still to pass over. *)
Fixpoint split_go (sep s : string) (skip : nat) : list string :=
  match s with
  | EmptyString => [EmptyString]
  | String c s' =>
      match skip with
      | S k => split_go sep s' k
      | O =>
          if startswith sep s
          then EmptyString :: split_go sep s' (String.length sep - 1)
          else match split_go sep s' 0 with
               | piece :: rest => String c piece :: rest
               | [] => [String c EmptyString]
               end
      end
  end.

Definition split (s sep : string) : list string := split_go sep s 0.

(** [s.replace(old, new)] for a non-empty [old]: every non-overlapping
    occurrence, scanning from the left. *)
Fixpoint replace_go (old new s : string) (skip : nat) : string :=
  match s with
  | EmptyString => EmptyString
  | String c s' =>
      match skip with
      | S k => replace_go old new s' k
      | O =>
          if startswith old s
          then new +:+ replace_go old new s' (String.length old - 1)
          else String c (replace_go old new s' 0)
      end
  end.

Definition replace (s old new : string) : string := replace_go old new s 0.

(** [sum(xs)] *)
Definition sum (xs : list Z) : Z := fold_right Z.add 0%Z xs.

(** *** Floats: true division and the [.1f] format *)

(** A finite binary64 number, [(-1)^neg * mant * 2^expo] with
    [0 <= mant <= 2^53]. *)
Record float := { f_neg : bool; f_mant : Z; f_expo : Z }.

Local Open Scope Z_scope.

(** [n / d] rounded to the nearest integer, ties to the even one
    ([0 <= n], [0 < d]). *)
Definition div_half_even (n d : Z) : Z :=
  let q := n / d in
  let r := n mod d in
  if 2 * r <? d then q
  else if d <? 2 * r then q + 1
  else if Z.even q then q else q + 1.

(** [floor (log2 (a / b))] for positive [a] and [b]. *)
Definition quotient_log2 (a b : Z) : Z :=
  let t := Z.log2 a - Z.log2 b in
  if a * 2 ^ Z.max 0 (- t) <? b * 2 ^ Z.max 0 t then t - 1 else t.

(** [a / b] on integers: the binary64 number nearest to the exact
    quotient, ties to even; the last place is [2^(e - 52)] for a quotient
    in [[2^e, 2^(e+1))], and no finer than [2^-1074]. *)
Definition truediv (a b : Z) : res float :=
  if b =? 0 then Raise ZeroDivisionError
  else
    let neg := xorb (a <? 0) (b <? 0) in
    if a =? 0 then Ok {| f_neg := neg; f_mant := 0; f_expo := 0 |}
    else
      let a' := Z.abs a in
      let b' := Z.abs b in
      let sh := Z.min (52 - quotient_log2 a' b') 1074 in
      let m := div_half_even (a' * 2 ^ Z.max 0 sh) (b' * 2 ^ Z.max 0 (- sh)) in
      if 2 ^ 1024 <=? m * 2 ^ Z.max 0 (- sh) then Raise OverflowError
      else Ok {| f_neg := neg; f_mant := m; f_expo := - sh |}.

(** The number of tenths nearest to [|x|], ties to even: the digits that
    [.1f] prints. *)
Definition tenths (x : float) : Z :=
  div_half_even (10 * f_mant x * 2 ^ Z.max 0 (f_expo x)) (2 ^ Z.max 0 (- f_expo x)).

(** [f"{x:.1f}"] *)
Definition format_1f (x : float) : string :=
  let d := tenths x in
  (if f_neg x then "-" else "") +:+ str_of_Z (d / 10) +:+ "." +:+ str_of_Z (d mod 10).

Local Close Scope Z_scope.

End Py.

(** ** The worksheet *)

Module Sheet.
Import Py.

Record Font := {
  bold : bool;
  color : option string;
  size : option nat;
  underline : option string }.

Definition default_font : Font :=
  {| bold := false; color := None; size := None; underline := None |}.

Inductive Horizontal := HCenter | HLeft.

Record Cell := {
  value : PyVal;
  font : Font;
  fill : option string;            (* solid fill, start and end colour *)
  alignment : option Horizontal;   (* vertical is always "center" *)
  border : bool;                   (* thin on the four sides *)
  hyperlink : option PyVal }.

(** A cell that has been created and never assigned. *)
Definition empty_cell : Cell :=
  {| value := VNone; font := default_font; fill := None;
     alignment := None; border := false; hyperlink := None |}.

(** The characters openpyxl refuses in a text: the control characters
    other than tab, line feed and carriage return. *)
Definition illegal_character (c : ascii) : bool :=
  let n := ord c in
  (n <=? 8)%N || (n =? 11)%N || (n =? 12)%N || ((14 <=? n)%N && (n <=? 31)%N).

(** Whether one of the first [n] characters is refused. *)
Fixpoint illegal_within (n : N) (s : string) : bool :=
  match s with
  | EmptyString => false
  | String c s' =>
      if (n =? 0)%N then false
      else illegal_character c || illegal_within (N.pred n) s'
  end.

(** [check_string]: the text openpyxl stores is looked at up to its
    32767th character. *)
Definition check_string (s : string) : res string :=
  if illegal_within 32767 s then Raise IllegalCharacterError else Ok s.

Definition store_value (v : PyVal) (c : Cell) : Cell :=
  {| value := v; font := font c; fill := fill c;
     alignment := alignment c; border := border c; hyperlink := hyperlink c |}.

(** [cell.value = v]: a text is checked before it is stored. *)
Definition set_value (v : PyVal) (c : Cell) : res Cell :=
  match v with
  | VStr s => s ← check_string s; Ok (store_value (VStr s) c)
  | _ => Ok (store_value v c)
  end.
Arguments set_value : simpl never.
Definition set_font (f : Font) (c : Cell) : Cell :=
  {| value := value c; font := f; fill := fill c;
     alignment := alignment c; border := border c; hyperlink := hyperlink c |}.
Definition set_fill (rgb : string) (c : Cell) : Cell :=
  {| value := value c; font := font c; fill := Some rgb;
     alignment := alignment c; border := border c; hyperlink := hyperlink c |}.
Definition set_alignment (h : Horizontal) (c : Cell) : Cell :=
  {| value := value c; font := font c; fill := fill c;
     alignment := Some h; border := border c; hyperlink := hyperlink c |}.
Definition set_border (c : Cell) : Cell :=
  {| value := value c; font := font c; fill := fill c;
     alignment := alignment c; border := true; hyperlink := hyperlink c |}.
(** [cell.hyperlink = target]: the target has to be a string ([None]
    removes the link).  The setter also shows the target in a cell that
    has no value yet; the report assigns the value first. *)
Definition set_hyperlink (target : PyVal) (c : Cell) : res Cell :=
  match target with
  | VStr _ =>
      Ok {| value := value c; font := font c; fill := fill c;
            alignment := alignment c; border := border c; hyperlink := Some target |}
  | VNone =>
      Ok {| value := value c; font := font c; fill := fill c;
            alignment := alignment c; border := border c; hyperlink := None |}
  | _ => Raise TypeError_hyperlink
  end.

(** The cells of a worksheet, keyed by (row, column), both from 1. *)
Abbreviation Cells := (gmap (nat * nat) Cell).

Record Worksheet := {
  title : string;
  cells : Cells;
  column_dimensions : gmap nat nat }.   (* column index to width *)

(** The column a one-character column name denotes: [A-Z] and [a-z] are
    accepted by the coordinate pattern and read case-insensitively, any
    other character is rejected. *)
Definition column_index (col_letter : nat) : option nat :=
  if (65 <=? col_letter) && (col_letter <=? 90) then Some (col_letter - 64)
  else if (97 <=? col_letter) && (col_letter <=? 122) then Some (col_letter - 96)
  else None.

(** The key of [ws[f'{col_letter}{row}']], where [col_letter] is the code
    point of the single character in front of the row number. *)
Definition coordinate (col_letter row : nat) : res (nat * nat) :=
  match column_index col_letter with
  | Some c => if row =? 0 then Raise (ValueError_coordinate col_letter row) else Ok (row, c)
  | None => Raise (ValueError_coordinate col_letter row)
  end.

(** [ws[coord]] returns the cell, creating it when absent. *)
Definition cell_at (ws : Cells) (k : nat * nat) : Cell :=
  default empty_cell (ws !! k).

(** The assignments made to one cell [ws[f'{col_letter}{row}']]. *)
Definition with_cell (col_letter row : nat) (f : Cell -> res Cell) (ws : Cells) : res Cells :=
  k ← coordinate col_letter row;
  c ← f (cell_at ws k);
  Ok (<[k := c]> ws).

Definition max_row (ws : Cells) : nat := max_list ((map_to_list ws).*1.*1).
Definition max_column (ws : Cells) : nat := max_list ((map_to_list ws).*1.*2).

(** [ws.columns]: every column of the used range, each over all its rows;
    positions never assigned read as empty cells. *)
Definition columns (ws : Cells) : list (nat * list Cell) :=
  map (fun c => (c, map (fun r => cell_at ws (r, c)) (seq 1 (max_row ws))))
      (seq 1 (max_column ws)).

End Sheet.

(** ** The styled single-sheet report *)

Module Styled.
Import Py Sheet.

Definition header_font := {| bold := true; color := Some "FFFFFF"; size := Some 12; underline := None |}.
Definition header_fill := "366092".
Definition subheader_font := {| bold := true; color := None; size := Some 11; underline := None |}.
Definition subheader_fill := "D9E2F3".
Definition score_font := {| bold := true; color := None; size := None; underline := None |}.
Definition title_font := {| bold := true; color := None; size := Some 16; underline := None |}.
Definition summary_font := {| bold := true; color := None; size := Some 14; underline := None |}.
Definition link_font := {| bold := false; color := Some "0000FF"; size := None; underline := Some "single" |}.
Definition light_green := "C6EFCE".
Definition light_yellow := "FFEB9C".
Definition light_red := "FFC7CE".

Definition ord_A : nat := 65.

(** [chr(ord('A') + col_idx - 1)] as a code point *)
Definition col_letter (col_idx : nat) : nat := ord_A + col_idx - 1.

(** The label of a record's column (lines 72-83): the text between the
    scheme and the next slash with every ["www."] deleted, or the URL
    value itself when it carries no scheme or is not a string (the
    exception handler). *)
Definition header_label (url : PyVal) : PyVal :=
  match url with
  | VStr s =>
      if startswith "http://" s || startswith "https://" s then
        match split s "//" with
        | _ :: rest :: _ =>
            match split rest "/" with
            | domain :: _ => VStr (replace domain "www." "")
            | [] => url
            end
        | _ => url
        end
      else url
  | _ => url
  end.

Definition write_header_cell (current_row : nat) (entry : nat * Record) (ws : Cells) : res Cells :=
  let '(col_idx, result) := entry in
  let url := dict_get result "URL" (VStr "Unknown") in
  let domain := header_label url in
  with_cell (col_letter col_idx) current_row
    (fun c => c ← set_value domain c;
              Ok (set_border (set_alignment HCenter (set_fill header_fill
                   (set_font header_font c))))) ws.

(** Lines 110-129: value, border, alignment, then the score or the link
    formatting. *)
Definition format_data_cell (row_key : string) (value : PyVal) (cell : Cell) : res Cell :=
  s ← str value;
  cell ← set_value (VStr s) cell;
  let cell := set_alignment HCenter (set_border cell) in
  is_score ← (if contains "Score" row_key && negb (PyVal_eqb value (VStr "-"))
              then s ← str value; Ok (isdigit s)
              else Ok false);
  if (is_score : bool) then
    let cell := set_font score_font cell in
    score ← int value;
    if (80 <=? score)%Z then Ok (set_fill light_green cell)
    else if (60 <=? score)%Z then Ok (set_fill light_yellow cell)
    else if (score <? 60)%Z then Ok (set_fill light_red cell)
    else Ok cell
  else if String.eqb row_key "URL" && negb (PyVal_eqb value (VStr "-")) then
    cell ← set_hyperlink value cell;
    Ok (set_font link_font cell)
  else Ok cell.

(** Lines 106-108 *)
Definition field_value (result : Record) (row_key : string) : PyVal :=
  match dict_get result row_key (VStr "-") with
  | VNone => VStr "-"
  | value => value
  end.

Definition write_data_cell (row_key : string) (current_row : nat)
    (entry : nat * Record) (ws : Cells) : res Cells :=
  let '(col_idx, result) := entry in
  with_cell (col_letter col_idx) current_row
    (format_data_cell row_key (field_value result row_key)) ws.

Definition write_data_row (results : list Record) (descriptor : string * string)
    (st : Cells * nat) : res (Cells * nat) :=
  let '(row_key, row_display) := descriptor in
  let '(ws, current_row) := st in
  ws ← with_cell ord_A current_row
        (fun c => c ← set_value (VStr row_display) c;
                  Ok (set_border (set_alignment HLeft (set_fill subheader_fill
                       (set_font subheader_font c))))) ws;
  ws ← for_each (write_data_cell row_key current_row) (enumerate 2 results) ws;
  Ok (ws, current_row + 1).

(** Line 140 *)
Definition score_fields (table_rows : list (string * string)) : list string :=
  List.filter (contains "Score") (map fst table_rows).

(** Lines 143-147 *)
Definition collect_scores (results : list Record) (score_field : string) : res (list Z) :=
  for_each (fun result scores =>
              let value := dict_get result score_field (VStr "-") in
              is_score ← (if negb (PyVal_eqb value (VStr "-"))
                          then s ← str value; Ok (isdigit s)
                          else Ok false);
              if (is_score : bool)
              then score ← int value; Ok (scores ++ [score])%list
              else Ok scores)
           results [].

Definition ord_B : nat := 66.

(** Lines 142-153 *)
Definition write_average (results : list Record) (score_field : string)
    (st : Cells * nat) : res (Cells * nat) :=
  let '(ws, current_row) := st in
  scores ← collect_scores results score_field;
  match scores with
  | [] => Ok (ws, current_row)
  | _ :: _ =>
      avg_score ← truediv (sum scores) (Z.of_nat (List.length scores));
      ws ← with_cell ord_A current_row
            (set_value (VStr ("Average " +:+ score_field +:+ ":"))) ws;
      ws ← with_cell ord_B current_row
            (set_value (VStr (format_1f avg_score))) ws;
      Ok (ws, current_row + 1)
  end.

(** Lines 157-168: the width of one column; a cell whose [str] raises is
    passed over. *)
Definition max_length (column : list Cell) : nat :=
  fold_left (fun acc cell =>
               match str (value cell) with
               | Ok s => let n := String.length s in if acc <? n then n else acc
               | Raise _ => acc
               end)
            column 0.

Definition adjusted_width (column : list Cell) : nat :=
  Nat.min (Nat.max (max_length column + 2) 10) 50.

(** Lines 156-169 *)
Definition auto_adjust (ws : Cells) : gmap nat nat :=
  fold_left (fun dims column => <[column.1 := adjusted_width column.2]> dims)
            (columns ws) ∅.

Definition sheet_title := "RateMySite Analysis".

(** [create_excel_report(results, filepath, table_rows)]; [now] is the
    timestamp text of line 50.  The result is the worksheet handed to
    [wb.save]. *)
Definition create_excel_report (results : list Record) (now : string)
    (table_rows : list (string * string)) : res Worksheet :=
  let ws : Cells := ∅ in
  ws ← with_cell ord_A 1
        (fun c => c ← set_value (VStr "RateMySite Analysis Report") c;
                  Ok (set_font title_font c)) ws;
  ws ← with_cell ord_A 2 (set_value (VStr ("Generated on: " +:+ now))) ws;
  ws ← with_cell ord_A 3
        (set_value (VStr ("Total sites analyzed: " +:+ str_of_nat (List.length results)))) ws;
  let start_row := 5 in
  let current_row := start_row in
  match results with
  | [] =>
      ws ← with_cell ord_A current_row (set_value (VStr "No results to display")) ws;
      Ok {| title := sheet_title; cells := ws; column_dimensions := ∅ |}
  | _ :: _ =>
      ws ← with_cell ord_A current_row
            (fun c => c ← set_value (VStr "Category") c;
                      Ok (set_border (set_alignment HCenter (set_fill header_fill
                           (set_font header_font c))))) ws;
      ws ← for_each (write_header_cell current_row) (enumerate 2 results) ws;
      let current_row := current_row + 1 in
      '(ws, current_row) ← for_each (write_data_row results) table_rows (ws, current_row);
      let current_row := current_row + 2 in
      ws ← with_cell ord_A current_row
            (fun c => c ← set_value (VStr "Summary Statistics") c;
                      Ok (set_font summary_font c)) ws;
      let current_row := current_row + 1 in
      '(ws, current_row) ← for_each (write_average results) (score_fields table_rows)
                             (ws, current_row);
      Ok {| title := sheet_title; cells := ws; column_dimensions := auto_adjust ws |}
  end.

End Styled.

(** ** The detailed multi-sheet report *)

Module Detailed.
Import Py.

(** A table as [pd.DataFrame] holds it: column labels and, per record, one
    entry per column; [None] is a missing entry (written as an empty
    cell). *)
Record DataFrame := {
  df_columns : list string;
  df_rows : list (list (option PyVal)) }.

Definition mem (x : string) (l : list string) : bool :=
  existsb (String.eqb x) l.

(** The union of the records' keys in first-seen order. *)
Definition union_keys (records : list Record) : list string :=
  fold_left (fun seen k => if mem k seen then seen else (seen ++ [k])%list)
            (concat (map dict_keys records)) [].

(** [pd.DataFrame(records)] for a list of dicts *)
Definition from_records (records : list Record) : DataFrame :=
  let cols := union_keys records in
  {| df_columns := cols;
     df_rows := map (fun r => map (dict_lookup r) cols) records |}.

(** The entries of a row whose column label satisfies [keep]. *)
Fixpoint select {A} (keep : string -> bool) (cols : list string) (row : list A) : list A :=
  match cols, row with
  | c :: cols', x :: row' =>
      if keep c then x :: select keep cols' row' else select keep cols' row'
  | _, _ => []
  end.

(** [df.drop(label, axis=1)] *)
Definition drop (label : string) (df : DataFrame) : DataFrame :=
  let keep := fun c => negb (String.eqb c label) in
  {| df_columns := List.filter keep (df_columns df);
     df_rows := map (select keep (df_columns df)) (df_rows df) |}.

(** The writer session: the sheets written by [to_excel], in order. *)
Definition Writer := list (string * DataFrame).

(** What the openpyxl engine accepts as a cell of a table: any entry but
    a text with a control character. *)
Definition writable_entry (x : option PyVal) : bool :=
  match x with
  | Some (VStr s) => negb (Sheet.illegal_within 32767 s)
  | _ => true
  end.

(** The column labels are written as cells too. *)
Definition writable (df : DataFrame) : bool :=
  forallb (fun label => negb (Sheet.illegal_within 32767 label)) (df_columns df)
  && forallb (forallb writable_entry) (df_rows df).

(** [df.to_excel(writer, sheet_name=..., index=False)] *)
Definition to_excel (df : DataFrame) (sheet_name : string) (writer : Writer) : res Writer :=
  if writable df then Ok (writer ++ [(sheet_name, df)])%list
  else Raise IllegalCharacterError.

(** Leaving the [with] block saves the workbook; openpyxl refuses to save
    a workbook without a visible sheet. *)
Definition writer_exit (writer : Writer) : res Writer :=
  match writer with
  | [] => Raise IndexError_no_sheet
  | _ :: _ => Ok writer
  end.

(** Lines 188-197 *)
Definition summary_row (result : Record) : Record :=
  map (fun key => (key, dict_get result key (VStr "")))
      ["URL"; "Company"; "Overall Score"; "Consumer Score"; "Developer Score";
       "Investor Score"; "Trust Score"; "UX Score"].

Definition score_columns : list string :=
  ["Overall Score"; "Consumer Score"; "Developer Score";
   "Investor Score"; "Clarity Score"; "Visual Design Score";
   "UX Score"; "Trust Score"; "Value Prop Score"].

(** Lines 223-226: [int(value) if value and str(value).isdigit() else None],
    with [None] as well when the conversion raises. *)
Definition score_cell (value : PyVal) : PyVal :=
  match (if truthy value
         then s ← str value;
              if isdigit s then n ← int value; Ok (VInt n) else Ok VNone
         else Ok VNone) with
  | Ok cell => cell
  | Raise _ => VNone
  end.

(** Lines 219-226 *)
Definition scores_row (result : Record) : Record :=
  ("URL", dict_get result "URL" (VStr ""))
  :: map (fun col => (col, score_cell (dict_get result col (VStr "")))) score_columns.

(** The body of the [with] block: the sheets written. *)
Definition detailed_sheets (results : list Record) : res Writer :=
  let writer : Writer := [] in
  let summary_data := map summary_row results in
  writer ←
    match summary_data with
    | [] => Ok writer
    | _ :: _ => to_excel (from_records summary_data) "Summary" writer
    end;
  writer ←
    match results with
    | [] => Ok writer
    | _ :: _ =>
        let detailed_df := from_records results in
        let detailed_df :=
          if mem "_raw" (df_columns detailed_df) then drop "_raw" detailed_df
          else detailed_df in
        to_excel detailed_df "Detailed Data" writer
    end;
  let scores_data := map scores_row results in
  match scores_data with
  | [] => Ok writer
  | _ :: _ => to_excel (from_records scores_data) "Scores Comparison" writer
  end.

(** [create_detailed_excel_report(results, filepath)]: an exception in
    the block passes through the exit of the session. *)
Definition create_detailed_excel_report (results : list Record) : res Writer :=
  writer ← detailed_sheets results;
  writer_exit writer.

(** The sheet of a given name, if written. *)
Definition sheet (name : string) (wb : Writer) : option DataFrame :=
  snd <$> List.find (fun s => String.eqb (fst s) name) wb.

(** The entry of a table at a record position and column label. *)
Definition entry (df : DataFrame) (i : nat) (col : string) : option PyVal :=
  row ← df_rows df !! i;
  p ← List.find (fun p => String.eqb (fst p) col) (combine (df_columns df) row);
  snd p.

End Detailed.

(** * Vocabulary of the properties *)

Section Vocabulary.
Import Py Sheet Styled Detailed.

(** No cell at or below row [n]. *)
Definition below (n : nat) (ws : Cells) : Prop :=
  forall r c : nat, n <= r -> ws !! (r, c) = None.

(** The category cell of a data row: the label, bold 11 on D9E2F3, left,
    bordered. *)
Definition category_cell (label : string) : Cell :=
  {| value := VStr label; font := subheader_font; fill := Some subheader_fill;
     alignment := Some HLeft; border := true; hyperlink := None |}.

(** A cell of the header row: the label, bold white 12 on 366092,
    centred, bordered. *)
Definition header_cell (label : PyVal) : Cell :=
  {| value := label; font := header_font; fill := Some header_fill;
     alignment := Some HCenter; border := true; hyperlink := None |}.

Definition decimal_or_minus (c : ascii) : bool :=
  is_decimal_char c || Ascii.eqb c "-".

(** The scores a field contributes to its average: for each record whose
    value for the field is decimal text, its integer. *)
Definition valid_scores (results : list Record) (field : string) : list Z :=
  omap (fun result =>
          let value := dict_get result field (VStr "-") in
          if decimal_text (text value) then Some (digits_value 0 (text value)) else None)
       results.

(** The score fields that have an average line, with their scores. *)
Definition average_lines (results : list Record) (fields : list string)
  : list (string * list Z) :=
  List.filter (fun line => negb (Nat.eqb (List.length line.2) 0))
              (map (fun field => (field, valid_scores results field)) fields).

(** A cell that holds a text and no style. *)
Definition text_cell (s : string) : Cell :=
  {| value := VStr s; font := default_font; fill := None;
     alignment := None; border := false; hyperlink := None |}.

Definition title_cell : Cell :=
  {| value := VStr "RateMySite Analysis Report"; font := title_font; fill := None;
     alignment := None; border := false; hyperlink := None |}.

Definition summary_title_cell : Cell :=
  {| value := VStr "Summary Statistics"; font := summary_font; fill := None;
     alignment := None; border := false; hyperlink := None |}.

(** The assignments to one header cell (lines 85-89). *)
Definition header_body (result : Record) (c : Cell) : res Cell :=
  c ← set_value (header_label (dict_get result "URL" (VStr "Unknown"))) c;
  Ok (set_border (set_alignment HCenter (set_fill header_fill (set_font header_font c)))).

(** One turn of the loop that collects the scores of a field (lines
    144-147). *)
Definition score_step (score_field : string) (result : Record) (scores : list Z)
  : res (list Z) :=
  let value := dict_get result score_field (VStr "-") in
  is_score ← (if negb (PyVal_eqb value (VStr "-"))
              then s ← str value; Ok (isdigit s)
              else Ok false);
  if (is_score : bool)
  then score ← int value; Ok (scores ++ [score])%list
  else Ok scores.

(** A text without any of the characters a worksheet refuses. *)
Definition clean (s : string) : Prop :=
  all_chars (fun c => negb (illegal_character c)) s = true.

(** A value a cell accepts: anything but a text with a refused character
    among its first 32767. *)
Definition storable (v : PyVal) : bool :=
  match v with
  | VStr s => negb (illegal_within 32767 s)
  | _ => true
  end.

(** The three tiers. *)
Definition tier (score : Z) : string :=
  if (80 <=? score)%Z then light_green
  else if (60 <=? score)%Z then light_yellow
  else light_red.

(** The scenario of the specification: two sites, scores 85 and 55. *)
Definition sample_results : list Record :=
  [ [("URL", VStr "https://a.com"); ("Overall Score", VStr "85")];
    [("URL", VStr "https://b.com"); ("Overall Score", VStr "55")] ].
Definition sample_rows : list (string * string) :=
  [("URL", "URL"); ("Overall Score", "Overall Score")].
Definition sample_now : string := "2024-01-01 12:00:00".

Definition sample_report : Worksheet :=
  match create_excel_report sample_results sample_now sample_rows with
  | Ok w => w
  | Raise _ => {| title := ""; cells := ∅; column_dimensions := ∅ |}
  end.

(** The label the specification describes: the host, that is the text
    between the scheme and the next slash, without a leading "www.";
    the raw value when there is no scheme or the value is not text. *)
Definition spec_label (url : PyVal) : PyVal :=
  match url with
  | VStr s =>
      let host_of rest := hd "" (split rest "/") in
      let strip host := if startswith "www." host then substring 4 (String.length host - 4) host
                        else host in
      if startswith "http://" s then VStr (strip (host_of (substring 7 (String.length s - 7) s)))
      else if startswith "https://" s then VStr (strip (host_of (substring 8 (String.length s - 8) s)))
      else url
  | _ => url
  end.

(** The length of a cell's value as the sizing loop measures it: that
    of [str(cell.value)], and nothing when [str] raises. *)
Definition text_length (cell : Cell) : nat :=
  match str (value cell) with
  | Ok s => String.length s
  | Raise _ => 0
  end.

(** The length of the longest text written in column [c]; a cell holding
    [None] has no text. *)
Definition max_text_length (ws : Cells) (c : nat) : nat :=
  max_list_with
    (fun entry : nat * nat * Cell =>
       match value entry.2 with
       | VNone => 0
       | _ => if entry.1.2 =? c then text_length entry.2 else 0
       end)
    (map_to_list ws).

(** Two sites whose headers are 3 and 60 characters long. *)
Definition width_results : list Record :=
  [ [("URL", VStr "abc")];
    [("URL", VStr "012345678901234567890123456789012345678901234567890123456789")] ].

Definition width_report : Worksheet :=
  match create_excel_report width_results sample_now [] with
  | Ok w => w
  | Raise _ => {| title := ""; cells := ∅; column_dimensions := ∅ |}
  end.

(** Three records whose values for one score field are 80, "-" and 60. *)
Definition average_results : list Record :=
  [ [("Overall Score", VInt 80)];
    [("Overall Score", VStr "-")];
    [("Overall Score", VInt 60)] ].
Definition average_rows : list (string * string) :=
  [("Overall Score", "Overall Score")].

Definition average_report : Worksheet :=
  match create_excel_report average_results sample_now average_rows with
  | Ok w => w
  | Raise _ => {| title := ""; cells := ∅; column_dimensions := ∅ |}
  end.

Definition add_key (seen : list string) (k : string) : list string :=
  if mem k seen then seen else (seen ++ [k])%list.

(** A record that carries a "_raw" payload. *)
Definition raw_results : list Record :=
  [ [("URL", VStr "https://a.com"); ("_raw", VStr "{...}"); ("Company", VStr "A")] ].

(** Two records: "85" and "N/A" under "Overall Score", and nothing or ""
    under "UX Score". *)
Definition scores_results : list Record :=
  [ [("URL", VStr "https://a.com"); ("Overall Score", VStr "85")];
    [("URL", VStr "https://b.com"); ("Overall Score", VStr "N/A"); ("UX Score", VStr "")] ].

(** What an exception of the styled report tells about the call: the
    coordinate error is that of the 26th header cell, an invalid literal
    is a text that [isdigit] accepts without its being decimal digits,
    and three exceptions never occur. *)
Definition raise_cause (results : list Record) (e : exn) : Prop :=
  match e with
  | ZeroDivisionError | TypeError_int | IndexError_no_sheet => False
  | ValueError_coordinate c r => c = 91 /\ r = 5 /\ 25 < List.length results
  | ValueError_int s => isdigit s = true /\ decimal_text s = false
  | _ => True
  end.

(** A digit string one digit longer than the interpreter converts. *)
Definition long_digits : string :=
  string_of_list_ascii (repeat "1"%char (S int_max_str_digits)).

Definition long_digits_results : list Record :=
  [ [("URL", VStr "https://a.com"); ("Overall Score", VStr long_digits)] ].

(** The workbook of a scenario of the detailed report. *)
Definition workbook_of (results : list Record) : Writer :=
  match create_detailed_excel_report results with
  | Ok wb => wb
  | Raise _ => []
  end.

(** The sheet after lines 48-51: title, timestamp and record count. *)
Definition title_block (results : list Record) (now : string) : Cells :=
  <[(3, 1) := text_cell ("Total sites analyzed: " +:+ str_of_nat (List.length results))]>
    (<[(2, 1) := text_cell ("Generated on: " +:+ now)]>
       (<[(1, 1) := title_cell]> ∅)).

(** Every row of a table has one entry per column. *)
Definition rectangular (df : DataFrame) : Prop :=
  forall row, In row (df_rows df) -> List.length row = List.length (df_columns df).

(** Records whose "Overall Score" is an integer object: 85, -5 and 0. *)
Definition integer_results : list Record :=
  [ [("URL", VStr "https://a.com"); ("Overall Score", VInt 85)];
    [("URL", VStr "https://b.com"); ("Overall Score", VInt (-5))];
    [("URL", VStr "https://c.com"); ("Overall Score", VInt 0)] ].

Definition integer_report : Worksheet :=
  match create_excel_report integer_results sample_now sample_rows with
  | Ok w => w
  | Raise _ => {| title := ""; cells := ∅; column_dimensions := ∅ |}
  end.

(** A score written with a superscript digit. *)
Definition superscript_results : list Record :=
  [ [("URL", VStr "https://a.com");
     ("Overall Score", VStr (String (ascii_of_nat 178) EmptyString))] ].

End Vocabulary.

(** * Properties *)

(** ** The error monad and the loops *)

Lemma bind_Ok {A B} (m : res A) (k : A -> res B) (b : B) :
  m ≫= k = Ok b <-> exists a, m = Ok a /\ k a = Ok b.
Proof.
  destruct m as [a|e]; simpl.
  - split; [intros H; exists a; auto | intros (a' & Ha & Hk); congruence].
  - split; [discriminate | intros (a' & Ha & _); discriminate].
Qed.

Lemma bind_Ok_l {A B} (a : A) (k : A -> res B) : Ok a ≫= k = k a.
Proof. reflexivity. Qed.

(** Turns every hypothesis [x ← m; k = Ok b] into its two halves. *)
Ltac bind_inv :=
  repeat match goal with
  | H : _ ≫= _ = Ok _ |- _ =>
      apply bind_Ok in H; destruct H as (? & ? & H)
  | H : Ok _ = Ok _ |- _ => injection H as H; try subst
  | H : Raise _ = Ok _ |- _ => discriminate H
  end.

(** Reads the cells the report builds from a fresh cell as the cells of
    the vocabulary. *)
Ltac cell_shapes :=
  repeat match goal with
  | H : context [Sheet.set_font Styled.title_font
                   (Sheet.store_value (Py.VStr "RateMySite Analysis Report")
                      Sheet.empty_cell)] |- _ =>
      change (Sheet.set_font Styled.title_font
                (Sheet.store_value (Py.VStr "RateMySite Analysis Report") Sheet.empty_cell))
        with title_cell in H
  | |- context [Sheet.set_font Styled.title_font
                  (Sheet.store_value (Py.VStr "RateMySite Analysis Report")
                     Sheet.empty_cell)] =>
      change (Sheet.set_font Styled.title_font
                (Sheet.store_value (Py.VStr "RateMySite Analysis Report") Sheet.empty_cell))
        with title_cell
  | H : context [Sheet.set_font Styled.summary_font
                   (Sheet.store_value (Py.VStr "Summary Statistics") Sheet.empty_cell)] |- _ =>
      change (Sheet.set_font Styled.summary_font
                (Sheet.store_value (Py.VStr "Summary Statistics") Sheet.empty_cell))
        with summary_title_cell in H
  | |- context [Sheet.set_font Styled.summary_font
                  (Sheet.store_value (Py.VStr "Summary Statistics") Sheet.empty_cell)] =>
      change (Sheet.set_font Styled.summary_font
                (Sheet.store_value (Py.VStr "Summary Statistics") Sheet.empty_cell))
        with summary_title_cell
  | H : context [Sheet.set_border (Sheet.set_alignment Sheet.HCenter
                   (Sheet.set_fill Styled.header_fill (Sheet.set_font Styled.header_font
                      (Sheet.store_value ?v Sheet.empty_cell))))] |- _ =>
      change (Sheet.set_border (Sheet.set_alignment Sheet.HCenter
                (Sheet.set_fill Styled.header_fill (Sheet.set_font Styled.header_font
                   (Sheet.store_value v Sheet.empty_cell)))))
        with (header_cell v) in H
  | |- context [Sheet.set_border (Sheet.set_alignment Sheet.HCenter
                  (Sheet.set_fill Styled.header_fill (Sheet.set_font Styled.header_font
                     (Sheet.store_value ?v Sheet.empty_cell))))] =>
      change (Sheet.set_border (Sheet.set_alignment Sheet.HCenter
                (Sheet.set_fill Styled.header_fill (Sheet.set_font Styled.header_font
                   (Sheet.store_value v Sheet.empty_cell)))))
        with (header_cell v)
  | H : context [Sheet.set_border (Sheet.set_alignment Sheet.HLeft
                   (Sheet.set_fill Styled.subheader_fill
                      (Sheet.set_font Styled.subheader_font
                         (Sheet.store_value (Py.VStr ?t) Sheet.empty_cell))))] |- _ =>
      change (Sheet.set_border (Sheet.set_alignment Sheet.HLeft
                (Sheet.set_fill Styled.subheader_fill
                   (Sheet.set_font Styled.subheader_font
                      (Sheet.store_value (Py.VStr t) Sheet.empty_cell)))))
        with (category_cell t) in H
  | |- context [Sheet.set_border (Sheet.set_alignment Sheet.HLeft
                  (Sheet.set_fill Styled.subheader_fill
                     (Sheet.set_font Styled.subheader_font
                        (Sheet.store_value (Py.VStr ?t) Sheet.empty_cell))))] =>
      change (Sheet.set_border (Sheet.set_alignment Sheet.HLeft
                (Sheet.set_fill Styled.subheader_fill
                   (Sheet.set_font Styled.subheader_font
                      (Sheet.store_value (Py.VStr t) Sheet.empty_cell)))))
        with (category_cell t)
  | H : context [Sheet.store_value (Py.VStr ?t) Sheet.empty_cell] |- _ =>
      change (Sheet.store_value (Py.VStr t) Sheet.empty_cell) with (text_cell t) in H
  | |- context [Sheet.store_value (Py.VStr ?t) Sheet.empty_cell] =>
      change (Sheet.store_value (Py.VStr t) Sheet.empty_cell) with (text_cell t)
  end.

(** Two cell keys differ. *)
Ltac key_ne := let E := fresh in intros E; injection E; intros; lia.

Lemma length_enumerate {A} (xs : list A) start :
  List.length (enumerate start xs) = List.length xs.
Proof. revert start; induction xs; intros; simpl; auto. Qed.

(** ** Coordinates *)

Section Coordinates.
Import Py Sheet Styled.

Lemma column_index_col_letter col_idx :
  1 <= col_idx <= 26 -> column_index (col_letter col_idx) = Some col_idx.
Proof.
  intros H. unfold column_index, col_letter, ord_A.
  destruct (Nat.leb_spec 65 (65 + col_idx - 1)); [|lia].
  destruct (Nat.leb_spec (65 + col_idx - 1) 90); [|lia].
  simpl. f_equal. lia.
Qed.

(** The 26th record (column index 27) gets the character after [Z]. *)
Lemma column_index_past_Z : column_index (col_letter 27) = None.
Proof. reflexivity. Qed.

Lemma column_index_Some l c :
  column_index l = Some c ->
  (65 <= l <= 90 /\ c = l - 64) \/ (97 <= l <= 122 /\ c = l - 96).
Proof.
  unfold column_index. intros Hc.
  repeat match type of Hc with
         | (if ?b then _ else _) = _ => destruct b eqn:?
         end; try discriminate; injection Hc as <-;
  repeat match goal with
         | H : (_ && _) = true |- _ => apply andb_prop in H; destruct H
         | H : (_ <=? _) = true |- _ => apply Nat.leb_le in H
         end; lia.
Qed.

Lemma coordinate_Ok l row k :
  coordinate l row = Ok k ->
  exists c, column_index l = Some c /\ k = (row, c) /\ 1 <= row /\ 1 <= c.
Proof.
  unfold coordinate. destruct (column_index l) as [c|] eqn:Hc; [|discriminate].
  destruct (Nat.eqb_spec row 0); [discriminate|].
  intros [= <-]. exists c. apply column_index_Some in Hc.
  repeat split; auto; lia.
Qed.

Lemma with_cell_Ok (l row : nat) (f : Cell -> res Cell) (ws ws' : Cells) :
  with_cell l row f ws = Ok ws' ->
  exists c cell, column_index l = Some c /\ 1 <= row /\ 1 <= c /\
                 f (cell_at ws (row, c)) = Ok cell /\
                 ws' = <[(row, c) := cell]> ws.
Proof.
  unfold with_cell. intros H. bind_inv.
  match goal with Hc : coordinate _ _ = Ok _ |- _ =>
    apply coordinate_Ok in Hc; destruct Hc as (c & Hc & -> & ? & ?) end.
  eauto 10.
Qed.

(** Assigning a value: the check, then the store. *)
Lemma set_value_Ok (v : PyVal) (c c' : Cell) :
  set_value v c = Ok c' <-> storable v = true /\ c' = store_value v c.
Proof.
  unfold set_value, check_string, storable. destruct v as [| | |s]; simpl;
    try (split; [intros [= <-]; auto | intros [_ ->]; reflexivity]).
  destruct (illegal_within 32767 s); simpl.
  - split; [discriminate | intros [[=] _]].
  - split; [intros [= <-]; auto | intros [_ ->]; reflexivity].
Qed.

Lemma set_value_storable (v : PyVal) (c : Cell) :
  storable v = true -> set_value v c = Ok (store_value v c).
Proof. intros H. by apply set_value_Ok. Qed.

Lemma clean_within (s : string) : clean s -> forall n, illegal_within n s = false.
Proof.
  unfold clean. induction s as [|c s IH]; simpl; intros H n; [reflexivity|].
  apply andb_prop in H. destruct H as [Hc Hs].
  destruct (n =? 0)%N; [reflexivity|].
  apply negb_true_iff in Hc. rewrite Hc. simpl. by apply IH.
Qed.

Lemma clean_storable (s : string) : clean s -> storable (VStr s) = true.
Proof. intros H. simpl. by rewrite clean_within. Qed.

Lemma clean_app (s t : string) : clean s -> clean t -> clean (s +:+ t).
Proof.
  unfold clean. induction s as [|c s IH]; simpl; [auto|].
  intros [-> Hs]%andb_prop Ht. simpl. auto.
Qed.

(** A cell that is assigned a value and then styled. *)
Lemma with_cell_value (l row c : nat) (v : PyVal) (g : Cell -> Cell) (ws ws' : Cells) :
  column_index l = Some c ->
  with_cell l row (fun x => x ← set_value v x; Ok (g x)) ws = Ok ws' ->
  1 <= row /\ storable v = true /\
  ws' = <[(row, c) := g (store_value v (cell_at ws (row, c)))]> ws.
Proof.
  intros Hl H. apply with_cell_Ok in H.
  destruct H as (c' & cell & Hc & Hrow & _ & Hcell & ->).
  rewrite Hl in Hc. injection Hc as <-.
  apply bind_Ok in Hcell. destruct Hcell as (x & Hx & [= <-]).
  apply set_value_Ok in Hx. destruct Hx as [Hv ->]. auto.
Qed.

Lemma with_cell_set (l row c : nat) (v : PyVal) (ws ws' : Cells) :
  column_index l = Some c ->
  with_cell l row (set_value v) ws = Ok ws' ->
  1 <= row /\ storable v = true /\
  ws' = <[(row, c) := store_value v (cell_at ws (row, c))]> ws.
Proof.
  intros Hl H. apply with_cell_Ok in H.
  destruct H as (c' & cell & Hc & Hrow & _ & Hcell & ->).
  rewrite Hl in Hc. injection Hc as <-.
  apply set_value_Ok in Hcell. destruct Hcell as [Hv ->]. auto.
Qed.

Lemma with_cell_eq (l row c : nat) (f : Cell -> res Cell) (ws : Cells) :
  column_index l = Some c -> 1 <= row ->
  with_cell l row f ws
  = (cell ← f (cell_at ws (row, c)); Ok (<[(row, c) := cell]> ws)).
Proof.
  intros Hl Hrow. unfold with_cell, coordinate. rewrite Hl.
  destruct (Nat.eqb_spec row 0); [lia|]. reflexivity.
Qed.

Lemma with_cell_value_eq (l row c : nat) (v : PyVal) (g : Cell -> Cell) (ws : Cells) :
  column_index l = Some c -> 1 <= row -> storable v = true ->
  with_cell l row (fun x => x ← set_value v x; Ok (g x)) ws
  = Ok (<[(row, c) := g (store_value v (cell_at ws (row, c)))]> ws).
Proof.
  intros Hl Hrow Hv. rewrite (with_cell_eq _ _ c) by auto.
  by rewrite set_value_storable.
Qed.

Lemma with_cell_set_eq (l row c : nat) (v : PyVal) (ws : Cells) :
  column_index l = Some c -> 1 <= row -> storable v = true ->
  with_cell l row (set_value v) ws
  = Ok (<[(row, c) := store_value v (cell_at ws (row, c))]> ws).
Proof.
  intros Hl Hrow Hv. rewrite (with_cell_eq _ _ c) by auto.
  by rewrite set_value_storable.
Qed.

Lemma cell_at_insert_ne (ws : Cells) (k k' : nat * nat) (cell : Cell) :
  k <> k' -> cell_at (<[k := cell]> ws) k' = cell_at ws k'.
Proof. intros. unfold cell_at. by rewrite lookup_insert_ne. Qed.

Lemma cell_at_None (ws : Cells) (k : nat * nat) : ws !! k = None -> cell_at ws k = empty_cell.
Proof. unfold cell_at. by intros ->. Qed.

(** A loop that assigns one cell per record along a row (the header row
    and every data row): it completes only while the column letters stay
    within [A-Z], touches that row at the records' columns only, and
    leaves in each the cell its body computes. *)
Lemma row_loop_Ok {A} (g : A -> Cell -> res Cell) (row : nat) (xs : list A) :
  forall (start : nat) (ws ws' : Cells),
    1 <= start <= 27 ->
    for_each (fun (entry : nat * A) ws =>
                with_cell (col_letter entry.1) row (g entry.2) ws)
             (enumerate start xs) ws = Ok ws' ->
    (xs <> [] -> start + List.length xs <= 27 /\ 1 <= row) /\
    (forall r c, r <> row \/ c < start \/ start + List.length xs <= c ->
                 ws' !! (r, c) = ws !! (r, c)) /\
    (forall i x, xs !! i = Some x ->
                 exists cell, g x (cell_at ws (row, start + i)) = Ok cell /\
                              ws' !! (row, start + i) = Some cell).
Proof.
  induction xs as [|x xs IH]; intros start ws ws' Hs H; simpl in H.
  - injection H as <-. split; [congruence|]. split; [auto|]. intros i x Hx. discriminate.
  - apply bind_Ok in H. destruct H as (ws1 & H1 & H).
    apply with_cell_Ok in H1. simpl in H1.
    destruct H1 as (c & cell & Hc & Hrow & Hc1 & Hg & ->).
    assert (start <= 26 /\ c = start) as [Hle ->].
    { destruct (Nat.le_gt_cases start 26) as [Hle|Hgt].
      - rewrite column_index_col_letter in Hc by lia. split; [auto|congruence].
      - exfalso. apply column_index_Some in Hc.
        unfold col_letter, ord_A in Hc. lia. }
    apply IH in H; [|lia]. destruct H as (Hlen & Hframe & Hcells).
    split; [|split].
    + intros _. simpl. destruct xs as [|y ys]; [simpl; lia|].
      destruct Hlen as [Hlen _]; [congruence|]. simpl in *. lia.
    + intros r c Hrc. simpl in Hrc. rewrite Hframe by lia.
      apply lookup_insert_ne. intros [= -> ->]. lia.
    + intros [|i] y Hy; simpl in Hy.
      * injection Hy as <-. replace (start + 0) with start by lia.
        exists cell. split; [auto|].
        rewrite Hframe by lia. apply lookup_insert_eq.
      * destruct (Hcells i y Hy) as (cell' & Hg' & Hl).
        replace (start + S i) with (S start + i) by lia.
        exists cell'. split; [|auto].
        rewrite cell_at_insert_ne in Hg'; [auto|]. intros [= ?]. lia.
Qed.

End Coordinates.

(** ** The table of the styled report *)

Section StyledTable.
Import Py Sheet Styled.

Lemma for_each_ext {A S} (f g : A -> S -> res S) xs s :
  (forall x s, f x s = g x s) -> for_each f xs s = for_each g xs s.
Proof.
  intros Hfg. revert s. induction xs as [|x xs IH]; intros s; simpl; [auto|].
  rewrite Hfg. destruct (g x s); simpl; auto.
Qed.

Lemma dict_get_lookup (d : Record) key default :
  dict_get d key default = from_option id default (dict_lookup d key).
Proof.
  induction d as [|[k v] d IH]; simpl; [auto|]. destruct (String.eqb k key); auto.
Qed.

Lemma header_body_Ok (result : Record) (cell : Cell) :
  header_body result empty_cell = Ok cell ->
  storable (header_label (dict_get result "URL" (VStr "Unknown"))) = true /\
  cell = header_cell (header_label (dict_get result "URL" (VStr "Unknown"))).
Proof.
  unfold header_body. intros H. apply bind_Ok in H. destruct H as (c & Hc & [= <-]).
  apply set_value_Ok in Hc. destruct Hc as [Hv ->]. auto.
Qed.

Lemma header_body_Raise (result : Record) (c : Cell) (e : exn) :
  header_body result c = Raise e -> e = IllegalCharacterError.
Proof.
  unfold header_body, set_value, check_string.
  destruct (header_label _) as [| | |s]; simpl; try discriminate.
  destruct (illegal_within 32767 s); simpl; [|discriminate]. by intros [= <-].
Qed.

Lemma header_loop_Ok (results : list Record) (row : nat) (ws ws' : Cells) :
  for_each (write_header_cell row) (enumerate 2 results) ws = Ok ws' ->
  (forall c : nat, 2 <= c -> ws !! (row, c) = None) ->
  (results <> [] -> List.length results <= 25) /\
  (forall r c : nat, r <> row -> ws' !! (r, c) = ws !! (r, c)) /\
  (forall c : nat, c < 2 -> ws' !! (row, c) = ws !! (row, c)) /\
  (forall i result, results !! i = Some result ->
     ws' !! (row, 2 + i)
     = Some (header_cell (header_label (dict_get result "URL" (VStr "Unknown"))))).
Proof.
  intros H Hb.
  rewrite (for_each_ext _
    (fun (entry : nat * Record) ws =>
       with_cell (col_letter entry.1) row (header_body entry.2) ws))
    in H by (intros [] ?; reflexivity).
  apply (row_loop_Ok header_body) in H; [|lia].
  destruct H as (Hlen & Hframe & Hcells).
  split; [intros Hne; specialize (Hlen Hne); lia|].
  split; [intros; apply Hframe; auto|].
  split; [intros; apply Hframe; auto|].
  intros i result Hi. destruct (Hcells i result Hi) as (cell & Hcell & ->).
  rewrite cell_at_None in Hcell by (apply Hb; lia).
  apply header_body_Ok in Hcell. destruct Hcell as [_ ->]. reflexivity.
Qed.

(** With more records than the letters B to Z can name, the header loop
    stops at the 26th, unless a label before it is refused. *)
Lemma header_loop_overflow (row : nat) (results : list Record) :
  1 <= row ->
  forall (start : nat) (ws : Cells),
    1 <= start <= 27 -> 27 < start + List.length results ->
    exists e,
      for_each (write_header_cell row) (enumerate start results) ws = Raise e /\
      (e = ValueError_coordinate 91 row \/ e = IllegalCharacterError).
Proof.
  intros Hrow.
  induction results as [|result results IH]; intros start ws Hs Hlen; simpl in *; [lia|].
  destruct (decide (start = 27)) as [->|Hne].
  - exists (ValueError_coordinate 91 row). split; [|by left].
    unfold write_header_cell, with_cell, coordinate. reflexivity.
  - unfold write_header_cell at 1.
    rewrite (with_cell_eq _ _ start) by (try apply column_index_col_letter; lia).
    fold (header_body result (cell_at ws (row, start))).
    destruct (header_body result (cell_at ws (row, start))) as [cell|e] eqn:Hcell; simpl.
    + apply IH; lia.
    + exists e. split; [reflexivity|]. right. by eapply header_body_Raise.
Qed.

(** When every label can be stored, it is the 26th header cell that
    raises. *)
Lemma header_loop_overflow_storable (row : nat) (results : list Record) :
  1 <= row ->
  (forall result, In result results ->
     storable (header_label (dict_get result "URL" (VStr "Unknown"))) = true) ->
  forall (start : nat) (ws : Cells),
    1 <= start <= 27 -> 27 < start + List.length results ->
    for_each (write_header_cell row) (enumerate start results) ws
    = Raise (ValueError_coordinate 91 row).
Proof.
  intros Hrow.
  induction results as [|result results IH]; intros Hst start ws Hs Hlen; simpl in *; [lia|].
  destruct (decide (start = 27)) as [->|Hne].
  - unfold write_header_cell, with_cell, coordinate. reflexivity.
  - unfold write_header_cell at 1.
    rewrite (with_cell_value_eq _ _ start)
      by (try apply column_index_col_letter; try apply Hst; auto; lia).
    simpl. apply IH; [auto|lia|lia].
Qed.

(** One data row: the category cell in column A and, per record, the cell
    [format_data_cell] computes from a fresh cell. *)
Lemma data_row_Ok (results : list Record) (row_key row_display : string)
    (ws ws' : Cells) (row row' : nat) :
  write_data_row results (row_key, row_display) (ws, row) = Ok (ws', row') ->
  below row ws ->
  row' = row + 1 /\ 1 <= row /\
  (forall r c : nat, r <> row -> ws' !! (r, c) = ws !! (r, c)) /\
  ws' !! (row, 1) = Some (category_cell row_display) /\
  (forall i result, results !! i = Some result ->
     exists cell,
       format_data_cell row_key (field_value result row_key) empty_cell = Ok cell /\
       ws' !! (row, 2 + i) = Some cell).
Proof.
  unfold write_data_row. intros H Hb. bind_inv.
  match goal with H1 : with_cell _ _ _ _ = Ok _ |- _ =>
    apply (with_cell_value _ _ 1) in H1; [|reflexivity];
    destruct H1 as (Hrow & _ & ->) end.
  match goal with H1 : for_each _ _ _ = Ok _ |- _ => rename H1 into Hloop end.
  rewrite cell_at_None in Hloop by (apply Hb; lia).
  rewrite (for_each_ext _
    (fun (entry : nat * Record) ws =>
       with_cell (col_letter entry.1) row
         (format_data_cell row_key (field_value entry.2 row_key)) ws))
    in Hloop by (intros [] ?; reflexivity).
  apply (row_loop_Ok (fun (result : Record) =>
           format_data_cell row_key (field_value result row_key))) in Hloop; [|lia].
  destruct Hloop as (_ & Hframe & Hcells).
  split; [auto|]. split; [auto|].
  split.
  { intros r c Hr. rewrite Hframe by auto. apply lookup_insert_ne. intros [= ? ?]. lia. }
  split.
  { rewrite Hframe by lia. apply lookup_insert_eq. }
  intros i result Hi. destruct (Hcells i result Hi) as (cell & Hcell & Hl).
  exists cell. split; [|auto].
  rewrite cell_at_insert_ne in Hcell by (intros [= ?]; lia).
  rewrite cell_at_None in Hcell by (apply Hb; lia). auto.
Qed.

Lemma data_rows_Ok (results : list Record) (table_rows : list (string * string)) :
  forall (ws ws' : Cells) (row row' : nat),
    for_each (write_data_row results) table_rows (ws, row) = Ok (ws', row') ->
    below row ws ->
    row' = row + List.length table_rows /\
    (forall r c : nat, r < row -> ws' !! (r, c) = ws !! (r, c)) /\
    below row' ws' /\
    (forall j row_key row_display,
       table_rows !! j = Some (row_key, row_display) ->
       ws' !! (row + j, 1) = Some (category_cell row_display) /\
       forall i result, results !! i = Some result ->
         exists cell,
           format_data_cell row_key (field_value result row_key) empty_cell = Ok cell /\
           ws' !! (row + j, 2 + i) = Some cell).
Proof.
  induction table_rows as [|[row_key row_display] table_rows IH];
    intros ws ws' row row' H Hb; simpl in H.
  - injection H as <- <-. simpl. split; [lia|]. split; [auto|]. split; [auto|].
    intros j ? ? Hj. discriminate.
  - apply bind_Ok in H. destruct H as ([ws1 row1] & H1 & H).
    apply data_row_Ok in H1; [|auto].
    destruct H1 as (-> & Hrow & Hframe1 & Hcat & Hcells1).
    assert (Hb1 : below (row + 1) ws1).
    { intros r c Hr. rewrite Hframe1 by lia. apply Hb. lia. }
    apply IH in H; [|auto]. destruct H as (-> & Hframe & Hb' & Hcells).
    split; [simpl; lia|].
    split. { intros r c Hr. rewrite Hframe by lia. apply Hframe1. lia. }
    split. { intros r c Hr. apply Hb'. simpl in Hr. lia. }
    intros [|j] key label Hj; simpl in Hj.
    + injection Hj as <- <-. replace (row + 0) with row by lia.
      split. { rewrite Hframe by lia. auto. }
      intros i result Hi. destruct (Hcells1 i result Hi) as (cell & Hcell & Hl).
      exists cell. split; [auto|]. rewrite Hframe by lia. auto.
    + replace (row + S j) with (row + 1 + j) by lia. apply Hcells. auto.
Qed.

End StyledTable.

(** ** Digits *)

Section Digits.
Import Py.

Lemma all_chars_impl (p q : ascii -> bool) s :
  (forall c, p c = true -> q c = true) -> all_chars p s = true -> all_chars q s = true.
Proof.
  intros Hpq. induction s as [|c s IH]; simpl; [auto|].
  intros [Hc Hs]%andb_prop. rewrite (Hpq c Hc). simpl. auto.
Qed.

Lemma all_chars_and (p q : ascii -> bool) s :
  all_chars p s = true -> all_chars q s = true ->
  all_chars (fun c => p c && q c) s = true.
Proof.
  induction s as [|c s IH]; simpl; [auto|].
  intros [Hc Hs]%andb_prop [Hc' Hs']%andb_prop. rewrite Hc, Hc'. simpl. auto.
Qed.

Lemma decimal_is_digit c : is_decimal_char c = true -> is_digit_char c = true.
Proof. unfold is_digit_char. intros ->. reflexivity. Qed.

Lemma decimal_text_isdigit s : decimal_text s = true -> isdigit s = true.
Proof.
  unfold decimal_text, isdigit. intros [-> H]%andb_prop. simpl.
  eapply all_chars_impl; [apply decimal_is_digit | exact H].
Qed.

Lemma string_of_uint_chars d :
  all_chars is_decimal_char (NilEmpty.string_of_uint d) = true.
Proof. induction d; simpl; auto. Qed.

Lemma str_of_Z_chars z : all_chars decimal_or_minus (str_of_Z z) = true.
Proof.
  unfold str_of_Z. destruct (Z.to_int z) as [d|d]; simpl.
  - eapply all_chars_impl; [|apply string_of_uint_chars].
    intros c Hc. unfold decimal_or_minus. by rewrite Hc.
  - eapply all_chars_impl; [|apply string_of_uint_chars].
    intros c Hc. unfold decimal_or_minus. by rewrite Hc.
Qed.

Lemma digit_and_decimal_or_minus c :
  is_digit_char c && decimal_or_minus c = true -> is_decimal_char c = true.
Proof.
  unfold decimal_or_minus. intros [Hd [H|H]%orb_prop]%andb_prop; [auto|].
  apply Ascii.eqb_eq in H. subst c. discriminate Hd.
Qed.

(** The text of an integer passes [isdigit] only if it is decimal text. *)
Lemma isdigit_str_of_Z z : isdigit (str_of_Z z) = true -> decimal_text (str_of_Z z) = true.
Proof.
  unfold isdigit, decimal_text. intros [-> H]%andb_prop. simpl.
  eapply all_chars_impl; [apply digit_and_decimal_or_minus|].
  apply all_chars_and; [exact H | apply str_of_Z_chars].
Qed.

(** Whenever the guard [str(value).isdigit()] holds and [int(value)]
    returns, the value's text is decimal text. *)
Lemma isdigit_int_decimal v n :
  isdigit (text v) = true -> int v = Ok n -> decimal_text (text v) = true.
Proof.
  destruct v as [|[]|z|s]; simpl; try discriminate.
  - intros H _. by apply isdigit_str_of_Z.
  - intros _. destruct (int_max_str_digits <? leading_decimals s); [discriminate|].
    by destruct (decimal_text s).
Qed.

(** [str] returns the text of the value, and raises on the long integers
    only. *)
Lemma str_Ok (v : PyVal) (s : string) : str v = Ok s -> s = text v.
Proof.
  destruct v as [|b|z|t]; simpl; try (by intros [= <-]).
  destruct (int_max_str_digits <? decimal_digits z); [discriminate|]. by intros [= <-].
Qed.

Lemma str_Raise (v : PyVal) (e : exn) :
  str v = Raise e ->
  e = ValueError_digits /\
  exists z, v = VInt z /\ int_max_str_digits < decimal_digits z.
Proof.
  destruct v as [|b|z|t]; simpl; try discriminate.
  destruct (Nat.ltb_spec int_max_str_digits (decimal_digits z)); [|discriminate].
  intros [= <-]. eauto.
Qed.

Lemma leading_decimals_all (s : string) :
  all_chars is_decimal_char s = true -> leading_decimals s = String.length s.
Proof.
  induction s as [|c s IH]; simpl; [reflexivity|].
  intros [-> Hs]%andb_prop. f_equal. auto.
Qed.

Lemma leading_decimals_le (s : string) : leading_decimals s <= String.length s.
Proof.
  induction s as [|c s IH]; simpl; [lia|]. destruct (is_decimal_char c); lia.
Qed.

Lemma decimal_text_not_dash v :
  decimal_text (text v) = true -> PyVal_eqb v (VStr "-") = false.
Proof.
  destruct v as [|[]|z|s]; simpl; auto.
  destruct (String.eqb_spec s "-") as [->|]; [discriminate|auto].
Qed.

Lemma digits_value_of_uint_acc d acc :
  digits_value (Z.pos acc) (NilEmpty.string_of_uint d) = Z.pos (Pos.of_uint_acc d acc).
Proof.
  revert acc. induction d; intros acc; simpl; auto;
    match goal with
    | |- digits_value ?z _ = Z.pos (Pos.of_uint_acc _ ?p) =>
        replace z with (Z.pos p) by (unfold ord; simpl; lia)
    end; apply IHd.
Qed.

Lemma digits_value_of_uint d :
  digits_value 0 (NilEmpty.string_of_uint d) = Z.of_N (Pos.of_uint d).
Proof.
  induction d; simpl; auto;
    match goal with
    | |- digits_value ?z _ = Z.pos (Pos.of_uint_acc _ ?p) =>
        replace z with (Z.pos p) by (unfold ord; simpl; lia)
    end; apply digits_value_of_uint_acc.
Qed.

(** Reading back the text of a non-negative integer gives the integer. *)
Lemma digits_value_str_of_Z z : (0 <= z)%Z -> digits_value 0 (str_of_Z z) = z.
Proof.
  intros Hz. unfold str_of_Z. destruct z as [|p|p]; [reflexivity| |lia].
  simpl. rewrite digits_value_of_uint.
  rewrite DecimalPos.Unsigned.of_to. reflexivity.
Qed.

Lemma decimal_text_str_of_Z z : decimal_text (str_of_Z z) = true -> (0 <= z)%Z.
Proof.
  destruct z as [|p|p]; [lia|lia|]. unfold str_of_Z. simpl. discriminate.
Qed.

(** [int] of a value whose text is decimal is the number the text
    denotes. *)
Lemma int_decimal_text v n :
  decimal_text (text v) = true -> int v = Ok n -> n = digits_value 0 (text v).
Proof.
  destruct v as [|[]|z|s]; simpl; try discriminate.
  - intros H [= <-]. by rewrite digits_value_str_of_Z by (by apply decimal_text_str_of_Z).
  - intros ->. destruct (int_max_str_digits <? leading_decimals s); [discriminate|].
    by intros [= <-].
Qed.

(** Decimal text within the limit converts, and is what [str] gives. *)
Lemma int_short_decimal v :
  decimal_text (text v) = true -> String.length (text v) <= int_max_str_digits ->
  int v = Ok (digits_value 0 (text v)).
Proof.
  destruct v as [|[]|z|s]; simpl; try discriminate.
  - intros H _. by rewrite digits_value_str_of_Z by (by apply decimal_text_str_of_Z).
  - intros Hd Hlen. rewrite Hd.
    destruct (Nat.ltb_spec int_max_str_digits (leading_decimals s)); [|reflexivity].
    pose proof (leading_decimals_le s). lia.
Qed.

Lemma str_short_decimal v :
  decimal_text (text v) = true -> String.length (text v) <= int_max_str_digits ->
  str v = Ok (text v).
Proof.
  destruct v as [|[]|z|s]; simpl; try discriminate; [|reflexivity].
  intros Hd Hlen. apply decimal_text_str_of_Z in Hd.
  unfold decimal_digits. rewrite Z.abs_eq by lia.
  destruct (Nat.ltb_spec int_max_str_digits (String.length (str_of_Z z))); [lia|reflexivity].
Qed.

(** When both conversions return on decimal text, it is within the
    limit. *)
Lemma decimal_text_short v n :
  decimal_text (text v) = true -> str v = Ok (text v) -> int v = Ok n ->
  String.length (text v) <= int_max_str_digits.
Proof.
  destruct v as [|[]|z|s]; simpl; try discriminate.
  - intros Hd Hs _. apply decimal_text_str_of_Z in Hd.
    unfold decimal_digits in Hs. rewrite Z.abs_eq in Hs by lia.
    destruct (Nat.ltb_spec int_max_str_digits (String.length (str_of_Z z)));
      [discriminate|lia].
  - intros Hd _ Hn. unfold decimal_text in Hd. apply andb_prop in Hd.
    destruct Hd as [_ Hd]. rewrite <- (leading_decimals_all _ Hd).
    destruct (Nat.ltb_spec int_max_str_digits (leading_decimals s)); [discriminate|lia].
Qed.

Lemma digits_value_nonneg s :
  all_chars is_decimal_char s = true ->
  forall acc, (0 <= acc)%Z -> (0 <= digits_value acc s)%Z.
Proof.
  induction s as [|c s IH]; simpl; intros H acc Hacc; [auto|].
  apply andb_prop in H. destruct H as [Hc Hs]. apply IH; [auto|].
  unfold is_decimal_char in Hc. apply andb_prop in Hc. destruct Hc as [Hc _].
  apply N.leb_le in Hc. lia.
Qed.

End Digits.

(** ** True division and the one-decimal format *)

Section Floats.
Import Py.
Local Open Scope Z_scope.

Lemma div_half_even_near n d :
  0 < d -> 0 <= n -> - d <= 2 * (div_half_even n d * d - n) <= d.
Proof.
  intros Hd Hn. unfold div_half_even.
  pose proof (Z.div_mod n d ltac:(lia)) as Hdm.
  pose proof (Z.mod_pos_bound n d Hd) as Hm.
  destruct (Z.ltb_spec (2 * (n mod d)) d); [nia|].
  destruct (Z.ltb_spec d (2 * (n mod d))); [nia|].
  destruct (Z.even (n / d)); nia.
Qed.

Lemma div_half_even_nonneg n d : 0 < d -> 0 <= n -> 0 <= div_half_even n d.
Proof.
  intros Hd Hn. unfold div_half_even.
  pose proof (Z.div_pos n d Hn Hd).
  repeat match goal with |- context [if ?b then _ else _] => destruct b end; lia.
Qed.

(** A quotient that is a whole number is returned as it is. *)
Lemma div_half_even_exact k d : 0 < d -> div_half_even (k * d) d = k.
Proof.
  intros Hd. unfold div_half_even. rewrite Z.div_mul, Z.mod_mul by lia.
  destruct (Z.ltb_spec (2 * 0) d); [reflexivity|lia].
Qed.

(** [quotient_log2 a b] is the exponent of the quotient:
    [2^e <= a / b < 2^(e+1)]. *)
Lemma quotient_log2_upper a b :
  0 < a -> 0 < b ->
  let e := quotient_log2 a b in
  a * 2 ^ Z.max 0 (- (e + 1)) < b * 2 ^ Z.max 0 (e + 1).
Proof.
  intros Ha Hb. unfold quotient_log2.
  pose proof (Z.log2_spec a Ha) as [_ Hla].
  pose proof (Z.log2_spec b Hb) as [Hlb _].
  pose proof (Z.log2_nonneg a). pose proof (Z.log2_nonneg b).
  set (la := Z.log2 a) in *. set (lb := Z.log2 b) in *.
  destruct (Z.ltb_spec (a * 2 ^ Z.max 0 (- (la - lb))) (b * 2 ^ Z.max 0 (la - lb))) as [Ht|Ht]; simpl.
  - replace (la - lb - 1 + 1) with (la - lb) by lia. exact Ht.
  - destruct (Z.le_gt_cases 0 (la - lb + 1)) as [Hs|Hs].
    + rewrite (Z.max_l 0 (- (la - lb + 1))) by lia.
      rewrite (Z.max_r 0 (la - lb + 1)) by lia.
      replace (Z.succ la) with (lb + (la - lb + 1)) in Hla by lia.
      rewrite Z.pow_add_r in Hla by lia.
      assert (0 < 2 ^ (la - lb + 1)) by (apply Z.pow_pos_nonneg; lia). nia.
    + rewrite (Z.max_r 0 (- (la - lb + 1))) by lia.
      rewrite (Z.max_l 0 (la - lb + 1)) by lia.
      assert (0 < 2 ^ (- (la - lb + 1))) by (apply Z.pow_pos_nonneg; lia).
      replace lb with (Z.succ la + (- (la - lb + 1))) in Hlb by lia.
      rewrite Z.pow_add_r in Hlb by lia. nia.
Qed.

Lemma quotient_log2_lower a b :
  0 < a -> 0 < b ->
  let e := quotient_log2 a b in
  b * 2 ^ Z.max 0 e <= a * 2 ^ Z.max 0 (- e).
Proof.
  intros Ha Hb. unfold quotient_log2.
  pose proof (Z.log2_spec a Ha) as [Hla _].
  pose proof (Z.log2_spec b Hb) as [_ Hlb].
  pose proof (Z.log2_nonneg a). pose proof (Z.log2_nonneg b).
  set (la := Z.log2 a) in *. set (lb := Z.log2 b) in *.
  destruct (Z.ltb_spec (a * 2 ^ Z.max 0 (- (la - lb))) (b * 2 ^ Z.max 0 (la - lb))) as [Ht|Ht]; simpl.
  - destruct (Z.le_gt_cases 0 (la - lb - 1)) as [Hs|Hs].
    + rewrite (Z.max_r 0 (la - lb - 1)), (Z.max_l 0 (- (la - lb - 1))) by lia.
      rewrite Z.pow_0_r.
      replace la with (Z.succ lb + (la - lb - 1)) in Hla by lia.
      rewrite Z.pow_add_r in Hla by lia.
      assert (0 < 2 ^ (la - lb - 1)) by (apply Z.pow_pos_nonneg; lia). nia.
    + rewrite (Z.max_l 0 (la - lb - 1)), (Z.max_r 0 (- (la - lb - 1))) by lia.
      rewrite Z.pow_0_r.
      replace (Z.succ lb) with (la + (- (la - lb - 1))) in Hlb by lia.
      rewrite Z.pow_add_r in Hlb by lia.
      assert (0 < 2 ^ (- (la - lb - 1))) by (apply Z.pow_pos_nonneg; lia). nia.
  - exact Ht.
Qed.

Lemma quotient_log2_le a b : 0 < a -> 0 < b -> quotient_log2 a b <= Z.log2 a.
Proof.
  intros Ha Hb. unfold quotient_log2. pose proof (Z.log2_nonneg b).
  destruct (_ <? _); lia.
Qed.

Lemma truediv_small a b :
  0 < a < 2 ^ 49 -> 0 < b ->
  exists m sh,
    truediv a b = Ok {| f_neg := false; f_mant := m; f_expo := - sh |} /\
    4 <= sh /\ 0 <= m /\ - b <= 2 * (m * b - a * 2 ^ sh) <= b.
Proof.
  intros Ha Hb.
  pose proof (quotient_log2_upper a b ltac:(lia) Hb) as Hup. simpl in Hup.
  pose proof (quotient_log2_le a b ltac:(lia) Hb) as Hle.
  assert (Hla : Z.log2 a < 49) by (apply Z.log2_lt_pow2; lia).
  unfold truediv.
  destruct (Z.eqb_spec b 0); [lia|].
  destruct (Z.ltb_spec a 0); [lia|]. destruct (Z.ltb_spec b 0); [lia|].
  destruct (Z.eqb_spec a 0); [lia|]. simpl xorb.
  rewrite (Z.abs_eq a), (Z.abs_eq b) by lia.
  set (e := quotient_log2 a b) in *.
  set (sh := Z.min (52 - e) 1074).
  assert (Hsh : 4 <= sh <= 52 - e) by (unfold sh; lia).
  rewrite (Z.max_r 0 sh), (Z.max_l 0 (- sh)) by lia.
  rewrite Z.pow_0_r, !Z.mul_1_r.
  assert (Hpow : 0 < 2 ^ sh) by (apply Z.pow_pos_nonneg; lia).
  pose proof (div_half_even_near (a * 2 ^ sh) b Hb ltac:(nia)) as Hnear.
  pose proof (div_half_even_nonneg (a * 2 ^ sh) b Hb ltac:(nia)) as Hm0.
  set (m := div_half_even (a * 2 ^ sh) b) in *.
  assert (Hq : a * 2 ^ sh < b * 2 ^ 53).
  { assert (a * 2 ^ sh <= a * 2 ^ (52 - e)).
    { apply Z.mul_le_mono_nonneg_l; [lia|]. apply Z.pow_le_mono_r; lia. }
    assert (a * 2 ^ (52 - e) < b * 2 ^ 53); [|lia].
    destruct (Z.le_gt_cases 0 (e + 1)) as [Hs|Hs].
    - rewrite (Z.max_l 0 (- (e + 1))), (Z.max_r 0 (e + 1)), Z.pow_0_r in Hup by lia.
      replace 53 with ((e + 1) + (52 - e)) by lia.
      rewrite Z.pow_add_r by lia.
      assert (0 < 2 ^ (52 - e)) by (apply Z.pow_pos_nonneg; lia). nia.
    - rewrite (Z.max_r 0 (- (e + 1))), (Z.max_l 0 (e + 1)), Z.pow_0_r in Hup by lia.
      replace (52 - e) with (- (e + 1) + 53) by lia.
      rewrite Z.pow_add_r by lia.
      assert (0 < 2 ^ 53) by lia. nia. }
  assert (Hm : m <= 2 ^ 53) by nia.
  destruct (Z.leb_spec (2 ^ 1024) m) as [Hov|_].
  - exfalso. assert (2 ^ 53 < 2 ^ 1024) by (apply Z.pow_lt_mono_r; lia). lia.
  - exists m, sh. split; [reflexivity|]. lia.
Qed.

(** The text of the mean.  For a sum below [2^49] the division and the
    format cannot fail; the printed number of tenths is within 13/16 of
    ten times the exact quotient, and it is exact whenever the quotient
    is a whole number of tenths. *)
Lemma mean_text a b :
  0 <= a < 2 ^ 49 -> 0 < b ->
  exists x,
    truediv a b = Ok x /\
    format_1f x = str_of_Z (tenths x / 10) +:+ "." +:+ str_of_Z (tenths x mod 10) /\
    16 * Z.abs (tenths x * b - 10 * a) <= 13 * b /\
    (forall k, 10 * a = k * b -> tenths x = k).
Proof.
  intros Ha Hb. destruct (Z.eq_dec a 0) as [->|Hne].
  - exists {| f_neg := false; f_mant := 0; f_expo := 0 |}.
    split. { unfold truediv. destruct (Z.eqb_spec b 0); [lia|].
             destruct (Z.ltb_spec b 0); [lia|]. reflexivity. }
    split; [reflexivity|].
    change (tenths {| f_neg := false; f_mant := 0; f_expo := 0 |}) with 0.
    split; [lia|]. intros k Hk. nia.
  - destruct (truediv_small a b ltac:(lia) Hb) as (m & sh & Htd & Hsh & Hm & Hnear).
    eexists. split; [exact Htd|]. split; [reflexivity|].
    unfold tenths. simpl f_mant. simpl f_expo.
    rewrite (Z.max_l 0 (- sh)), (Z.max_r 0 (- - sh)) by lia.
    rewrite Z.pow_0_r, Z.mul_1_r, Z.opp_involutive.
    assert (Hpow : 16 <= 2 ^ sh).
    { change 16 with (2 ^ 4). apply Z.pow_le_mono_r; lia. }
    pose proof (div_half_even_near (10 * m) (2 ^ sh) ltac:(lia) ltac:(lia)) as Ht.
    set (T := div_half_even (10 * m) (2 ^ sh)) in *.
    assert (Hmain : 2 ^ sh * (2 * Z.abs (T * b - 10 * a)) <= 2 ^ sh * b + 10 * b) by nia.
    split; [nia|].
    intros k Hk. nia.
Qed.

End Floats.

(** ** The summary block *)

Section StyledSummary.
Import Py Sheet Styled.

(** One turn of the loop of lines 144-147: the record's score is added
    when its value is decimal text, which both conversions then accept. *)
Lemma score_step_Ok (field : string) (result : Record) (scores scores' : list Z) :
  score_step field result scores = Ok scores' ->
  let value := dict_get result field (VStr "-") in
  scores' = (scores ++ (if decimal_text (text value)
                        then [digits_value 0 (text value)] else []))%list /\
  (decimal_text (text value) = true ->
   String.length (text value) <= int_max_str_digits).
Proof.
  unfold score_step. simpl. set (value := dict_get result field (VStr "-")).
  intros H. apply bind_Ok in H. destruct H as (is_score & Hguard & H).
  destruct (negb (PyVal_eqb value (VStr "-"))) eqn:Hdash.
  - apply bind_Ok in Hguard. destruct Hguard as (s & Hs & [= <-]).
    pose proof (str_Ok _ _ Hs) as ->.
    destruct (isdigit (text value)) eqn:Hd.
    + apply bind_Ok in H. destruct H as (n & Hn & [= <-]).
      pose proof (isdigit_int_decimal _ _ Hd Hn) as Hdec. rewrite Hdec.
      rewrite (int_decimal_text _ _ Hdec Hn).
      split; [reflexivity|]. intros _. by eapply decimal_text_short.
    + injection H as <-.
      destruct (decimal_text (text value)) eqn:Hdec.
      * by rewrite (decimal_text_isdigit _ Hdec) in Hd.
      * split; [by rewrite app_nil_r|discriminate].
  - injection Hguard as <-. injection H as <-.
    destruct (decimal_text (text value)) eqn:Hdec.
    + by rewrite (decimal_text_not_dash _ Hdec) in Hdash.
    + split; [by rewrite app_nil_r|discriminate].
Qed.

Lemma collect_scores_acc (results : list Record) (field : string) :
  forall acc scores,
    for_each (score_step field) results acc = Ok scores ->
    scores = (acc ++ valid_scores results field)%list.
Proof.
  induction results as [|result results IH]; intros acc scores H; simpl in H.
  - injection H as <-. unfold valid_scores. simpl. by rewrite app_nil_r.
  - apply bind_Ok in H. destruct H as (acc1 & H1 & H).
    apply IH in H. subst scores. apply score_step_Ok in H1. destruct H1 as [-> _].
    unfold valid_scores at 2. simpl. fold (valid_scores results field).
    rewrite <- app_assoc. f_equal.
    by destruct (decimal_text (text (dict_get result field (VStr "-")))).
Qed.

Lemma collect_scores_Ok results field scores :
  collect_scores results field = Ok scores -> scores = valid_scores results field.
Proof. intros H. by apply collect_scores_acc in H. Qed.

Lemma sum_valid_scores_nonneg (results : list Record) (field : string) :
  (0 <= sum (valid_scores results field))%Z.
Proof.
  unfold valid_scores, sum. induction results as [|r results IH]; simpl; [lia|].
  destruct (decimal_text (text (dict_get r field (VStr "-")))) eqn:Hd; simpl; [|auto].
  unfold decimal_text in Hd. apply andb_prop in Hd. destruct Hd as [_ Hd].
  pose proof (digits_value_nonneg _ Hd 0%Z ltac:(lia)).
  apply Z.add_nonneg_nonneg; [auto | exact IH].
Qed.

Lemma averages_Ok (results : list Record) (fields : list string) :
  forall (ws ws' : Cells) (row row' : nat),
    for_each (write_average results) fields (ws, row) = Ok (ws', row') ->
    below row ws ->
    row' = row + List.length (average_lines results fields) /\
    (forall r c : nat, r < row -> ws' !! (r, c) = ws !! (r, c)) /\
    below row' ws' /\
    (forall k field scores,
       average_lines results fields !! k = Some (field, scores) ->
       exists avg_score,
         truediv (sum scores) (Z.of_nat (List.length scores)) = Ok avg_score /\
         ws' !! (row + k, 1) = Some (text_cell ("Average " +:+ field +:+ ":")) /\
         ws' !! (row + k, 2) = Some (text_cell (format_1f avg_score)) /\
         forall c : nat, 3 <= c -> ws' !! (row + k, c) = None).
Proof.
  induction fields as [|field fields IH]; intros ws ws' row row' H Hb; simpl in H.
  - injection H as <- <-. simpl. split; [lia|]. split; [auto|]. split; [auto|].
    intros k ? ? Hk. discriminate.
  - apply bind_Ok in H. destruct H as ([ws1 row1] & H1 & H).
    unfold write_average in H1. apply bind_Ok in H1. destruct H1 as (scores & Hs & H1).
    apply collect_scores_Ok in Hs. subst scores.
    unfold average_lines. simpl. fold (average_lines results fields).
    destruct (valid_scores results field) as [|n ns] eqn:Hvs.
    + injection H1 as <- <-. simpl. apply IH in H; auto.
    + simpl. bind_inv.
      repeat match goal with
      | Hw : with_cell ord_A _ _ _ = Ok _ |- _ =>
          apply (with_cell_set _ _ 1) in Hw; [|reflexivity];
          destruct Hw as (? & ? & ->)
      | Hw : with_cell ord_B _ _ _ = Ok _ |- _ =>
          apply (with_cell_set _ _ 2) in Hw; [|reflexivity];
          destruct Hw as (? & ? & ->)
      end.
      rewrite cell_at_insert_ne in H by key_ne.
      rewrite !cell_at_None in H by (apply Hb; lia).
      match goal with Ht : truediv _ _ = Ok ?x |- _ => rename Ht into Havg end.
      apply IH in H.
      2:{ intros r c Hr. rewrite !lookup_insert_ne by key_ne. apply Hb. lia. }
      destruct H as (-> & Hframe & Hb' & Hlines).
      split; [lia|].
      split. { intros r c Hr. rewrite Hframe by lia.
               rewrite !lookup_insert_ne by key_ne. auto. }
      split. { intros r c Hr. apply Hb'. lia. }
      intros [|k] f scores Hk; simpl in Hk.
      * injection Hk as <- <-. replace (row + 0) with row by lia.
        eexists. split; [exact Havg|].
        rewrite !Hframe by lia.
        split. { rewrite lookup_insert_ne by key_ne. apply lookup_insert_eq. }
        split. { apply lookup_insert_eq. }
        intros c Hc. rewrite Hframe by lia.
        rewrite !lookup_insert_ne by key_ne. apply Hb. lia.
      * replace (row + S k) with (row + 1 + k) by lia. apply Hlines. auto.
Qed.

Lemma elem_of_score_fields (table_rows : list (string * string)) (field : string) :
  field ∈ score_fields table_rows <->
  contains "Score" field = true /\ exists label, (field, label) ∈ table_rows.
Proof.
  unfold score_fields. rewrite list_elem_of_In, filter_In, <- list_elem_of_In.
  rewrite list_elem_of_fmap. split.
  - intros [([f l] & -> & Hin) Hc]. eauto.
  - intros (Hc & l & Hin). split; [exists (field, l); auto | auto].
Qed.

Lemma valid_scores_nonempty (results : list Record) (field : string) :
  valid_scores results field <> [] <->
  exists result, result ∈ results /\
                 decimal_text (text (dict_get result field (VStr "-"))) = true.
Proof.
  unfold valid_scores. induction results as [|r results IH]; simpl.
  - split; [congruence | intros (? & Hin & _); inversion Hin].
  - destruct (decimal_text (text (dict_get r field (VStr "-")))) eqn:Hd; simpl.
    + split; [intros _; exists r; split; [left|auto] | discriminate].
    + rewrite IH. split.
      * intros (x & Hin & Hx). exists x. split; [by right|auto].
      * intros (x & Hin & Hx). inversion Hin; subst; [congruence|eauto].
Qed.

Lemma elem_of_average_lines (results : list Record) (fields : list string)
    (field : string) (scores : list Z) :
  (field, scores) ∈ average_lines results fields <->
  field ∈ fields /\ scores = valid_scores results field /\ scores <> [].
Proof.
  unfold average_lines. rewrite list_elem_of_In, filter_In, <- list_elem_of_In.
  rewrite list_elem_of_fmap. simpl. split.
  - intros ((f & [= -> ->] & Hin) & Hlen).
    split; [auto|]. split; [auto|]. intros Heq. rewrite Heq in Hlen. discriminate.
  - intros (Hin & -> & Hne). split; [eauto|].
    destruct (valid_scores results field); [congruence|reflexivity].
Qed.

End StyledSummary.

(** ** The styled report as a whole *)

Section StyledReport.
Import Py Sheet Styled.

(** What a completed report of at least one record contains: at most 25
    records; the title block; the header row (row 5); one row per
    descriptor from row 6; the summary title two rows below the table and
    the average lines after it; nothing further down; the column widths of
    the finished sheet. *)
Lemma create_excel_report_Ok (results : list Record) (now : string)
    (table_rows : list (string * string)) (w : Worksheet) :
  results <> [] ->
  create_excel_report results now table_rows = Ok w ->
  let n := List.length table_rows in
  let lines := average_lines results (score_fields table_rows) in
  List.length results <= 25 /\
  (cells w !! (1, 1) = Some title_cell /\
   cells w !! (2, 1) = Some (text_cell ("Generated on: " +:+ now)) /\
   cells w !! (3, 1)
     = Some (text_cell ("Total sites analyzed: " +:+ str_of_nat (List.length results)))) /\
  cells w !! (5, 1) = Some (header_cell (VStr "Category")) /\
  (forall i result, results !! i = Some result ->
     cells w !! (5, 2 + i)
     = Some (header_cell (header_label (dict_get result "URL" (VStr "Unknown"))))) /\
  (forall j row_key row_display,
     table_rows !! j = Some (row_key, row_display) ->
     cells w !! (6 + j, 1) = Some (category_cell row_display) /\
     forall i result, results !! i = Some result ->
       exists cell,
         format_data_cell row_key (field_value result row_key) empty_cell = Ok cell /\
         cells w !! (6 + j, 2 + i) = Some cell) /\
  cells w !! (n + 8, 1) = Some summary_title_cell /\
  (forall k field scores,
     lines !! k = Some (field, scores) ->
     exists avg_score,
       truediv (sum scores) (Z.of_nat (List.length scores)) = Ok avg_score /\
       cells w !! (n + 9 + k, 1) = Some (text_cell ("Average " +:+ field +:+ ":")) /\
       cells w !! (n + 9 + k, 2) = Some (text_cell (format_1f avg_score)) /\
       forall c : nat, 3 <= c -> cells w !! (n + 9 + k, c) = None) /\
  below (n + 9 + List.length lines) (cells w) /\
  (forall c : nat, cells w !! (0, c) = None) /\
  column_dimensions w = auto_adjust (cells w).
Proof.
  intros Hne H. unfold create_excel_report in H.
  destruct results as [|r0 rs] eqn:Hres; [congruence|]. rewrite <- Hres in *.
  apply bind_Ok in H. destruct H as (ws1 & H1 & H).
  apply bind_Ok in H. destruct H as (ws2 & H2 & H).
  apply bind_Ok in H. destruct H as (ws3 & H3 & H).
  apply bind_Ok in H. destruct H as (ws4 & H4 & H).
  apply bind_Ok in H. destruct H as (ws5 & H5 & H).
  apply bind_Ok in H. destruct H as ([ws6 row6] & H6 & H).
  apply bind_Ok in H. destruct H as (ws7 & H7 & H).
  apply bind_Ok in H. destruct H as ([ws8 row8] & H8 & H).
  injection H as <-. simpl. change (5 + 1) with 6 in *.
  apply (with_cell_value _ _ 1 _ (set_font title_font))
    in H1; [|reflexivity]. destruct H1 as (_ & _ & ->).
  apply (with_cell_set _ _ 1) in H2; [|reflexivity]. destruct H2 as (_ & _ & ->).
  apply (with_cell_set _ _ 1) in H3; [|reflexivity]. destruct H3 as (_ & _ & ->).
  apply (with_cell_value _ _ 1 _
           (fun c => set_border (set_alignment HCenter (set_fill header_fill
                       (set_font header_font c))))) in H4; [|reflexivity].
  destruct H4 as (_ & _ & ->).
  rewrite !cell_at_insert_ne in * by key_ne.
  rewrite !cell_at_None in * by apply lookup_empty.
  cell_shapes.
  set (ws4 := <[(5, 1) := header_cell (VStr "Category")]> _) in *.
  assert (Hb4 : below 5 (<[(3, 1) := text_cell
             ("Total sites analyzed: " +:+ str_of_nat (List.length results))]>
             (<[(2, 1) := text_cell ("Generated on: " +:+ now)]>
                (<[(1, 1) := title_cell]> (∅ : Cells))))).
  { intros r c Hr. rewrite !lookup_insert_ne by key_ne. apply lookup_empty. }
  apply header_loop_Ok in H5.
  2:{ intros c Hc. unfold ws4. rewrite lookup_insert_ne by key_ne. apply Hb4. lia. }
  destruct H5 as (Hlen & Hframe5 & Hcol5 & Hheader).
  assert (Hb5 : below 6 ws5).
  { intros r c Hr. rewrite Hframe5 by lia. unfold ws4.
    rewrite lookup_insert_ne by key_ne. apply Hb4. lia. }
  apply data_rows_Ok in H6; [|exact Hb5].
  destruct H6 as (-> & Hframe6 & Hb6 & Hrows).
  apply (with_cell_value _ _ 1 _ (set_font summary_font))
    in H7; [|reflexivity]. destruct H7 as (_ & _ & ->).
  rewrite cell_at_None in H8 by (apply Hb6; lia). fold summary_title_cell in H8.
  apply averages_Ok in H8.
  2:{ intros r c Hr. rewrite lookup_insert_ne by key_ne. apply Hb6. lia. }
  destruct H8 as (-> & Hframe8 & Hb8 & Hlines).
  assert (Hold : forall r c : nat, r < 6 -> ws8 !! (r, c) = ws5 !! (r, c)).
  { intros r c Hr. rewrite Hframe8 by lia. rewrite lookup_insert_ne by key_ne.
    apply Hframe6. lia. }
  assert (Htop : forall r c : nat, r < 5 -> ws8 !! (r, c) = ws4 !! (r, c)).
  { intros r c Hr. rewrite Hold by lia. apply Hframe5. lia. }
  split; [apply Hlen; congruence|].
  split.
  { rewrite !Htop by lia. unfold ws4.
    split; [|split]; rewrite !lookup_insert_ne by key_ne; apply lookup_insert_eq. }
  split.
  { rewrite Hold by lia. rewrite Hcol5 by lia. apply lookup_insert_eq. }
  split.
  { intros i result Hi. rewrite Hold by lia. apply Hheader. auto. }
  split.
  { intros j row_key row_display Hj. destruct (Hrows j _ _ Hj) as (Hcat & Hcells).
    apply lookup_lt_Some in Hj as Hjn.
    split.
    - rewrite Hframe8 by lia. rewrite lookup_insert_ne by key_ne. auto.
    - intros i result Hi. destruct (Hcells i result Hi) as (cell & Hcell & Hl).
      exists cell. split; [auto|].
      rewrite Hframe8 by lia. rewrite lookup_insert_ne by key_ne. auto. }
  split.
  { rewrite Hframe8 by lia.
    replace (List.length table_rows + 8) with (6 + List.length table_rows + 2) by lia.
    apply lookup_insert_eq. }
  split.
  { intros k field scores Hk. destruct (Hlines k _ _ Hk) as (avg & Havg & HA & HB & HC).
    replace (List.length table_rows + 9 + k)
      with (6 + List.length table_rows + 2 + 1 + k) by lia.
    eauto 10. }
  split.
  { intros r c Hr. apply Hb8. lia. }
  split; [|reflexivity].
  intros c. rewrite Htop by lia. unfold ws4.
  rewrite !lookup_insert_ne by key_ne. apply lookup_empty.
Qed.

End StyledReport.

(** ** The first assignments of the styled report (lines 48-67) *)

Section StyledHead.
Import Py Sheet Styled.

Lemma set_value_Raise (v : PyVal) (c : Cell) (e : exn) :
  set_value v c = Raise e -> e = IllegalCharacterError /\ storable v = false.
Proof.
  unfold set_value, check_string, storable. destruct v as [| | |s]; simpl; try discriminate.
  destruct (illegal_within 32767 s); simpl; [|discriminate]. by intros [= <-].
Qed.

Lemma set_value_unstorable (v : PyVal) (c : Cell) :
  storable v = false -> set_value v c = Raise IllegalCharacterError.
Proof.
  unfold set_value, check_string, storable. destruct v as [| | |s]; simpl; try discriminate.
  destruct (illegal_within 32767 s); simpl; [reflexivity|discriminate].
Qed.

Lemma str_of_Z_clean (z : Z) : clean (str_of_Z z).
Proof.
  unfold clean. eapply all_chars_impl; [|apply str_of_Z_chars].
  intros c. unfold decimal_or_minus, is_decimal_char, illegal_character.
  intros [H|H]%orb_prop.
  - apply andb_prop in H. destruct H as [H _]. apply N.leb_le in H.
    repeat match goal with
           | |- context [(?a <=? ?b)%N] => destruct (N.leb_spec a b); try lia
           | |- context [(?a =? ?b)%N] => destruct (N.eqb_spec a b); try lia
           end; reflexivity.
  - apply Ascii.eqb_eq in H. subst c. reflexivity.
Qed.

Lemma count_line_storable (n : nat) :
  storable (VStr ("Total sites analyzed: " +:+ str_of_nat n)) = true.
Proof. apply clean_storable, clean_app; [reflexivity|apply str_of_Z_clean]. Qed.

(** The timestamp line is the first assignment that can be refused. *)
Lemma create_excel_report_timestamp (results : list Record) (now : string)
    (table_rows : list (string * string)) :
  storable (VStr ("Generated on: " +:+ now)) = false ->
  create_excel_report results now table_rows = Raise IllegalCharacterError.
Proof.
  intros Hnow. unfold create_excel_report.
  rewrite (with_cell_value_eq _ _ 1) by (reflexivity || lia). rewrite bind_Ok_l.
  rewrite (with_cell_eq _ _ 1) by (reflexivity || lia).
  by rewrite set_value_unstorable.
Qed.

(** The report of an empty list, as lines 57-60 leave it. *)
Lemma create_excel_report_empty (now : string) (table_rows : list (string * string)) :
  storable (VStr ("Generated on: " +:+ now)) = true ->
  create_excel_report [] now table_rows
  = Ok {| title := sheet_title;
          cells := <[(5, 1) := text_cell "No results to display"]> (title_block [] now);
          column_dimensions := ∅ |}.
Proof.
  intros Hnow. unfold create_excel_report.
  rewrite (with_cell_value_eq _ _ 1) by (reflexivity || lia). rewrite bind_Ok_l.
  rewrite (with_cell_set_eq _ _ 1) by (reflexivity || lia || exact Hnow).
  rewrite bind_Ok_l.
  rewrite (with_cell_set_eq _ _ 1) by (reflexivity || lia). rewrite bind_Ok_l.
  rewrite (with_cell_set_eq _ _ 1) by (reflexivity || lia). rewrite bind_Ok_l.
  rewrite !cell_at_insert_ne by key_ne.
  rewrite !cell_at_None by (rewrite ?lookup_insert_ne by key_ne; apply lookup_empty).
  reflexivity.
Qed.

(** With records, an exception of the header loop is that of the call. *)
Lemma create_excel_report_header_raises (results : list Record) (now : string)
    (table_rows : list (string * string)) (e : exn) :
  results <> [] ->
  storable (VStr ("Generated on: " +:+ now)) = true ->
  for_each (write_header_cell 5) (enumerate 2 results)
    (<[(5, 1) := header_cell (VStr "Category")]> (title_block results now)) = Raise e ->
  create_excel_report results now table_rows = Raise e.
Proof.
  intros Hne Hnow H. unfold create_excel_report.
  rewrite (with_cell_value_eq _ _ 1) by (reflexivity || lia). rewrite bind_Ok_l.
  rewrite (with_cell_set_eq _ _ 1) by (reflexivity || lia || exact Hnow).
  rewrite bind_Ok_l.
  rewrite (with_cell_set_eq _ _ 1) by (reflexivity || lia || apply count_line_storable).
  rewrite bind_Ok_l.
  destruct results as [|r0 rs] eqn:Hres; [congruence|]. rewrite <- Hres in *.
  rewrite (with_cell_value_eq _ _ 1) by (reflexivity || lia). rewrite bind_Ok_l.
  rewrite !cell_at_insert_ne by key_ne.
  rewrite !cell_at_None by (rewrite ?lookup_insert_ne by key_ne; apply lookup_empty).
  cell_shapes. fold (title_block results now).
  change (5 + 0) with 5 in *. rewrite H. reflexivity.
Qed.

End StyledHead.

(** ** Header labels (lines 72-83) *)

Section Labels.
Import Py Styled.

Lemma contains_cons old c s :
  contains old (String c s) = false ->
  startswith old (String c s) = false /\ contains old s = false.
Proof. simpl. intros H. apply orb_false_elim in H. exact H. Qed.

(** Where [old] does not occur, [replace] changes nothing. *)
Lemma replace_absent old new s :
  contains old s = false -> replace s old new = s.
Proof.
  unfold replace. induction s as [|c s IH]; [reflexivity|].
  intros H. apply contains_cons in H. destruct H as [Hs Hc].
  cbn [replace_go]. rewrite Hs. f_equal. auto.
Qed.

(** On a host that has "www." in front and nowhere else, the
    replacement removes exactly the prefix. *)
Lemma replace_leading_www host :
  contains "www." host = false ->
  replace ("www." +:+ host) "www." "" = host.
Proof.
  intros H. unfold replace. simpl. apply (replace_absent "www." "" host H).
Qed.

End Labels.

(** ** Score formatting (lines 116-124) *)

Section ScoreFormatting.
Import Py Sheet Styled.

(** What a completed [format_data_cell] has done: both the text and its
    storage were accepted, and the cell is the stored text, bordered and
    centred, with the score or the link formatting on top. *)
Lemma format_data_cell_Ok row_key value cell0 cell :
  format_data_cell row_key value cell0 = Ok cell ->
  str value = Ok (text value) /\ storable (VStr (text value)) = true /\
  let base := set_alignment HCenter (set_border (store_value (VStr (text value)) cell0)) in
  if contains "Score" row_key && negb (PyVal_eqb value (VStr "-")) && isdigit (text value)
  then exists score,
         int value = Ok score /\
         cell = set_fill (tier score) (set_font score_font base)
  else if String.eqb row_key "URL" && negb (PyVal_eqb value (VStr "-"))
  then exists link, set_hyperlink value base = Ok link /\ cell = set_font link_font link
  else cell = base.
Proof.
  unfold format_data_cell. intros H.
  apply bind_Ok in H. destruct H as (s & Hs & H).
  pose proof (str_Ok _ _ Hs) as ->.
  apply bind_Ok in H. destruct H as (c1 & Hc1 & H).
  apply set_value_Ok in Hc1. destruct Hc1 as [Hst ->].
  split; [exact Hs|]. split; [exact Hst|]. simpl.
  apply bind_Ok in H. destruct H as (is_score & Hguard & H).
  assert (is_score = contains "Score" row_key && negb (PyVal_eqb value (VStr "-"))
                     && isdigit (text value)) as ->.
  { destruct (contains "Score" row_key && negb (PyVal_eqb value (VStr "-"))).
    - rewrite Hs in Hguard. by injection Hguard as <-.
    - by injection Hguard as <-. }
  destruct (contains "Score" row_key && negb (PyVal_eqb value (VStr "-"))
            && isdigit (text value)).
  - apply bind_Ok in H. destruct H as (score & Hscore & H).
    exists score. split; [exact Hscore|]. unfold tier.
    destruct (Z.leb_spec 80 score); [by injection H as <-|].
    destruct (Z.leb_spec 60 score); [by injection H as <-|].
    destruct (Z.ltb_spec score 60); [by injection H as <-|lia].
  - destruct (String.eqb row_key "URL" && negb (PyVal_eqb value (VStr "-"))).
    + apply bind_Ok in H. destruct H as (link & Hlink & [= <-]). eauto.
    + by injection H as <-.
Qed.

(** A link is set on a string only, and changes nothing else. *)
Lemma set_hyperlink_Ok (target : PyVal) (c link : Cell) :
  set_hyperlink target c = Ok link ->
  target <> VStr "-" ->
  (exists u, target = VStr u) \/ target = VNone.
Proof. destruct target; simpl; try discriminate; eauto. Qed.

Lemma set_hyperlink_fields (target : PyVal) (c link : Cell) :
  set_hyperlink target c = Ok link ->
  value link = value c /\ font link = font c /\ fill link = fill c /\
  alignment link = alignment c /\ border link = border c /\
  hyperlink link = match target with VNone => None | _ => Some target end.
Proof. destruct target; simpl; try discriminate; intros [= <-]; auto 10. Qed.

Lemma format_data_cell_value row_key value cell0 cell :
  format_data_cell row_key value cell0 = Ok cell ->
  Sheet.value cell = VStr (text value).
Proof.
  intros H. apply format_data_cell_Ok in H. destruct H as (_ & _ & H). simpl in H.
  destruct (contains "Score" row_key && negb (PyVal_eqb value (VStr "-"))
            && isdigit (text value)).
  - by destruct H as (score & _ & ->).
  - destruct (String.eqb row_key "URL" && negb (PyVal_eqb value (VStr "-"))).
    + destruct H as (link & Hlink & ->). apply set_hyperlink_fields in Hlink.
      destruct Hlink as (Hv & _). simpl. by rewrite Hv.
    + by subst cell.
Qed.

Lemma format_data_cell_score row_key value cell :
  format_data_cell row_key value empty_cell = Ok cell ->
  contains "Score" row_key = true ->
  decimal_text (text value) = true ->
  font cell = score_font /\ fill cell = Some (tier (digits_value 0 (text value))).
Proof.
  intros H Hkey Hdec. apply format_data_cell_Ok in H. destruct H as (_ & _ & H).
  simpl in H.
  rewrite Hkey, (decimal_text_not_dash _ Hdec), (decimal_text_isdigit _ Hdec) in H.
  simpl in H. destruct H as (score & Hscore & ->).
  by rewrite (int_decimal_text _ _ Hdec Hscore).
Qed.

Lemma format_data_cell_plain row_key value cell :
  format_data_cell row_key value empty_cell = Ok cell ->
  contains "Score" row_key = false \/ decimal_text (text value) = false ->
  fill cell = None /\ bold (font cell) = false.
Proof.
  intros H Hor. apply format_data_cell_Ok in H. destruct H as (_ & _ & H). simpl in H.
  destruct (contains "Score" row_key && negb (PyVal_eqb value (VStr "-"))
            && isdigit (text value)) eqn:Hguard.
  - exfalso. apply andb_prop in Hguard. destruct Hguard as [Hguard Hd].
    apply andb_prop in Hguard. destruct Hguard as [Hkey _].
    destruct H as (score & Hscore & _).
    destruct Hor as [Hor|Hor]; [congruence|].
    by rewrite (isdigit_int_decimal _ _ Hd Hscore) in Hor.
  - destruct (String.eqb row_key "URL" && negb (PyVal_eqb value (VStr "-"))).
    + destruct H as (link & Hlink & ->). apply set_hyperlink_fields in Hlink.
      destruct Hlink as (_ & _ & Hf & _). simpl. by rewrite Hf.
    + by subst cell.
Qed.

End ScoreFormatting.

(** ** The styled report: claims *)

Section StyledClaims.
Import Py Sheet Styled.

(** C1. In a styled report, the data cell of a record in a row whose key
    contains "Score" and whose value reads as decimal digits is bold and
    filled by tier: green from 80, yellow from 60 to 79, red below 60.  A
    cell whose value does not read as decimal digits has no fill and no
    bold font, whatever the key. *)
Theorem C1_score_cells_formatted_by_tier
    (results : list Record) (now : string) (table_rows : list (string * string))
    (w : Worksheet) (j i : nat) (row_key row_display : string) (result : Record) :
  create_excel_report results now table_rows = Ok w ->
  table_rows !! j = Some (row_key, row_display) ->
  results !! i = Some result ->
  exists cell,
    cells w !! (6 + j, 2 + i) = Some cell /\
    let value := field_value result row_key in
    (contains "Score" row_key = true -> decimal_text (text value) = true ->
       let score := digits_value 0 (text value) in
       bold (font cell) = true /\
       ((80 <= score)%Z -> fill cell = Some light_green) /\
       ((60 <= score < 80)%Z -> fill cell = Some light_yellow) /\
       ((score < 60)%Z -> fill cell = Some light_red)) /\
    (decimal_text (text value) = false ->
       fill cell = None /\ bold (font cell) = false).
Proof.
  intros H Hj Hi.
  apply create_excel_report_Ok in H; [|intros ->; discriminate].
  destruct H as (_ & _ & _ & _ & Hrows & _).
  destruct (Hrows j _ _ Hj) as (_ & Hcells).
  destruct (Hcells i result Hi) as (cell & Hcell & Hl).
  exists cell. split; [exact Hl|]. simpl. split.
  - intros Hkey Hdec.
    destruct (format_data_cell_score _ _ _ Hcell Hkey Hdec) as (Hfont & Hfill).
    rewrite Hfont, Hfill. unfold tier.
    split; [reflexivity|].
    repeat split; intros Hs.
    + destruct (Z.leb_spec 80 (digits_value 0 (text (field_value result row_key))));
        [reflexivity|lia].
    + destruct (Z.leb_spec 80 (digits_value 0 (text (field_value result row_key))));
        [lia|].
      destruct (Z.leb_spec 60 (digits_value 0 (text (field_value result row_key))));
        [reflexivity|lia].
    + destruct (Z.leb_spec 80 (digits_value 0 (text (field_value result row_key))));
        [lia|].
      destruct (Z.leb_spec 60 (digits_value 0 (text (field_value result row_key))));
        [lia|reflexivity].
  - intros Hdec. apply (format_data_cell_plain _ _ _ Hcell). auto.
Qed.

(** In the scenario the cell of the first site's score (row 7, column B)
    exists and, 85 being at least 80, is green. *)
Lemma C1_witness :
  exists cell,
    cells sample_report !! (7, 2) = Some cell /\ fill cell = Some light_green.
Proof.
  destruct (C1_score_cells_formatted_by_tier sample_results sample_now sample_rows
              sample_report 1 0 "Overall Score" "Overall Score"
              [("URL", VStr "https://a.com"); ("Overall Score", VStr "85")])
    as (cell & Hcell & Hscore & _).
  - vm_compute. reflexivity.
  - reflexivity.
  - reflexivity.
  - exists cell. split; [exact Hcell|].
    apply Hscore; [reflexivity|reflexivity|vm_compute; discriminate].
Defined.




(** C10. The column letter of a record is the single character
    [chr(ord('A') + col_idx - 1)].  For the first 25 records it is one of
    B to Z and names the record's own column; for the 26th it is the
    character after Z (code point 91), which no coordinate accepts; so
    every call with more than 25 records raises and no report is
    written: at the header assignment of the 26th record (row 5), unless
    the timestamp or a label before it holds a character the worksheet
    refuses, which raises earlier. *)
Theorem C10_only_25_records_fit :
  (forall i row : nat, i < 25 -> 1 <= row ->
     66 <= col_letter (2 + i) <= 90 /\
     coordinate (col_letter (2 + i)) row = Ok (row, 2 + i)) /\
  (col_letter (2 + 25) = 91 /\ column_index (col_letter (2 + 25)) = None) /\
  (forall (results : list Record) (now : string) (table_rows : list (string * string)),
     25 < List.length results ->
     exists e,
       create_excel_report results now table_rows = Raise e /\
       (e = ValueError_coordinate 91 5 \/ e = IllegalCharacterError)) /\
  (forall (results : list Record) (now : string) (table_rows : list (string * string)),
     25 < List.length results ->
     clean now ->
     (forall result, In result results ->
        storable (header_label (dict_get result "URL" (VStr "Unknown"))) = true) ->
     create_excel_report results now table_rows = Raise (ValueError_coordinate 91 5)).
Proof.
  split; [|split; [|split]].
  - intros i row Hi Hrow. unfold coordinate.
    rewrite column_index_col_letter by lia.
    destruct (Nat.eqb_spec row 0); [lia|].
    split; [unfold col_letter, ord_A; lia | reflexivity].
  - split; reflexivity.
  - intros results now table_rows Hlen.
    destruct (storable (VStr ("Generated on: " +:+ now))) eqn:Hnow.
    + destruct (header_loop_overflow 5 results ltac:(lia) 2
                  (<[(5, 1) := header_cell (VStr "Category")]> (title_block results now))
                  ltac:(lia) ltac:(lia)) as (e & He & Hkind).
      exists e. split; [|exact Hkind].
      apply create_excel_report_header_raises; [|exact Hnow|exact He].
      intros ->. simpl in Hlen. lia.
    + exists IllegalCharacterError. split; [|by right].
      by apply create_excel_report_timestamp.
  - intros results now table_rows Hlen Hnow Hlabels.
    apply create_excel_report_header_raises.
    + intros ->. simpl in Hlen. lia.
    + apply clean_storable, clean_app; [reflexivity|exact Hnow].
    + apply header_loop_overflow_storable; [lia|exact Hlabels|lia|lia].
Qed.

(** Twenty-six records are one too many. *)
Lemma C10_witness :
  25 < List.length (repeat ([] : Record) 26) /\
  create_excel_report (repeat [] 26) sample_now sample_rows
  = Raise (ValueError_coordinate 91 5).
Proof.
  split; [vm_compute; lia|].
  apply (proj2 (proj2 (proj2 C10_only_25_records_fit))).
  - vm_compute. lia.
  - reflexivity.
  - intros result Hin. apply repeat_spec in Hin. subst result. reflexivity.
Defined.

(** C6. With no records the report consists of the title block (A1 to
    A3) and the placeholder text "No results to display" in A5; there is
    no header row, no data row, no summary block, and no column width is
    set.  The timestamp text, which [strftime] makes of digits and
    separators, is taken to hold no control character. *)
Theorem C6_empty_results_placeholder (now : string) (table_rows : list (string * string)) :
  clean now ->
  exists w,
    create_excel_report [] now table_rows = Ok w /\
    cells w !! (5, 1) = Some (text_cell "No results to display") /\
    value <$> cells w !! (5, 1) = Some (VStr "No results to display") /\
    cells w !! (1, 1) = Some title_cell /\
    cells w !! (2, 1) = Some (text_cell ("Generated on: " +:+ now)) /\
    cells w !! (3, 1) = Some (text_cell "Total sites analyzed: 0") /\
    (value <$> cells w !! (1, 1) = Some (VStr "RateMySite Analysis Report") /\
     value <$> cells w !! (2, 1) = Some (VStr ("Generated on: " +:+ now)) /\
     value <$> cells w !! (3, 1) = Some (VStr "Total sites analyzed: 0")) /\
    (forall r c : nat, (r, c) ∉ [(1, 1); (2, 1); (3, 1); (5, 1)] ->
       cells w !! (r, c) = None) /\
    column_dimensions w = ∅.
Proof.
  intros Hnow. eexists. split.
  - apply create_excel_report_empty.
    apply clean_storable, clean_app; [reflexivity|exact Hnow].
  - simpl. unfold title_block.
    assert (H5 : (<[(5, 1) := text_cell "No results to display"]>
                    (<[(3, 1) := text_cell ("Total sites analyzed: " +:+ str_of_nat 0)]>
                       (<[(2, 1) := text_cell ("Generated on: " +:+ now)]>
                          (<[(1, 1) := title_cell]> (∅ : Cells))))) !! (5, 1)
                 = Some (text_cell "No results to display"))
      by apply lookup_insert_eq.
    assert (H1 : (<[(5, 1) := text_cell "No results to display"]>
                    (<[(3, 1) := text_cell ("Total sites analyzed: " +:+ str_of_nat 0)]>
                       (<[(2, 1) := text_cell ("Generated on: " +:+ now)]>
                          (<[(1, 1) := title_cell]> (∅ : Cells))))) !! (1, 1)
                 = Some title_cell)
      by (rewrite !lookup_insert_ne by key_ne; apply lookup_insert_eq).
    assert (H2 : (<[(5, 1) := text_cell "No results to display"]>
                    (<[(3, 1) := text_cell ("Total sites analyzed: " +:+ str_of_nat 0)]>
                       (<[(2, 1) := text_cell ("Generated on: " +:+ now)]>
                          (<[(1, 1) := title_cell]> (∅ : Cells))))) !! (2, 1)
                 = Some (text_cell ("Generated on: " +:+ now)))
      by (rewrite !lookup_insert_ne by key_ne; apply lookup_insert_eq).
    assert (H3 : (<[(5, 1) := text_cell "No results to display"]>
                    (<[(3, 1) := text_cell ("Total sites analyzed: " +:+ str_of_nat 0)]>
                       (<[(2, 1) := text_cell ("Generated on: " +:+ now)]>
                          (<[(1, 1) := title_cell]> (∅ : Cells))))) !! (3, 1)
                 = Some (text_cell "Total sites analyzed: 0"))
      by (rewrite !lookup_insert_ne by key_ne; apply lookup_insert_eq).
    simpl in *.
    split; [exact H5|]. split; [by rewrite H5|].
    split; [exact H1|]. split; [exact H2|]. split; [exact H3|].
    split; [by rewrite H1, H2, H3|].
    split; [|reflexivity].
    intros r c Hrc.
    rewrite !lookup_insert_ne; [apply lookup_empty| | | |];
      intros [= <- <-]; apply Hrc; set_solver.
Qed.

(** With the sample timestamp A5 reads "No results to display", and row
    6, where a table would start, is empty. *)
Lemma C6_witness :
  exists w,
    create_excel_report [] sample_now sample_rows = Ok w /\
    value <$> cells w !! (5, 1) = Some (VStr "No results to display") /\
    cells w !! (6, 1) = None.
Proof.
  destruct (C6_empty_results_placeholder sample_now sample_rows)
    as (w & Hok & _ & H5 & _ & _ & _ & _ & Hnone & _); [reflexivity|].
  exists w. split; [exact Hok|]. split; [exact H5|]. apply Hnone.
  intros H. repeat (apply elem_of_cons in H; destruct H as [H|H]; [discriminate H|]).
  inversion H.
Defined.

(** C2. The header label of a record is [header_label] of its URL value.
    On the examples of the specification it is the host without its
    leading "www.", a value without a scheme is kept as it is, and a
    record without URL is labelled "Unknown"; but the code deletes every
    occurrence of "www." in the host, so for
    "https://mywww.example.com/" the label is "myexample.com" where the
    description gives "mywww.example.com". *)
Theorem C2_label_deletes_every_www :
  header_label (VStr "https://www.Example.com/path") = VStr "Example.com" /\
  header_label (VStr "not-a-url") = VStr "not-a-url" /\
  header_label (dict_get [] "URL" (VStr "Unknown")) = VStr "Unknown" /\
  header_label (VStr "https://mywww.example.com/") = VStr "myexample.com" /\
  spec_label (VStr "https://mywww.example.com/") = VStr "mywww.example.com" /\
  exists w,
    create_excel_report [[("URL", VStr "https://mywww.example.com/")]] sample_now []
    = Ok w /\
    value <$> cells w !! (5, 2) = Some (VStr "myexample.com").
Proof.
  repeat (split; [reflexivity|]).
  eexists. split; vm_compute; reflexivity.
Qed.

End StyledClaims.

(** ** Column widths (lines 156-169) *)

Section ColumnWidths.
Import Py Sheet Styled.

Lemma max_list_with_le {A} (f : A -> nat) (l : list A) (b : nat) :
  (forall x, x ∈ l -> f x <= b) -> max_list_with f l <= b.
Proof.
  induction l as [|x l IH]; intros H; simpl; [lia|].
  apply Nat.max_lub; [apply H; left | apply IH; intros; apply H; by right].
Qed.

Lemma max_list_with_ge {A} (f : A -> nat) (l : list A) (x : A) :
  x ∈ l -> f x <= max_list_with f l.
Proof.
  induction 1 as [|x y l Hx IH]; simpl; lia.
Qed.

Lemma max_length_acc (column : list Cell) :
  forall acc,
    fold_left (fun acc cell =>
                 match str (value cell) with
                 | Ok s => let n := String.length s in if acc <? n then n else acc
                 | Raise _ => acc
                 end) column acc
    = Nat.max acc (max_list_with text_length column).
Proof.
  induction column as [|cell column IH]; intros acc; simpl; [lia|].
  rewrite IH. unfold text_length at 2.
  destruct (str (value cell)) as [s|e]; [|lia].
  simpl. destruct (Nat.ltb_spec acc (String.length s)); lia.
Qed.

Lemma max_length_max (column : list Cell) :
  max_length column = max_list_with text_length column.
Proof. unfold max_length. rewrite max_length_acc. lia. Qed.

Lemma max_row_ge (ws : Cells) (r c : nat) (cell : Cell) :
  ws !! (r, c) = Some cell -> r <= max_row ws.
Proof.
  intros H. unfold max_row. apply max_list_elem_of_le.
  apply elem_of_map_to_list in H.
  apply (list_elem_of_fmap_2 fst) in H. apply (list_elem_of_fmap_2 fst) in H. exact H.
Qed.

Lemma max_column_ge (ws : Cells) (r c : nat) (cell : Cell) :
  ws !! (r, c) = Some cell -> c <= max_column ws.
Proof.
  intros H. unfold max_column. apply max_list_elem_of_le.
  apply elem_of_map_to_list in H.
  apply (list_elem_of_fmap_2 fst) in H. apply (list_elem_of_fmap_2 snd) in H. exact H.
Qed.

(** The lookup of the width table built by the loop over the columns. *)
Lemma widths_lookup (h : nat -> list Cell) (n : nat) :
  forall (a : nat) (dims : gmap nat nat) (c : nat),
    fold_left (fun (dims : gmap nat nat) (column : nat * list Cell) =>
                 <[column.1 := adjusted_width column.2]> dims)
              (map (fun c => (c, h c)) (seq a n)) dims !! c
    = if decide (a <= c < a + n) then Some (adjusted_width (h c)) else dims !! c.
Proof.
  induction n as [|n IH]; intros a dims c; simpl.
  - destruct (decide (a <= c < a + 0)); [lia|reflexivity].
  - rewrite IH.
    destruct (decide (S a <= c < S a + n)), (decide (a <= c < a + S n)); try lia; auto.
    + assert (c = a) as -> by lia. apply lookup_insert_eq.
    + rewrite lookup_insert_ne by lia. reflexivity.
Qed.

Lemma auto_adjust_lookup (ws : Cells) (c : nat) :
  auto_adjust ws !! c
  = if decide (1 <= c < 1 + max_column ws)
    then Some (adjusted_width (map (fun r => cell_at ws (r, c)) (seq 1 (max_row ws))))
    else None.
Proof.
  unfold auto_adjust, columns.
  rewrite (widths_lookup (fun c => map (fun r => cell_at ws (r, c)) (seq 1 (max_row ws)))).
  destruct (decide (1 <= c < 1 + max_column ws)); [reflexivity|apply lookup_empty].
Qed.

(** The loop measures every position of the used range, where a position
    never written reads "None"; after the floor of 10 this is the width
    the longest written text gives. *)
Lemma adjusted_width_column (ws : Cells) (c : nat) :
  (forall c' : nat, ws !! (0, c') = None) ->
  adjusted_width (map (fun r => cell_at ws (r, c)) (seq 1 (max_row ws)))
  = Nat.min (Nat.max (max_text_length ws c + 2) 10) 50.
Proof.
  intros Hrow0. unfold adjusted_width. rewrite max_length_max.
  set (M := max_list_with _ _).
  assert (Hlow : max_text_length ws c <= M).
  { apply max_list_with_le. intros [[r c'] cell] Hin. simpl.
    apply elem_of_map_to_list in Hin.
    destruct (value cell) eqn:Hv; try lia;
      (destruct (Nat.eqb_spec c' c) as [->|]; [|lia]);
      (assert (Hr : 1 <= r <= max_row ws)
         by (split; [destruct r; [by rewrite Hrow0 in Hin | lia]
                    | by eapply max_row_ge]));
      (etransitivity; [|apply (max_list_with_ge text_length _ cell)]);
      try reflexivity;
      (apply list_elem_of_fmap; exists r; split;
         [unfold cell_at; by rewrite Hin | apply elem_of_seq; lia]). }
  assert (Hup : M <= Nat.max (max_text_length ws c) 4).
  { apply max_list_with_le. intros cell Hin.
    apply list_elem_of_fmap in Hin. destruct Hin as (r & -> & Hr).
    unfold cell_at.
    destruct (ws !! (r, c)) as [cell|] eqn:Hl; simpl; [|unfold text_length; simpl; lia].
    destruct (value cell) eqn:Hv;
      [unfold text_length; rewrite Hv; simpl; lia| | |];
      (etransitivity; [|apply Nat.le_max_l]);
      (etransitivity;
         [|apply (max_list_with_ge _ (map_to_list ws) (r, c, cell));
           by apply elem_of_map_to_list]);
      simpl; rewrite Hv, Nat.eqb_refl; reflexivity. }
  lia.
Qed.

End ColumnWidths.

Section StyledClaims2.
Import Py Sheet Styled.

(** C5 (amended). In a styled report with records, every column of the
    used range has the width [min(max(longest + 2, 10), 50)], where
    [longest] is the length of the longest text written in the column:
    10 when the longest text has 3 characters, 50 when it has 60; and
    every width set lies between 10 and 50. *)
Theorem C5_column_widths_clamped
    (results : list Record) (now : string) (table_rows : list (string * string))
    (w : Worksheet) :
  results <> [] ->
  create_excel_report results now table_rows = Ok w ->
  (forall c : nat, 1 <= c <= max_column (cells w) ->
     let longest := max_text_length (cells w) c in
     column_dimensions w !! c = Some (Nat.min (Nat.max (longest + 2) 10) 50) /\
     (longest = 3 -> column_dimensions w !! c = Some 10) /\
     (longest = 60 -> column_dimensions w !! c = Some 50)) /\
  (forall c width : nat, column_dimensions w !! c = Some width -> 10 <= width <= 50).
Proof.
  intros Hne H. apply create_excel_report_Ok in H; [|exact Hne].
  destruct H as (_ & _ & _ & _ & _ & _ & _ & _ & Hrow0 & ->).
  assert (Hw : forall c : nat, 1 <= c <= max_column (cells w) ->
            auto_adjust (cells w) !! c
            = Some (Nat.min (Nat.max (max_text_length (cells w) c + 2) 10) 50)).
  { intros c Hc. rewrite auto_adjust_lookup.
    destruct (decide (1 <= c < 1 + max_column (cells w))); [|lia].
    by rewrite adjusted_width_column. }
  split.
  - intros c Hc. simpl. rewrite (Hw c Hc).
    split; [reflexivity|]. split; intros ->; reflexivity.
  - intros c width Hc. rewrite auto_adjust_lookup in Hc.
    destruct (decide (1 <= c < 1 + max_column (cells w))); [|discriminate].
    injection Hc as <-. unfold adjusted_width. lia.
Qed.

(** The column of the 3-character header is 10 wide, that of the
    60-character header 50. *)
Lemma C5_witness :
  column_dimensions width_report !! 2 = Some 10 /\
  column_dimensions width_report !! 3 = Some 50.
Proof.
  assert (Hne : width_results <> []) by discriminate.
  assert (HOk : create_excel_report width_results sample_now [] = Ok width_report)
    by (vm_compute; reflexivity).
  destruct (C5_column_widths_clamped width_results sample_now [] width_report Hne HOk)
    as (Hcols & _).
  split.
  - apply (Hcols 2); [vm_compute; lia | vm_compute; reflexivity].
  - apply (Hcols 3); [vm_compute; lia | vm_compute; reflexivity].
Defined.

(** C5 as stated fails for an empty list of records: the report has
    its texts in column A, and no width is set for the column. *)
Lemma C5_counterexample_empty_results :
  exists w,
    create_excel_report [] sample_now sample_rows = Ok w /\
    value <$> cells w !! (1, 1) = Some (VStr "RateMySite Analysis Report") /\
    max_column (cells w) = 1 /\
    max_text_length (cells w) 1 = 33 /\
    column_dimensions w !! 1 = None.
Proof.
  eexists. split; [vm_compute; reflexivity|].
  split; [vm_compute; reflexivity|].
  split; [vm_compute; reflexivity|].
  split; vm_compute; reflexivity.
Qed.

(** C3. In a styled report with records, the summary block has an
    average line for a field exactly when the field is a score field of
    the descriptors and at least one record holds decimal digits for it.
    The lines follow the summary title in descriptor order; a line shows
    "Average <field>:" and the [.1f] text of the sum of the valid entries
    divided by their number, the other records not being counted.  For a
    sum below [2^49] that text is the number of tenths nearest to the
    quotient as the float holds it: within 13/160 of the exact mean, and
    the exact mean whenever this has one decimal.  There is nothing below
    the last line. *)
Theorem C3_average_lines
    (results : list Record) (now : string) (table_rows : list (string * string))
    (w : Worksheet) :
  results <> [] ->
  create_excel_report results now table_rows = Ok w ->
  let n := List.length table_rows in
  let lines := average_lines results (score_fields table_rows) in
  (forall field,
     (exists scores, (field, scores) ∈ lines) <->
     (contains "Score" field = true /\
      (exists label, (field, label) ∈ table_rows) /\
      exists result, result ∈ results /\
        decimal_text (text (dict_get result field (VStr "-"))) = true)) /\
  (forall k field scores,
     lines !! k = Some (field, scores) ->
     scores = valid_scores results field /\
     exists avg_score,
       truediv (sum scores) (Z.of_nat (List.length scores)) = Ok avg_score /\
       value <$> cells w !! (n + 9 + k, 1) = Some (VStr ("Average " +:+ field +:+ ":")) /\
       value <$> cells w !! (n + 9 + k, 2) = Some (VStr (format_1f avg_score)) /\
       ((sum scores < 2 ^ 49)%Z ->
        let count := Z.of_nat (List.length scores) in
        let shown := tenths avg_score in
        format_1f avg_score = str_of_Z (shown / 10) +:+ "." +:+ str_of_Z (shown mod 10) /\
        (16 * Z.abs (shown * count - 10 * sum scores) <= 13 * count)%Z /\
        (forall t, (10 * sum scores = t * count)%Z -> shown = t))) /\
  (forall r c : nat, n + 9 + List.length lines <= r -> cells w !! (r, c) = None).
Proof.
  intros Hne H. apply create_excel_report_Ok in H; [|exact Hne].
  destruct H as (_ & _ & _ & _ & _ & _ & Hlines & Hbelow & _).
  simpl. split; [|split].
  - intros field. split.
    + intros (scores & Hin). apply elem_of_average_lines in Hin.
      destruct Hin as (Hf & -> & Hv).
      apply elem_of_score_fields in Hf. destruct Hf as (Hc & Hl).
      apply valid_scores_nonempty in Hv. auto.
    + intros (Hc & Hl & Hv). exists (valid_scores results field).
      apply elem_of_average_lines. split; [|split; [reflexivity|]].
      * apply elem_of_score_fields. auto.
      * by apply valid_scores_nonempty.
  - intros k field scores Hk.
    assert (Hin : (field, scores) ∈ average_lines results (score_fields table_rows))
      by (eapply list_elem_of_lookup_2; exact Hk).
    apply elem_of_average_lines in Hin. destruct Hin as (_ & Hs & Hnil).
    split; [exact Hs|].
    destruct (Hlines k _ _ Hk) as (avg & Havg & HA & HB & _).
    exists avg. rewrite HA, HB.
    split; [exact Havg|]. split; [reflexivity|]. split; [reflexivity|].
    intros Hsmall.
    destruct (mean_text (sum scores) (Z.of_nat (List.length scores)))
      as (x & Hx & Hfmt & Hnear & Hexact).
    { split; [|exact Hsmall]. rewrite Hs. apply sum_valid_scores_nonneg. }
    { destruct scores; [congruence|simpl; lia]. }
    rewrite Hx in Havg. injection Havg as <-. auto.
  - exact Hbelow.
Qed.

(** For the values 80, "-" and 60 the line of the field is the first
    line (row 10) and reads 70.0: 140 over the 2 valid entries. *)
Lemma C3_witness :
  valid_scores average_results "Overall Score" = [80; 60]%Z /\
  value <$> cells average_report !! (10, 1) = Some (VStr "Average Overall Score:") /\
  value <$> cells average_report !! (10, 2) = Some (VStr "70.0").
Proof.
  assert (Hne : average_results <> []) by discriminate.
  assert (HOk : create_excel_report average_results sample_now average_rows
                = Ok average_report) by (vm_compute; reflexivity).
  destruct (C3_average_lines average_results sample_now average_rows average_report
              Hne HOk) as (_ & Hlines & _).
  destruct (Hlines 0 "Overall Score" [80; 60]%Z eq_refl)
    as (Hscores & avg & Havg & HA & HB & Hsmall).
  split; [symmetry; exact Hscores|]. split; [exact HA|].
  refine (eq_trans HB _).
  destruct Hsmall as (Htext & _ & Hexact); [vm_compute; reflexivity|].
  rewrite Htext, (Hexact 700%Z) by (vm_compute; reflexivity). reflexivity.
Defined.

End StyledClaims2.

(** ** The detailed report *)

Section DetailedReport.
Import Py Detailed.

Lemma mem_In (x : string) (l : list string) : mem x l = true <-> In x l.
Proof.
  unfold mem. rewrite existsb_exists. split.
  - intros (y & Hin & Heq). apply String.eqb_eq in Heq. by subst.
  - intros Hin. exists x. split; [auto|apply String.eqb_refl].
Qed.

Lemma In_add_keys (ks : list string) :
  forall (seen : list string) (k : string),
    In k (fold_left add_key ks seen) <-> In k seen \/ In k ks.
Proof.
  induction ks as [|k0 ks IH]; intros seen k; simpl; [tauto|].
  rewrite IH. unfold add_key. destruct (mem k0 seen) eqn:Hm.
  - apply mem_In in Hm. split; [tauto|]. intros [?|[<-|?]]; auto.
  - rewrite in_app_iff. simpl. tauto.
Qed.

Lemma add_keys_known (ks seen : list string) :
  (forall k, In k ks -> In k seen) -> fold_left add_key ks seen = seen.
Proof.
  revert seen. induction ks as [|k0 ks IH]; intros seen H; simpl; [auto|].
  unfold add_key at 2. destruct (mem k0 seen) eqn:Hm.
  - apply IH. intros k Hk. apply H. by right.
  - exfalso. assert (In k0 seen) as Hin by (apply H; by left).
    apply mem_In in Hin. congruence.
Qed.

(** The columns of a table built from records are the keys of the
    records. *)
Lemma In_union_keys (records : list Record) (k : string) :
  In k (union_keys records) <-> exists r, In r records /\ In k (dict_keys r).
Proof.
  unfold union_keys. change (fun seen k => if mem k seen then seen else (seen ++ [k])%list)
    with add_key.
  rewrite In_add_keys, in_concat. simpl. split.
  - intros [[]|(ks & Hks & Hk)]. apply in_map_iff in Hks.
    destruct Hks as (r & <- & Hr). eauto.
  - intros (r & Hr & Hk). right. exists (dict_keys r). split; [|auto].
    apply in_map_iff. eauto.
Qed.

(** Records that all have the same keys [ks], without repetition, give
    the columns [ks]. *)
Lemma union_keys_uniform (records : list Record) (ks : list string) :
  records <> [] ->
  (forall r, In r records -> dict_keys r = ks) ->
  fold_left add_key ks [] = ks ->
  union_keys records = ks.
Proof.
  intros Hne Hall Hks. unfold union_keys.
  change (fun seen k => if mem k seen then seen else (seen ++ [k])%list) with add_key.
  destruct records as [|r rs]; [congruence|]. simpl.
  rewrite (Hall r) by (by left). rewrite fold_left_app, Hks.
  apply add_keys_known. intros k Hk. apply in_concat in Hk.
  destruct Hk as (ks' & Hks' & Hk). apply in_map_iff in Hks'.
  destruct Hks' as (r' & <- & Hr'). rewrite (Hall r') in Hk by (by right). auto.
Qed.

Lemma to_excel_Ok (df : DataFrame) (name : string) (writer writer' : Writer) :
  to_excel df name writer = Ok writer' ->
  writable df = true /\ writer' = (writer ++ [(name, df)])%list.
Proof.
  unfold to_excel. destruct (writable df); [|discriminate]. by intros [= <-].
Qed.

(** A completed call had at least one record and wrote the three
    sheets, in this order, each accepted by the engine. *)
Lemma detailed_report_Ok (results : list Record) (wb : Writer) :
  create_detailed_excel_report results = Ok wb ->
  results <> [] /\
  exists summary detailed scores,
    wb = [("Summary", summary); ("Detailed Data", detailed);
          ("Scores Comparison", scores)] /\
    summary = from_records (map summary_row results) /\
    detailed = (let df := from_records results in
                if mem "_raw" (df_columns df) then drop "_raw" df else df) /\
    scores = from_records (map scores_row results) /\
    writable summary = true /\ writable detailed = true /\ writable scores = true.
Proof.
  unfold create_detailed_excel_report, detailed_sheets. intros H.
  destruct results as [|r rs]; [discriminate H|].
  split; [discriminate|].
  apply bind_Ok in H. destruct H as (w3 & H & Hexit).
  apply bind_Ok in H. destruct H as (w1 & H1 & H).
  apply bind_Ok in H. destruct H as (w2 & H2 & H3).
  cbn [map] in H1, H3.
  apply to_excel_Ok in H1. destruct H1 as [Hw1 ->].
  apply to_excel_Ok in H2. destruct H2 as [Hw2 ->].
  apply to_excel_Ok in H3. destruct H3 as [Hw3 ->].
  simpl in Hexit. injection Hexit as <-.
  eexists _, _, _. split; [reflexivity|]. auto 10.
Qed.

Lemma dict_lookup_None (r : Record) (key : string) :
  ~ In key (dict_keys r) -> dict_lookup r key = None.
Proof.
  induction r as [|[k v] r IH]; simpl; [auto|]. intros Hnin.
  destruct (String.eqb_spec k key) as [->|Hne]; [tauto|]. apply IH. tauto.
Qed.

Lemma find_combine_map {A} (f : string -> A) (col : string) (cols : list string) :
  List.find (fun p : string * A => String.eqb p.1 col) (combine cols (map f cols))
  = if mem col cols then Some (col, f col) else None.
Proof.
  induction cols as [|c cols IH]; simpl; [reflexivity|].
  rewrite (String.eqb_sym col c).
  destruct (String.eqb_spec c col) as [->|Hne]; simpl; [reflexivity|exact IH].
Qed.

(** An entry of a table built from records is the record's value for the
    column, and missing when the record has none. *)
Lemma entry_from_records (records : list Record) (i : nat) (r : Record) (col : string) :
  records !! i = Some r ->
  entry (from_records records) i col = dict_lookup r col.
Proof.
  intros Hi. unfold entry, from_records. simpl.
  change (map (fun r0 => map (dict_lookup r0) (union_keys records)) records)
    with ((fun r0 => map (dict_lookup r0) (union_keys records)) <$> records).
  rewrite list_lookup_fmap, Hi. simpl.
  rewrite find_combine_map.
  destruct (mem col (union_keys records)) eqn:Hm; simpl; [reflexivity|].
  symmetry. apply dict_lookup_None. intros Hin.
  assert (In col (union_keys records)) as Hu
    by (apply In_union_keys; exists r; split;
        [apply list_elem_of_In; eapply list_elem_of_lookup_2; exact Hi | exact Hin]).
  apply mem_In in Hu. congruence.
Qed.

Lemma find_select {A} (keep : string -> bool) (col : string) (cols : list string) :
  forall row : list A,
    keep col = true ->
    List.find (fun p : string * A => String.eqb p.1 col)
              (combine (List.filter keep cols) (select keep cols row))
    = List.find (fun p : string * A => String.eqb p.1 col) (combine cols row).
Proof.
  induction cols as [|c cols IH]; intros row Hk; simpl; [reflexivity|].
  destruct row as [|x row].
  - destruct (keep c); simpl; [reflexivity|].
    by destruct (List.filter keep cols).
  - destruct (keep c) eqn:Hc; simpl.
    + destruct (String.eqb c col); [reflexivity|]. by apply IH.
    + destruct (String.eqb_spec c col) as [->|Hne]; [congruence|]. by apply IH.
Qed.

(** Dropping a column leaves the entries of the others. *)
Lemma entry_drop (label : string) (df : DataFrame) (i : nat) (col : string) :
  col <> label -> entry (drop label df) i col = entry df i col.
Proof.
  intros Hne. unfold entry, drop. simpl.
  change (map (select (fun c => negb (String.eqb c label)) (df_columns df)) (df_rows df))
    with (select (fun c => negb (String.eqb c label)) (df_columns df) <$> df_rows df).
  rewrite list_lookup_fmap. destruct (df_rows df !! i) as [row|]; simpl; [|reflexivity].
  rewrite find_select; [reflexivity|].
  destruct (String.eqb_spec col label); [congruence|reflexivity].
Qed.

(** C7. With no records no sheet is written; leaving the writer session
    then saves a workbook without any sheet, which the writer refuses:
    the call raises instead of completing. *)
Theorem C7_empty_records_writer_raises :
  detailed_sheets [] = Ok [] /\
  sheet "Summary" [] = None /\
  sheet "Detailed Data" [] = None /\
  sheet "Scores Comparison" [] = None /\
  create_detailed_excel_report [] = Raise IndexError_no_sheet.
Proof. repeat split. Qed.

(** C9. In a completed detailed report the "Detailed Data" sheet has no
    column "_raw"; its columns are otherwise exactly the keys that occur
    in the records, and each record's entry under such a key is the
    record's value (missing when the record has none). *)
Theorem C9_raw_column_dropped (results : list Record) (wb : Writer) :
  create_detailed_excel_report results = Ok wb ->
  exists df,
    sheet "Detailed Data" wb = Some df /\
    ~ In "_raw" (df_columns df) /\
    (forall key, key <> "_raw" ->
       (In key (df_columns df) <-> exists result, In result results /\ In key (dict_keys result))) /\
    (forall i result key, results !! i = Some result -> key <> "_raw" ->
       entry df i key = dict_lookup result key).
Proof.
  intros Hok.
  destruct (detailed_report_Ok results wb Hok)
    as (Hne & summary & detailed & scores & -> & _ & Hd & _).
  exists detailed. split; [reflexivity|].
  subst detailed. simpl.
  destruct (mem "_raw" (union_keys results)) eqn:Hm.
  - split; [|split].
    + simpl. rewrite filter_In. intros [_ H]. discriminate.
    + intros key Hkey. simpl. rewrite filter_In, In_union_keys.
      destruct (String.eqb_spec key "_raw"); [congruence|]. simpl. tauto.
    + intros i result key Hi Hkey. rewrite entry_drop by auto.
      by apply entry_from_records.
  - split; [|split].
    + simpl. intros Hin. apply mem_In in Hin. congruence.
    + intros key _. simpl. apply In_union_keys.
    + intros i result key Hi _. by apply entry_from_records.
Qed.

Lemma C9_witness :
  exists df,
    create_detailed_excel_report raw_results = Ok (workbook_of raw_results) /\
    sheet "Detailed Data" (workbook_of raw_results) = Some df /\
    ~ In "_raw" (df_columns df) /\
    In "Company" (df_columns df).
Proof.
  assert (Hok : create_detailed_excel_report raw_results = Ok (workbook_of raw_results))
    by (vm_compute; reflexivity).
  destruct (C9_raw_column_dropped raw_results (workbook_of raw_results) Hok)
    as (df & Hsheet & Hraw & Hkeys & _).
  exists df. repeat split; auto.
  apply Hkeys; [discriminate|]. eexists. split; [left; reflexivity|].
  simpl. auto.
Defined.

(** What lines 223-226 compute: the number, for a value that is truthy
    (for text: not empty) and whose text is decimal digits, at most 4300
    of them; nothing otherwise.  The superscript digits, which [isdigit]
    lets through, and the digit strings and integers beyond the limit
    end in the exception handler. *)
Lemma score_cell_spec (v : PyVal) :
  score_cell v
  = if truthy v && decimal_text (text v)
       && (String.length (text v) <=? int_max_str_digits)
    then VInt (digits_value 0 (text v)) else VNone.
Proof.
  unfold score_cell. destruct (truthy v) eqn:Ht; simpl; [|reflexivity].
  destruct (decimal_text (text v)) eqn:Hd; simpl.
  - destruct (Nat.leb_spec (String.length (text v)) int_max_str_digits) as [Hlen|Hlen].
    + rewrite (str_short_decimal _ Hd Hlen). simpl.
      by rewrite (decimal_text_isdigit _ Hd), (int_short_decimal _ Hd Hlen).
    + destruct (str v) as [s|e] eqn:Hs; [|reflexivity]. simpl.
      pose proof (str_Ok _ _ Hs) as ->.
      rewrite (decimal_text_isdigit _ Hd).
      destruct (int v) as [n|e] eqn:Hn; [|reflexivity].
      pose proof (decimal_text_short _ _ Hd Hs Hn). lia.
  - destruct (str v) as [s|e] eqn:Hs; [|reflexivity]. simpl.
    pose proof (str_Ok _ _ Hs) as ->.
    destruct (isdigit (text v)) eqn:Hi; [|reflexivity].
    destruct (int v) as [n|e] eqn:Hn; [|reflexivity].
    by rewrite (isdigit_int_decimal _ _ Hi Hn) in Hd.
Qed.

Lemma dict_keys_scores_row (result : Record) :
  dict_keys (scores_row result) = "URL" :: score_columns.
Proof. reflexivity. Qed.

Lemma dict_lookup_scores_row (result : Record) (col : string) :
  In col score_columns ->
  dict_lookup (scores_row result) col
  = Some (score_cell (dict_get result col (VStr ""))).
Proof.
  unfold score_columns. simpl.
  intros [<-|[<-|[<-|[<-|[<-|[<-|[<-|[<-|[<-|[]]]]]]]]]]; reflexivity.
Qed.

(** C4 (amended). In the "Scores Comparison" sheet of a completed
    report, whose columns are "URL" and the nine score fields, the entry
    of a record under a score field holds the integer when the source
    value is non-empty (truthy) and reads as decimal digits, at most 4300
    of them (the interpreter's limit on integer conversion), and is empty
    otherwise; so a non-empty digit string within the limit gives its
    number, any other string (such as "N/A" or "") and a missing or
    [None] value give an empty entry, never "-" and never a zero that
    was not written as digits. *)
Theorem C4_scores_comparison_cells (results : list Record) (wb : Writer) (i : nat)
    (result : Record) (col : string) :
  create_detailed_excel_report results = Ok wb ->
  results !! i = Some result ->
  In col score_columns ->
  exists df cell,
    sheet "Scores Comparison" wb = Some df /\
    df_columns df = "URL" :: score_columns /\
    entry df i col = Some cell /\
    let source := dict_get result col (VStr "") in
    cell = (if truthy source && decimal_text (text source)
               && (String.length (text source) <=? int_max_str_digits)
            then VInt (digits_value 0 (text source)) else VNone) /\
    (forall s, dict_lookup result col = Some (VStr s) ->
       cell = if decimal_text s && (String.length s <=? int_max_str_digits)
              then VInt (digits_value 0 s) else VNone) /\
    (dict_lookup result col = None \/ dict_lookup result col = Some VNone ->
       cell = VNone) /\
    cell <> VStr "-" /\
    (cell = VInt 0 -> decimal_text (text source) = true).
Proof.
  intros Hok Hi Hcol.
  destruct (detailed_report_Ok results wb Hok)
    as (Hne & summary & detailed & scores & -> & _ & _ & Hs & _).
  exists scores, (score_cell (dict_get result col (VStr ""))).
  split; [reflexivity|].
  subst scores. split.
  { simpl. apply union_keys_uniform.
    - destruct results; [congruence|discriminate].
    - intros r Hr. apply in_map_iff in Hr. destruct Hr as (r' & <- & _).
      apply dict_keys_scores_row.
    - reflexivity. }
  split.
  { rewrite (entry_from_records _ i (scores_row result)).
    - by apply dict_lookup_scores_row.
    - change (map scores_row results) with (scores_row <$> results).
      by rewrite list_lookup_fmap, Hi. }
  simpl. rewrite score_cell_spec. split; [reflexivity|].
  rewrite dict_get_lookup.
  split; [|split; [|split]].
  - intros s ->. simpl.
    destruct (decimal_text s) eqn:Hd; [|by rewrite andb_false_r].
    destruct s; [discriminate|reflexivity].
  - intros [-> | ->]; reflexivity.
  - by destruct (truthy _ && decimal_text _ && _).
  - destruct (truthy _ && decimal_text _ && _) eqn:Hg; [|discriminate].
    intros _. apply andb_prop in Hg. destruct Hg as [Hg _].
    apply andb_prop in Hg. tauto.
Qed.

Lemma C4_witness :
  exists df,
    create_detailed_excel_report scores_results = Ok (workbook_of scores_results) /\
    sheet "Scores Comparison" (workbook_of scores_results) = Some df /\
    entry df 0 "Overall Score" = Some (VInt 85) /\
    entry df 1 "Overall Score" = Some VNone /\
    entry df 1 "UX Score" = Some VNone.
Proof.
  assert (Hok : create_detailed_excel_report scores_results
                = Ok (workbook_of scores_results)) by (vm_compute; reflexivity).
  destruct (C4_scores_comparison_cells scores_results (workbook_of scores_results) 0
              [("URL", VStr "https://a.com"); ("Overall Score", VStr "85")]
              "Overall Score" Hok eq_refl)
    as (df & cell & Hsheet & _ & Hentry & Hcell & _).
  { simpl. auto. }
  exists df. split; [exact Hok|]. split; [exact Hsheet|].
  split; [rewrite Hentry, Hcell; reflexivity|].
  vm_compute in Hsheet. injection Hsheet as <-.
  split; reflexivity.
Defined.

(** C4 as stated fails: a purely-digit string of 4301 digits is left
    empty, the conversion being refused and the exception swallowed. *)
Lemma C4_counterexample_long_digit_string :
  decimal_text long_digits = true /\
  String.length long_digits = 4301 /\
  exists wb df,
    create_detailed_excel_report long_digits_results = Ok wb /\
    sheet "Scores Comparison" wb = Some df /\
    entry df 0 "Overall Score" = Some VNone.
Proof.
  split; [vm_compute; reflexivity|]. split; [vm_compute; reflexivity|].
  eexists. eexists. split; [vm_compute; reflexivity|].
  split; vm_compute; reflexivity.
Qed.

End DetailedReport.


(** ** The layout of the styled report *)

Section StyledLayout.
Import Py Sheet Styled.

Lemma header_loop_frame (results : list Record) (row : nat) (ws ws' : Cells) :
  for_each (write_header_cell row) (enumerate 2 results) ws = Ok ws' ->
  forall r c : nat, r <> row \/ c < 2 \/ 2 + List.length results <= c ->
    ws' !! (r, c) = ws !! (r, c).
Proof.
  intros H.
  rewrite (for_each_ext _
    (fun (entry : nat * Record) ws =>
       with_cell (col_letter entry.1) row (header_body entry.2) ws))
    in H by (intros [] ?; reflexivity).
  apply (row_loop_Ok header_body) in H; [|lia].
  destruct H as (_ & Hframe & _). exact Hframe.
Qed.

(** The data rows stay within the columns of the category and of the
    records. *)
Lemma data_rows_columns (results : list Record) (table_rows : list (string * string)) :
  forall (ws ws' : Cells) (row row' : nat),
    for_each (write_data_row results) table_rows (ws, row) = Ok (ws', row') ->
    forall r c : nat, c = 0 \/ 2 + List.length results <= c ->
      ws' !! (r, c) = ws !! (r, c).
Proof.
  induction table_rows as [|[row_key row_display] table_rows IH];
    intros ws ws' row row' H r c Hc; simpl in H.
  - by injection H as <- <-.
  - apply bind_Ok in H. destruct H as ([ws1 row1] & H1 & H).
    rewrite (IH _ _ _ _ H r c Hc).
    unfold write_data_row in H1. apply bind_Ok in H1. destruct H1 as (wsA & HA & H1).
    apply bind_Ok in H1. destruct H1 as (wsB & HB & H1). injection H1 as <- <-.
    apply (with_cell_value _ _ 1 _
           (fun c => set_border (set_alignment HLeft (set_fill subheader_fill
                       (set_font subheader_font c))))) in HA; [|reflexivity].
    destruct HA as (_ & _ & ->).
    rewrite (for_each_ext _
      (fun (entry : nat * Record) ws =>
         with_cell (col_letter entry.1) row
           (format_data_cell row_key (field_value entry.2 row_key)) ws))
      in HB by (intros [] ?; reflexivity).
    apply (row_loop_Ok (fun (result : Record) =>
             format_data_cell row_key (field_value result row_key))) in HB; [|lia].
    destruct HB as (_ & Hframe & _).
    rewrite Hframe by lia. apply lookup_insert_ne. intros [= ? ?]. lia.
Qed.

(** The average lines use columns A and B only. *)
Lemma averages_columns (results : list Record) (fields : list string) :
  forall (ws ws' : Cells) (row row' : nat),
    for_each (write_average results) fields (ws, row) = Ok (ws', row') ->
    forall r c : nat, c <> 1 -> c <> 2 -> ws' !! (r, c) = ws !! (r, c).
Proof.
  induction fields as [|field fields IH]; intros ws ws' row row' H r c Hc1 Hc2; simpl in H.
  - by injection H as <- <-.
  - apply bind_Ok in H. destruct H as ([ws1 row1] & H1 & H).
    rewrite (IH _ _ _ _ H r c Hc1 Hc2).
    unfold write_average in H1. apply bind_Ok in H1. destruct H1 as (scores & _ & H1).
    destruct scores as [|n ns]; [by injection H1 as <- <-|].
    apply bind_Ok in H1. destruct H1 as (avg & _ & H1).
    apply bind_Ok in H1. destruct H1 as (wsA & HA & H1).
    apply bind_Ok in H1. destruct H1 as (wsB & HB & H1). injection H1 as <- <-.
    apply (with_cell_set _ _ 1) in HA; [|reflexivity]. destruct HA as (_ & _ & ->).
    apply (with_cell_set _ _ 2) in HB; [|reflexivity]. destruct HB as (_ & _ & ->).
    rewrite !lookup_insert_ne by (intros [= ? ?]; lia). reflexivity.
Qed.

(** Where a report with records has no cell, and what its top rows are:
    rows 1 to 4 are the title block; row 5 ends with the last record's
    column; the two rows after the table are empty; the summary title
    stands alone in its row; no cell lies outside the columns of the
    category and the records. *)
Lemma create_excel_report_layout (results : list Record) (now : string)
    (table_rows : list (string * string)) (w : Worksheet) :
  results <> [] ->
  create_excel_report results now table_rows = Ok w ->
  let n := List.length table_rows in
  (forall r c : nat, r < 5 -> cells w !! (r, c) = title_block results now !! (r, c)) /\
  (forall c : nat, c = 0 \/ 2 + List.length results <= c -> cells w !! (5, c) = None) /\
  (forall c : nat, cells w !! (n + 6, c) = None /\ cells w !! (n + 7, c) = None) /\
  (forall c : nat, c <> 1 -> cells w !! (n + 8, c) = None) /\
  (forall r c : nat, c = 0 \/ 2 + List.length results <= c -> cells w !! (r, c) = None) /\
  title w = sheet_title.
Proof.
  intros Hne H. unfold create_excel_report in H.
  destruct results as [|r0 rs] eqn:Hres; [congruence|]. rewrite <- Hres in *.
  assert (Hlen1 : 1 <= List.length results) by (rewrite Hres; simpl; lia).
  apply bind_Ok in H. destruct H as (ws1 & H1 & H).
  apply bind_Ok in H. destruct H as (ws2 & H2 & H).
  apply bind_Ok in H. destruct H as (ws3 & H3 & H).
  apply bind_Ok in H. destruct H as (ws4 & H4 & H).
  apply bind_Ok in H. destruct H as (ws5 & H5 & H).
  apply bind_Ok in H. destruct H as ([ws6 row6] & H6 & H).
  apply bind_Ok in H. destruct H as (ws7 & H7 & H).
  apply bind_Ok in H. destruct H as ([ws8 row8] & H8 & H).
  injection H as <-. simpl. change (5 + 1) with 6 in *.
  apply (with_cell_value _ _ 1 _ (set_font title_font))
    in H1; [|reflexivity]. destruct H1 as (_ & _ & ->).
  apply (with_cell_set _ _ 1) in H2; [|reflexivity]. destruct H2 as (_ & _ & ->).
  apply (with_cell_set _ _ 1) in H3; [|reflexivity]. destruct H3 as (_ & _ & ->).
  apply (with_cell_value _ _ 1 _
           (fun c => set_border (set_alignment HCenter (set_fill header_fill
                       (set_font header_font c))))) in H4; [|reflexivity].
  destruct H4 as (_ & _ & ->).
  rewrite !cell_at_insert_ne in * by key_ne.
  rewrite !cell_at_None in * by apply lookup_empty.
  cell_shapes.
  fold (title_block results now) in *.
  assert (Hb4 : below 5 (title_block results now)).
  { intros r c Hr. unfold title_block. rewrite !lookup_insert_ne by key_ne.
    apply lookup_empty. }
  assert (Hc4 : forall r c : nat, c <> 1 -> title_block results now !! (r, c) = None).
  { intros r c Hc. unfold title_block. rewrite !lookup_insert_ne by key_ne.
    apply lookup_empty. }
  pose proof (header_loop_frame _ _ _ _ H5) as Hframe5.
  assert (Hb5 : below 6 ws5).
  { intros r c Hr. rewrite Hframe5 by lia.
    rewrite lookup_insert_ne by key_ne. apply Hb4. lia. }
  pose proof (data_rows_columns _ _ _ _ _ _ H6) as Hcols6.
  apply data_rows_Ok in H6; [|exact Hb5].
  destruct H6 as (-> & Hframe6 & Hb6 & _).
  apply (with_cell_value _ _ 1 _ (set_font summary_font))
    in H7; [|reflexivity]. destruct H7 as (_ & _ & ->).
  pose proof (averages_columns _ _ _ _ _ _ H8) as Hcols8.
  apply averages_Ok in H8.
  2:{ intros r c Hr. rewrite lookup_insert_ne by key_ne. apply Hb6. lia. }
  destruct H8 as (-> & Hframe8 & _ & _).
  assert (Hold : forall r c : nat, r < 6 -> ws8 !! (r, c) = ws5 !! (r, c)).
  { intros r c Hr. rewrite Hframe8 by lia. rewrite lookup_insert_ne by key_ne.
    apply Hframe6. lia. }
  split.
  { intros r c Hr. rewrite Hold by lia. rewrite Hframe5 by lia.
    apply lookup_insert_ne. key_ne. }
  split.
  { intros c Hc. rewrite Hold by lia. rewrite Hframe5 by lia.
    rewrite lookup_insert_ne by key_ne. apply Hb4. lia. }
  split.
  { intros c. split; (rewrite Hframe8 by lia); (rewrite lookup_insert_ne by key_ne);
      apply Hb6; lia. }
  split.
  { intros c Hc. rewrite Hframe8 by lia. rewrite lookup_insert_ne by key_ne.
    apply Hb6. lia. }
  split; [|reflexivity].
  intros r c Hc. rewrite Hcols8 by lia. rewrite lookup_insert_ne by key_ne.
  rewrite Hcols6 by lia. rewrite Hframe5 by lia.
  rewrite lookup_insert_ne by key_ne. apply Hc4. lia.
Qed.

End StyledLayout.

(** ** The styled report: layout and styles *)

Section StyledExtras.
Import Py Sheet Styled.

Lemma sample_report_Ok :
  create_excel_report sample_results sample_now sample_rows = Ok sample_report.
Proof. vm_compute. reflexivity. Qed.

Lemma str_of_nat_reads_back (n : nat) :
  digits_value 0 (str_of_nat n) = Z.of_nat n.
Proof. unfold str_of_nat. apply digits_value_str_of_Z. lia. Qed.

(** X1. Whatever the records, a report that is produced starts with the
    title block: A1 holds "RateMySite Analysis Report" in bold 16-point,
    A2 the timestamp line, A3 the line with the number of records, which
    reads back as [len(results)]; rows 1 to 4 hold nothing else, and the
    sheet is named "RateMySite Analysis". *)
Theorem styled_title_block
    (results : list Record) (now : string) (table_rows : list (string * string))
    (w : Worksheet) :
  create_excel_report results now table_rows = Ok w ->
  title w = "RateMySite Analysis" /\
  cells w !! (1, 1) = Some title_cell /\
  cells w !! (2, 1) = Some (text_cell ("Generated on: " +:+ now)) /\
  cells w !! (3, 1)
    = Some (text_cell ("Total sites analyzed: " +:+ str_of_nat (List.length results))) /\
  (value <$> cells w !! (1, 1) = Some (VStr "RateMySite Analysis Report") /\
   font <$> cells w !! (1, 1)
     = Some {| bold := true; color := None; size := Some 16; underline := None |} /\
   value <$> cells w !! (2, 1) = Some (VStr ("Generated on: " +:+ now)) /\
   value <$> cells w !! (3, 1)
     = Some (VStr ("Total sites analyzed: " +:+ str_of_nat (List.length results)))) /\
  digits_value 0 (str_of_nat (List.length results)) = Z.of_nat (List.length results) /\
  (forall r c : nat, r < 5 -> c <> 1 \/ r = 0 \/ r = 4 -> cells w !! (r, c) = None).
Proof.
  intros H.
  assert (Htop : title w = sheet_title /\
                 forall r c : nat, r < 5 ->
                   cells w !! (r, c) = title_block results now !! (r, c)).
  { destruct results as [|r0 rs] eqn:Hres.
    - destruct (storable (VStr ("Generated on: " +:+ now))) eqn:Hnow.
      + rewrite create_excel_report_empty in H by exact Hnow. injection H as <-. simpl.
        split; [reflexivity|]. intros r c Hr. apply lookup_insert_ne. key_ne.
      + rewrite create_excel_report_timestamp in H by exact Hnow. discriminate H.
    - rewrite <- Hres in *.
      apply create_excel_report_layout in H; [|rewrite Hres; discriminate].
      destruct H as (Htop & _ & _ & _ & _ & Ht). auto. }
  destruct Htop as (Ht & Htop).
  split; [exact Ht|].
  assert (H1 : cells w !! (1, 1) = Some title_cell).
  { rewrite Htop by lia. unfold title_block.
    rewrite !lookup_insert_ne by key_ne. apply lookup_insert_eq. }
  assert (H2 : cells w !! (2, 1) = Some (text_cell ("Generated on: " +:+ now))).
  { rewrite Htop by lia. unfold title_block.
    rewrite !lookup_insert_ne by key_ne. apply lookup_insert_eq. }
  assert (H3 : cells w !! (3, 1)
               = Some (text_cell ("Total sites analyzed: "
                                  +:+ str_of_nat (List.length results)))).
  { rewrite Htop by lia. unfold title_block. apply lookup_insert_eq. }
  split; [exact H1|]. split; [exact H2|]. split; [exact H3|].
  split; [by rewrite H1, H2, H3|].
  split; [apply str_of_nat_reads_back|].
  intros r c Hr Hc. rewrite Htop by lia. unfold title_block.
  rewrite !lookup_insert_ne by key_ne. apply lookup_empty.
Qed.

Lemma styled_title_block_witness :
  value <$> cells sample_report !! (3, 1) = Some (VStr "Total sites analyzed: 2") /\
  cells sample_report !! (4, 1) = None.
Proof.
  destruct (styled_title_block _ _ _ _ sample_report_Ok)
    as (_ & _ & _ & _ & (_ & _ & _ & H3) & _ & Hnone).
  split; [exact H3|]. apply Hnone; lia.
Defined.






Lemma field_value_not_None (result : Record) (row_key : string) :
  field_value result row_key <> VNone.
Proof. unfold field_value. by destruct (dict_get result row_key (VStr "-")). Qed.

Lemma format_data_cell_hyperlink row_key value cell :
  format_data_cell row_key value empty_cell = Ok cell ->
  value <> VNone ->
  if String.eqb row_key "URL" && negb (PyVal_eqb value (VStr "-"))
  then hyperlink cell = Some value /\ font cell = link_font /\ fill cell = None
  else hyperlink cell = None.
Proof.
  intros H Hnone. apply format_data_cell_Ok in H. destruct H as (_ & _ & H). simpl in H.
  destruct (String.eqb_spec row_key "URL") as [->|Hne]; simpl in *.
  - destruct (negb (PyVal_eqb value (VStr "-"))) eqn:Hdash; [|by subst cell].
    destruct H as (link & Hlink & ->).
    pose proof (set_hyperlink_fields _ _ _ Hlink) as (_ & _ & Hf & _ & _ & Hh).
    simpl. rewrite Hf, Hh. split; [|by split].
    destruct value as [|b|z|u]; try discriminate Hlink; [congruence|reflexivity].
  - destruct (contains "Score" row_key && negb (PyVal_eqb value (VStr "-"))
              && isdigit (text value)).
    + by destruct H as (score & _ & ->).
    + by subst cell.
Qed.

(** X4. In a produced report a data cell is a hyperlink exactly when its
    row's key is "URL" and the record has a value for it other than
    [None] and "-": the target is then that value and the cell has the
    link font (blue 0000FF, single underline) and no fill.  Cells of any
    other row, score rows included, never carry a hyperlink. *)
Theorem styled_url_cells_are_links
    (results : list Record) (now : string) (table_rows : list (string * string))
    (w : Worksheet) (j i : nat) (row_key row_display : string) (result : Record) :
  create_excel_report results now table_rows = Ok w ->
  table_rows !! j = Some (row_key, row_display) ->
  results !! i = Some result ->
  exists cell,
    cells w !! (6 + j, 2 + i) = Some cell /\
    let value := field_value result row_key in
    (row_key = "URL" -> value <> VStr "-" ->
       hyperlink cell = Some value /\ font cell = link_font /\ fill cell = None) /\
    (row_key <> "URL" \/ value = VStr "-" -> hyperlink cell = None).
Proof.
  intros H Hj Hi.
  apply create_excel_report_Ok in H; [|intros ->; discriminate].
  destruct H as (_ & _ & _ & _ & Hrows & _).
  destruct (Hrows j _ _ Hj) as (_ & Hcells).
  destruct (Hcells i result Hi) as (cell & Hcell & Hl).
  exists cell. split; [exact Hl|]. simpl.
  apply format_data_cell_hyperlink in Hcell; [|apply field_value_not_None].
  assert (Hdash : forall v, PyVal_eqb v (VStr "-") = true <-> v = VStr "-").
  { intros [|[]|z|s]; simpl; split; try discriminate.
    - intros Hs. apply String.eqb_eq in Hs. by subst.
    - intros [= ->]. reflexivity. }
  split.
  - intros -> Hv. rewrite String.eqb_refl in Hcell.
    destruct (PyVal_eqb (field_value result "URL") (VStr "-")) eqn:He; [|exact Hcell].
    apply Hdash in He. congruence.
  - intros [Hk|Hv].
    + destruct (String.eqb_spec row_key "URL"); [congruence|exact Hcell].
    + rewrite (proj2 (Hdash _) Hv), andb_false_r in Hcell. exact Hcell.
Qed.

Lemma styled_url_cells_are_links_witness :
  exists cell,
    cells sample_report !! (6, 2) = Some cell /\
    hyperlink cell = Some (VStr "https://a.com").
Proof.
  destruct (styled_url_cells_are_links sample_results sample_now sample_rows
              sample_report 0 0 "URL" "URL"
              [("URL", VStr "https://a.com"); ("Overall Score", VStr "85")]
              sample_report_Ok eq_refl eq_refl)
    as (cell & Hcell & Hlink & _).
  exists cell. split; [exact Hcell|]. apply Hlink; [reflexivity|discriminate].
Defined.

End StyledExtras.

(** ** The styled report: extent, widths and numbers *)

Section StyledExtras2.
Import Py Sheet Styled.

Lemma max_list_eq (l : list nat) (m : nat) :
  m ∈ l -> (forall x, x ∈ l -> x <= m) -> max_list l = m.
Proof.
  intros Hin Hle. apply Nat.le_antisymm.
  - apply (max_list_with_le id). exact Hle.
  - by apply max_list_elem_of_le.
Qed.

Lemma max_row_eq (ws : Cells) (m : nat) :
  (exists c cell, ws !! (m, c) = Some cell) ->
  (forall r c : nat, m < r -> ws !! (r, c) = None) ->
  max_row ws = m.
Proof.
  intros (c & cell & Hc) Hnone. unfold max_row. apply max_list_eq.
  - apply elem_of_map_to_list in Hc.
    apply (list_elem_of_fmap_2 fst) in Hc. apply (list_elem_of_fmap_2 fst) in Hc. exact Hc.
  - intros r Hr. apply list_elem_of_fmap in Hr. destruct Hr as ([r' c'] & -> & Hr).
    apply list_elem_of_fmap in Hr. destruct Hr as ([[r'' c''] cell'] & [= -> ->] & Hr).
    apply elem_of_map_to_list in Hr. simpl.
    destruct (Nat.le_gt_cases r'' m) as [|Hgt]; [auto|].
    rewrite Hnone in Hr by lia. discriminate.
Qed.

Lemma max_column_eq (ws : Cells) (m : nat) :
  (exists r cell, ws !! (r, m) = Some cell) ->
  (forall r c : nat, m < c -> ws !! (r, c) = None) ->
  max_column ws = m.
Proof.
  intros (r & cell & Hc) Hnone. unfold max_column. apply max_list_eq.
  - apply elem_of_map_to_list in Hc.
    apply (list_elem_of_fmap_2 fst) in Hc. apply (list_elem_of_fmap_2 snd) in Hc. exact Hc.
  - intros c Hr. apply list_elem_of_fmap in Hr. destruct Hr as ([r' c'] & -> & Hr).
    apply list_elem_of_fmap in Hr. destruct Hr as ([[r'' c''] cell'] & [= -> ->] & Hr).
    apply elem_of_map_to_list in Hr. simpl.
    destruct (Nat.le_gt_cases c'' m) as [|Hgt]; [auto|].
    rewrite Hnone in Hr by lia. discriminate.
Qed.

(** X5. In a report with records over [n] descriptors, the two rows after
    the table (rows [n + 6] and [n + 7]) are empty and row [n + 8] holds
    only the bold 14-point "Summary Statistics" in column A. *)
Theorem styled_summary_title_position
    (results : list Record) (now : string) (table_rows : list (string * string))
    (w : Worksheet) :
  results <> [] ->
  create_excel_report results now table_rows = Ok w ->
  let n := List.length table_rows in
  (forall c : nat, cells w !! (n + 6, c) = None /\ cells w !! (n + 7, c) = None) /\
  cells w !! (n + 8, 1) = Some summary_title_cell /\
  (forall c : nat, c <> 1 -> cells w !! (n + 8, c) = None) /\
  value summary_title_cell = VStr "Summary Statistics" /\
  font summary_title_cell = summary_font.
Proof.
  intros Hne H.
  pose proof (create_excel_report_layout _ _ _ _ Hne H) as (_ & _ & Hgap & Halone & _).
  apply create_excel_report_Ok in H; [|exact Hne].
  destruct H as (_ & _ & _ & _ & _ & Hsum & _).
  simpl. auto.
Qed.

Lemma styled_summary_title_position_witness :
  cells sample_report !! (8, 1) = None /\
  cells sample_report !! (9, 1) = None /\
  cells sample_report !! (10, 1) = Some summary_title_cell.
Proof.
  destruct (styled_summary_title_position sample_results sample_now sample_rows
              sample_report) as (Hgap & Hsum & _);
    [discriminate|exact sample_report_Ok|].
  split; [apply (Hgap 1)|]. split; [apply (Hgap 1)|exact Hsum].
Defined.

(** X6. The used range of a report with [m >= 1] records over [n]
    descriptors with [a] average lines is rows 1 to [n + 8 + a] and
    columns 1 to [m + 1], and the sizing loop gives a width to exactly
    these columns. *)
Theorem styled_used_range
    (results : list Record) (now : string) (table_rows : list (string * string))
    (w : Worksheet) :
  results <> [] ->
  create_excel_report results now table_rows = Ok w ->
  max_row (cells w)
  = List.length table_rows + 8
    + List.length (average_lines results (score_fields table_rows)) /\
  max_column (cells w) = 1 + List.length results /\
  (forall c : nat, is_Some (column_dimensions w !! c) <-> 1 <= c <= 1 + List.length results).
Proof.
  intros Hne H.
  pose proof (create_excel_report_layout _ _ _ _ Hne H) as (_ & _ & _ & _ & Hright & _).
  apply create_excel_report_Ok in H; [|exact Hne].
  destruct H as (_ & _ & _ & Hheader & _ & Hsum & Hlines & Hbelow & _ & Hdims).
  simpl in *.
  set (lines := average_lines results (score_fields table_rows)) in *.
  assert (Hrow : max_row (cells w) = List.length table_rows + 8 + List.length lines).
  { apply max_row_eq.
    - destruct (decide (List.length lines = 0)) as [Hz|Hnz].
      + rewrite Hz. replace (List.length table_rows + 8 + 0)
          with (List.length table_rows + 8) by lia. eauto.
      + destruct (lookup_lt_is_Some_2 lines (List.length lines - 1) ltac:(lia))
          as ([field scores] & Hk).
        destruct (Hlines _ _ _ Hk) as (avg & _ & HA & _).
        exists 1. eexists.
        replace (List.length table_rows + 8 + List.length lines)
          with (List.length table_rows + 9 + (List.length lines - 1)) by lia.
        exact HA.
    - intros r c Hr. apply Hbelow. lia. }
  assert (Hcol : max_column (cells w) = 1 + List.length results).
  { apply max_column_eq.
    - destruct results as [|r0 rs] eqn:Hres; [congruence|]. rewrite <- Hres in *.
      destruct (lookup_lt_is_Some_2 results (List.length results - 1))
        as (result & Hr); [rewrite Hres; simpl; lia|].
      exists 5. eexists.
      replace (1 + List.length results) with (2 + (List.length results - 1))
        by (rewrite Hres; simpl; lia).
      apply (Hheader _ _ Hr).
    - intros r c Hc. apply Hright. lia. }
  split; [exact Hrow|]. split; [exact Hcol|].
  intros c. rewrite Hdims, auto_adjust_lookup, Hcol.
  destruct (decide (1 <= c < 1 + (1 + List.length results))); split; intros Hc;
    try lia; [eauto | by destruct Hc].
Qed.

Lemma styled_used_range_witness :
  max_row (cells sample_report) = 11 /\ max_column (cells sample_report) = 3.
Proof.
  destruct (styled_used_range sample_results sample_now sample_rows sample_report)
    as (Hrow & Hcol & _); [discriminate|exact sample_report_Ok|].
  split; [exact Hrow|exact Hcol].
Defined.

(** X7. No text of a produced report with records is wider than its
    column allows below the cap: the column of a cell whose value [str]
    turns into [n] characters, a text of [n] characters in particular,
    is at least [min(n + 2, 50)] wide. *)
Theorem styled_width_fits_text
    (results : list Record) (now : string) (table_rows : list (string * string))
    (w : Worksheet) (r c : nat) (cell : Cell) :
  results <> [] ->
  create_excel_report results now table_rows = Ok w ->
  cells w !! (r, c) = Some cell ->
  value cell <> VNone ->
  exists width,
    column_dimensions w !! c = Some width /\
    (forall s, str (value cell) = Ok s -> Nat.min (String.length s + 2) 50 <= width) /\
    (forall s, value cell = VStr s -> Nat.min (String.length s + 2) 50 <= width).
Proof.
  intros Hne H Hcell Hv.
  pose proof (create_excel_report_layout _ _ _ _ Hne H) as (_ & _ & _ & _ & Hright & _).
  apply create_excel_report_Ok in H; [|exact Hne].
  destruct H as (_ & _ & _ & _ & _ & _ & _ & _ & Hrow0 & Hdims).
  assert (Hc : 1 <= c <= max_column (cells w)).
  { split; [|by eapply max_column_ge].
    destruct c; [|lia]. rewrite Hright in Hcell by auto. discriminate. }
  rewrite Hdims, auto_adjust_lookup.
  destruct (decide (1 <= c < 1 + max_column (cells w))); [|lia].
  eexists. split; [reflexivity|]. rewrite adjusted_width_column by exact Hrow0.
  assert (Hlen : text_length cell <= max_text_length (cells w) c).
  { unfold max_text_length.
    etransitivity; [|apply (max_list_with_ge _ (map_to_list (cells w)) (r, c, cell));
                      by apply elem_of_map_to_list].
    simpl. rewrite Nat.eqb_refl. by destruct (value cell). }
  assert (Hs : forall s, str (value cell) = Ok s ->
                 Nat.min (String.length s + 2) 50
                 <= Nat.min (Nat.max (max_text_length (cells w) c + 2) 10) 50).
  { intros s Hs. unfold text_length in Hlen. rewrite Hs in Hlen. lia. }
  split; [exact Hs|]. intros s Hval. apply Hs. by rewrite Hval.
Qed.

Lemma styled_width_fits_text_witness :
  exists width,
    column_dimensions sample_report !! 2 = Some width /\ 15 <= width.
Proof.
  assert (Hcell : cells sample_report !! (6, 2)
                  = Some {| value := VStr "https://a.com"; font := link_font;
                            fill := None; alignment := Some HCenter; border := true;
                            hyperlink := Some (VStr "https://a.com") |})
    by (vm_compute; reflexivity).
  destruct (styled_width_fits_text sample_results sample_now sample_rows sample_report
              6 2 _ ltac:(discriminate) sample_report_Ok Hcell ltac:(discriminate))
    as (width & Hw & _ & Hle).
  exists width. split; [exact Hw|]. exact (Hle "https://a.com" eq_refl).
Defined.

Lemma string_of_uint_nonempty d :
  d <> Decimal.Nil -> NilEmpty.string_of_uint d <> "".
Proof. destruct d; simpl; congruence. Qed.

(** The text of an integer is decimal exactly when the integer is not
    negative. *)
Lemma decimal_text_str_of_Z_nonneg z :
  (0 <= z)%Z -> decimal_text (str_of_Z z) = true.
Proof.
  intros Hz. destruct z as [|p|p]; [reflexivity| |lia].
  unfold decimal_text, str_of_Z. simpl.
  rewrite string_of_uint_chars, andb_true_r.
  destruct (String.eqb_spec (NilEmpty.string_of_uint (Pos.to_uint p)) ""); [|reflexivity].
  exfalso. eapply string_of_uint_nonempty; [apply Unsigned.to_uint_nonnil|eauto].
Qed.

(** X8. An integer object in a score row of a produced report is shown
    as its decimal text; when it is not negative it is bold and filled by
    its own tier (80 and more green, 60 to 79 yellow, 0 to 59 red); a
    negative integer is left without fill and bold. *)
Theorem styled_integer_scores
    (results : list Record) (now : string) (table_rows : list (string * string))
    (w : Worksheet) (j i : nat) (row_key row_display : string) (result : Record)
    (z : Z) :
  create_excel_report results now table_rows = Ok w ->
  table_rows !! j = Some (row_key, row_display) ->
  contains "Score" row_key = true ->
  results !! i = Some result ->
  dict_lookup result row_key = Some (VInt z) ->
  exists cell,
    cells w !! (6 + j, 2 + i) = Some cell /\
    value cell = VStr (str_of_Z z) /\
    ((0 <= z)%Z -> bold (font cell) = true) /\
    ((80 <= z)%Z -> fill cell = Some light_green) /\
    ((60 <= z < 80)%Z -> fill cell = Some light_yellow) /\
    ((0 <= z < 60)%Z -> fill cell = Some light_red) /\
    ((z < 0)%Z -> fill cell = None /\ bold (font cell) = false).
Proof.
  intros H Hj Hkey Hi Hz.
  apply create_excel_report_Ok in H; [|intros ->; discriminate].
  destruct H as (_ & _ & _ & _ & Hrows & _).
  destruct (Hrows j _ _ Hj) as (_ & Hcells).
  destruct (Hcells i result Hi) as (cell & Hcell & Hl).
  assert (Hv : field_value result row_key = VInt z).
  { unfold field_value. rewrite dict_get_lookup, Hz. reflexivity. }
  rewrite Hv in Hcell.
  exists cell. split; [exact Hl|].
  split; [by rewrite (format_data_cell_value _ _ _ _ Hcell)|].
  assert (Hpos : (0 <= z)%Z ->
                 font cell = score_font /\ fill cell = Some (tier z)).
  { intros H0. pose proof (decimal_text_str_of_Z_nonneg z H0) as Hdec.
    destruct (format_data_cell_score _ _ _ Hcell Hkey Hdec) as (Hf & Hfill).
    simpl in Hfill. rewrite digits_value_str_of_Z in Hfill by exact H0. auto. }
  unfold tier in Hpos.
  split; [intros H0; destruct (Hpos H0) as (-> & _); reflexivity|].
  split.
  { intros H0. destruct (Hpos ltac:(lia)) as (_ & ->).
    destruct (Z.leb_spec 80 z); [reflexivity|lia]. }
  split.
  { intros H0. destruct (Hpos ltac:(lia)) as (_ & ->).
    destruct (Z.leb_spec 80 z); [lia|]. destruct (Z.leb_spec 60 z); [reflexivity|lia]. }
  split.
  { intros H0. destruct (Hpos ltac:(lia)) as (_ & ->).
    destruct (Z.leb_spec 80 z); [lia|]. destruct (Z.leb_spec 60 z); [lia|reflexivity]. }
  intros Hneg. apply (format_data_cell_plain _ _ _ Hcell). right.
  destruct (decimal_text (text (VInt z))) eqn:Hd; [|reflexivity].
  apply decimal_text_str_of_Z in Hd. lia.
Qed.

Lemma integer_report_Ok :
  create_excel_report integer_results sample_now sample_rows = Ok integer_report.
Proof. vm_compute. reflexivity. Qed.

(** 85 is green, -5 is left plain, 0 is red. *)
Lemma styled_integer_scores_witness :
  (exists cell, cells integer_report !! (7, 2) = Some cell /\
                fill cell = Some light_green) /\
  (exists cell, cells integer_report !! (7, 3) = Some cell /\ fill cell = None) /\
  (exists cell, cells integer_report !! (7, 4) = Some cell /\
                fill cell = Some light_red).
Proof.
  split; [|split].
  - destruct (styled_integer_scores integer_results sample_now sample_rows
                integer_report 1 0 "Overall Score" "Overall Score" _ 85%Z
                integer_report_Ok eq_refl eq_refl eq_refl eq_refl)
      as (cell & Hcell & _ & _ & Hg & _).
    exists cell. split; [exact Hcell|]. apply Hg. lia.
  - destruct (styled_integer_scores integer_results sample_now sample_rows
                integer_report 1 1 "Overall Score" "Overall Score" _ (-5)%Z
                integer_report_Ok eq_refl eq_refl eq_refl eq_refl)
      as (cell & Hcell & _ & _ & _ & _ & _ & Hn).
    exists cell. split; [exact Hcell|]. apply Hn. lia.
  - destruct (styled_integer_scores integer_results sample_now sample_rows
                integer_report 1 2 "Overall Score" "Overall Score" _ 0%Z
                integer_report_Ok eq_refl eq_refl eq_refl eq_refl)
      as (cell & Hcell & _ & _ & _ & _ & Hr & _).
    exists cell. split; [exact Hcell|]. apply Hr. lia.
Defined.

End StyledExtras2.

(** ** The styled report: averages, success and failure *)

Section StyledExtras3.
Import Py Sheet Styled.

Lemma length_valid_scores (results : list Record) (field : string) :
  List.length (valid_scores results field) <= List.length results.
Proof.
  unfold valid_scores. induction results as [|r results IH]; simpl; [lia|].
  destruct (decimal_text _); simpl;
    [apply le_n_S | apply Nat.le_le_succ_r]; exact IH.
Qed.

Lemma sum_between (scores : list Z) (lo hi : Z) :
  (forall s, In s scores -> lo <= s <= hi)%Z ->
  (lo * Z.of_nat (List.length scores) <= sum scores
   <= hi * Z.of_nat (List.length scores))%Z.
Proof.
  unfold sum. induction scores as [|s scores IH]; intros H; [simpl; lia|].
  specialize (IH ltac:(intros; apply H; by right)).
  pose proof (H s ltac:(by left)).
  change (fold_right Z.add 0%Z (s :: scores)) with (s + fold_right Z.add 0%Z scores)%Z.
  rewrite length_cons, Nat2Z.inj_succ. lia.
Qed.

(** X9. The average shown for a field lies within its valid scores: when
    they are all between [lo] and [hi] (with [hi] below [2^44]), the
    number of tenths printed is between [10 * lo] and [10 * hi]; when
    they are all equal to one number, the line shows that number followed
    by ".0". *)
Theorem styled_average_within_scores
    (results : list Record) (now : string) (table_rows : list (string * string))
    (w : Worksheet) (k : nat) (field : string) (scores : list Z) (lo hi : Z) :
  results <> [] ->
  create_excel_report results now table_rows = Ok w ->
  average_lines results (score_fields table_rows) !! k = Some (field, scores) ->
  (forall s, In s scores -> lo <= s <= hi)%Z ->
  (hi < 2 ^ 44)%Z ->
  exists avg_score,
    truediv (sum scores) (Z.of_nat (List.length scores)) = Ok avg_score /\
    value <$> cells w !! (List.length table_rows + 9 + k, 2)
      = Some (VStr (format_1f avg_score)) /\
    format_1f avg_score
      = str_of_Z (tenths avg_score / 10) +:+ "." +:+ str_of_Z (tenths avg_score mod 10) /\
    (10 * lo <= tenths avg_score <= 10 * hi)%Z /\
    (lo = hi -> format_1f avg_score = str_of_Z lo +:+ ".0").
Proof.
  intros Hne H Hk Hrange Hhi.
  assert (Hin : (field, scores) ∈ average_lines results (score_fields table_rows))
    by (eapply list_elem_of_lookup_2; exact Hk).
  apply elem_of_average_lines in Hin. destruct Hin as (_ & Hs & Hnil).
  apply create_excel_report_Ok in H; [|exact Hne].
  destruct H as (Hlen & _ & _ & _ & _ & _ & Hlines & _).
  destruct (Hlines k _ _ Hk) as (avg & Havg & _ & HB & _).
  pose proof (sum_between scores lo hi Hrange) as Hsum.
  pose proof (length_valid_scores results field) as Hl. rewrite <- Hs in Hl.
  pose proof (sum_valid_scores_nonneg results field) as H0. rewrite <- Hs in H0.
  assert (Hb : (0 < Z.of_nat (List.length scores))%Z)
    by (destruct scores; [congruence|simpl; lia]).
  set (b := Z.of_nat (List.length scores)) in *.
  assert (Hb25 : (b <= 25)%Z) by (unfold b; lia).
  assert (Hsmall : (sum scores < 2 ^ 49)%Z).
  { change (2 ^ 49)%Z with (32 * 2 ^ 44)%Z. nia. }
  destruct (mean_text (sum scores) b ltac:(lia) Hb) as (x & Hx & Hfmt & Hnear & Hexact).
  rewrite Hx in Havg. injection Havg as <-.
  exists x. split; [exact Hx|]. split; [by rewrite HB|]. split; [exact Hfmt|].
  split; [nia|].
  intros <-. rewrite Hfmt, (Hexact (10 * lo)%Z) by nia.
  rewrite (Z.mul_comm 10 lo), Z.div_mul, Z.mod_mul by lia. reflexivity.
Qed.

Lemma average_report_Ok :
  create_excel_report average_results sample_now average_rows = Ok average_report.
Proof. vm_compute. reflexivity. Qed.

(** The valid scores 80 and 60 give an average between 60.0 and 80.0. *)
Lemma styled_average_within_scores_witness :
  exists avg_score,
    value <$> cells average_report !! (10, 2) = Some (VStr (format_1f avg_score)) /\
    (600 <= tenths avg_score <= 800)%Z.
Proof.
  destruct (styled_average_within_scores average_results sample_now average_rows
              average_report 0 "Overall Score" [80; 60]%Z 60%Z 80%Z)
    as (avg & _ & Hcell & _ & Hrange & _).
  - discriminate.
  - exact average_report_Ok.
  - reflexivity.
  - simpl. intros s [<-|[<-|[]]]; lia.
  - reflexivity.
  - exists avg. split; [exact Hcell|exact Hrange].
Defined.

Lemma header_body_storable (result : Record) (c cell : Cell) :
  header_body result c = Ok cell ->
  storable (header_label (dict_get result "URL" (VStr "Unknown"))) = true.
Proof.
  unfold header_body. intros H. apply bind_Ok in H. destruct H as (x & Hx & _).
  apply set_value_Ok in Hx. tauto.
Qed.

Lemma header_loop_storable (results : list Record) (row : nat) (ws ws' : Cells) :
  for_each (write_header_cell row) (enumerate 2 results) ws = Ok ws' ->
  forall result, In result results ->
    storable (header_label (dict_get result "URL" (VStr "Unknown"))) = true.
Proof.
  intros H result Hin.
  rewrite (for_each_ext _
    (fun (entry : nat * Record) ws =>
       with_cell (col_letter entry.1) row (header_body entry.2) ws))
    in H by (intros [] ?; reflexivity).
  apply (row_loop_Ok header_body) in H; [|lia].
  destruct H as (_ & _ & Hcells).
  apply list_elem_of_In, list_elem_of_lookup_1 in Hin. destruct Hin as (i & Hi).
  destruct (Hcells i result Hi) as (cell & Hcell & _).
  by eapply header_body_storable.
Qed.

Lemma data_rows_storable (results : list Record) (table_rows : list (string * string)) :
  forall (st st' : Cells * nat),
    for_each (write_data_row results) table_rows st = Ok st' ->
    forall row_key row_display, In (row_key, row_display) table_rows ->
      storable (VStr row_display) = true.
Proof.
  induction table_rows as [|[key label] table_rows IH];
    intros [ws row] st' H row_key row_display Hin; simpl in H; [destruct Hin|].
  apply bind_Ok in H. destruct H as (st1 & H1 & H).
  destruct Hin as [[= <- <-]|Hin]; [|eapply IH; eauto].
  unfold write_data_row in H1. apply bind_Ok in H1. destruct H1 as (ws1 & H1 & _).
  apply with_cell_Ok in H1. destruct H1 as (c & cell & _ & _ & _ & Hcell & _).
  apply bind_Ok in Hcell. destruct Hcell as (x & Hx & _).
  apply set_value_Ok in Hx. tauto.
Qed.

Lemma averages_storable (results : list Record) (fields : list string) :
  forall (st st' : Cells * nat),
    for_each (write_average results) fields st = Ok st' ->
    forall field scores, (field, scores) ∈ average_lines results fields ->
      storable (VStr ("Average " +:+ field +:+ ":")) = true.
Proof.
  induction fields as [|f fields IH]; intros [ws row] st' H field scores Hin; simpl in H.
  - inversion Hin.
  - apply bind_Ok in H. destruct H as (st1 & H1 & H).
    apply elem_of_average_lines in Hin. destruct Hin as (Hf & Hs & Hne).
    apply elem_of_cons in Hf. destruct Hf as [->|Hf].
    2:{ eapply IH; [exact H|]. apply elem_of_average_lines. eauto. }
    unfold write_average in H1. apply bind_Ok in H1. destruct H1 as (scores' & Hc & H1).
    apply collect_scores_Ok in Hc. rewrite <- Hs in Hc. subst scores'.
    destruct scores as [|n ns]; [congruence|].
    apply bind_Ok in H1. destruct H1 as (avg & _ & H1).
    apply bind_Ok in H1. destruct H1 as (wsA & HA & _).
    apply with_cell_Ok in HA. destruct HA as (c & cell & _ & _ & _ & Hcell & _).
    apply set_value_Ok in Hcell. tauto.
Qed.

Lemma isdigit_not_dash (v : PyVal) :
  isdigit (text v) = true -> PyVal_eqb v (VStr "-") = false.
Proof.
  destruct v as [|[]|z|s]; simpl; auto.
  destruct (String.eqb_spec s "-") as [->|]; [discriminate|auto].
Qed.

Lemma PyVal_eqb_dash (v : PyVal) : PyVal_eqb v (VStr "-") = true <-> v = VStr "-".
Proof.
  destruct v as [|[]|z|s]; simpl; split; try discriminate.
  - intros Hs. apply String.eqb_eq in Hs. by subst.
  - intros [= ->]. reflexivity.
Qed.

(** What one data cell asks of its value. *)
Lemma format_data_cell_requirements row_key value cell0 cell :
  format_data_cell row_key value cell0 = Ok cell ->
  value <> VNone ->
  str value = Ok (text value) /\
  storable (VStr (text value)) = true /\
  (contains "Score" row_key = true -> isdigit (text value) = true ->
     decimal_text (text value) = true /\
     String.length (text value) <= int_max_str_digits) /\
  (row_key = "URL" -> value <> VStr "-" -> exists u, value = VStr u).
Proof.
  intros H Hnone. apply format_data_cell_Ok in H. destruct H as (Hs & Hst & H).
  simpl in H. split; [exact Hs|]. split; [exact Hst|]. split.
  - intros Hkey Hd. rewrite Hkey, (isdigit_not_dash _ Hd), Hd in H. simpl in H.
    destruct H as (score & Hscore & _).
    pose proof (isdigit_int_decimal _ _ Hd Hscore) as Hdec.
    split; [exact Hdec|]. by eapply decimal_text_short.
  - intros -> Hdash. simpl in H.
    destruct (PyVal_eqb value (VStr "-")) eqn:He; [by apply PyVal_eqb_dash in He|].
    simpl in H. destruct H as (link & Hlink & _).
    apply set_hyperlink_Ok in Hlink; [|exact Hdash].
    destruct Hlink as [Hu| ->]; [exact Hu|congruence].
Qed.

(** X10. What a produced styled report required of its input: at most 25
    records; a timestamp, header labels, category labels, cell texts and
    average labels without a character the worksheet refuses; in every
    data cell a value that [str] accepts (no integer beyond 4300
    digits); in a score row, for every value that passes [isdigit],
    decimal digits, at most 4300 of them; in a "URL" row, a string
    wherever there is a value; and averages that fit a float. *)
Theorem styled_report_requirements
    (results : list Record) (now : string) (table_rows : list (string * string))
    (w : Worksheet) :
  create_excel_report results now table_rows = Ok w ->
  List.length results <= 25 /\
  storable (VStr ("Generated on: " +:+ now)) = true /\
  (forall result, In result results ->
     storable (header_label (dict_get result "URL" (VStr "Unknown"))) = true) /\
  (forall row_key row_display result,
     In (row_key, row_display) table_rows -> In result results ->
     let value := field_value result row_key in
     storable (VStr row_display) = true /\
     str value = Ok (text value) /\
     storable (VStr (text value)) = true /\
     (contains "Score" row_key = true -> isdigit (text value) = true ->
        decimal_text (text value) = true /\
        String.length (text value) <= int_max_str_digits) /\
     (row_key = "URL" -> value <> VStr "-" -> exists u, value = VStr u)) /\
  (forall field scores,
     results <> [] ->
     (field, scores) ∈ average_lines results (score_fields table_rows) ->
     storable (VStr ("Average " +:+ field +:+ ":")) = true /\
     exists avg_score,
       truediv (sum scores) (Z.of_nat (List.length scores)) = Ok avg_score).
Proof.
  intros H.
  assert (Hnow : storable (VStr ("Generated on: " +:+ now)) = true).
  { destruct (storable (VStr ("Generated on: " +:+ now))) eqn:Hnow; [reflexivity|].
    rewrite create_excel_report_timestamp in H by exact Hnow. discriminate H. }
  destruct results as [|r0 rs] eqn:Hres.
  { split; [simpl; lia|]. split; [exact Hnow|]. split; [intros ? []|].
    split; [intros ? ? ? _ []|]. intros ? ? Hne. congruence. }
  rewrite <- Hres in *.
  assert (Hne : results <> []) by (rewrite Hres; discriminate).
  pose proof (create_excel_report_Ok _ _ _ _ Hne H)
    as (Hlen & _ & _ & _ & Hrows & _ & Hlines & _).
  simpl in Hlines.
  unfold create_excel_report in H. rewrite Hres in H. rewrite <- Hres in H.
  apply bind_Ok in H. destruct H as (ws1 & _ & H).
  apply bind_Ok in H. destruct H as (ws2 & _ & H).
  apply bind_Ok in H. destruct H as (ws3 & _ & H).
  apply bind_Ok in H. destruct H as (ws4 & _ & H).
  apply bind_Ok in H. destruct H as (ws5 & H5 & H).
  apply bind_Ok in H. destruct H as ([ws6 row6] & H6 & H).
  apply bind_Ok in H. destruct H as (ws7 & _ & H).
  apply bind_Ok in H. destruct H as ([ws8 row8] & H8 & _).
  split; [exact Hlen|]. split; [exact Hnow|].
  split; [by eapply header_loop_storable|].
  split.
  - intros row_key row_display result Hrow Hin.
    split; [by eapply data_rows_storable|].
    apply list_elem_of_In, list_elem_of_lookup_1 in Hrow. destruct Hrow as (j & Hj).
    apply list_elem_of_In, list_elem_of_lookup_1 in Hin. destruct Hin as (i & Hi).
    destruct (Hrows j _ _ Hj) as (_ & Hcells).
    destruct (Hcells i result Hi) as (cell & Hcell & _).
    apply format_data_cell_requirements in Hcell; [exact Hcell|].
    apply field_value_not_None.
  - intros field scores _ Hin.
    split; [by eapply averages_storable|].
    apply list_elem_of_lookup_1 in Hin. destruct Hin as (k & Hk).
    destruct (Hlines k _ _ Hk) as (avg & Havg & _). eauto.
Qed.

(** The scenario has two records and a timestamp the sheet accepts. *)
Lemma styled_report_requirements_witness :
  List.length sample_results <= 25 /\
  storable (VStr ("Generated on: " +:+ sample_now)) = true.
Proof.
  destruct (styled_report_requirements sample_results sample_now sample_rows
              sample_report sample_report_Ok) as (Hlen & Hnow & _).
  split; [exact Hlen|exact Hnow].
Defined.

End StyledExtras3.

(** ** The styled report: the exceptions it can raise *)

Section StyledExceptions.
Import Py Sheet Styled.

Lemma bind_Raise {A B} (m : res A) (k : A -> res B) (e : exn) :
  m ≫= k = Raise e <-> m = Raise e \/ exists a, m = Ok a /\ k a = Raise e.
Proof.
  destruct m as [a|e']; simpl.
  - split; [intros H; right; exists a; auto|].
    intros [H|H]; [discriminate|]. destruct H as (a' & Ha & H).
    injection Ha as <-. exact H.
  - split; [intros H; injection H as <-; left; reflexivity|].
    intros [H|H]; [by injection H as <-|]. destruct H as (a' & H & _). discriminate.
Qed.

(** A loop along a row stops at a cell that raises, or at the column
    after Z. *)
Lemma row_loop_Raise {A} (g : A -> Cell -> res Cell) (row : nat) (xs : list A) (e : exn) :
  1 <= row ->
  forall (start : nat) (ws : Cells),
    1 <= start <= 27 ->
    for_each (fun (entry : nat * A) ws =>
                with_cell (col_letter entry.1) row (g entry.2) ws)
             (enumerate start xs) ws = Raise e ->
    (exists x cell, In x xs /\ g x cell = Raise e) \/
    (e = ValueError_coordinate 91 row /\ 27 < start + List.length xs).
Proof.
  intros Hrow. induction xs as [|x xs IH]; intros start ws Hs H; simpl in *.
  - discriminate.
  - destruct (decide (start = 27)) as [->|Hne].
    + right. unfold with_cell, coordinate in H. simpl in H.
      destruct (row =? 0); injection H as <-; split; (reflexivity || lia).
    + rewrite (with_cell_eq _ _ start) in H by (try apply column_index_col_letter; lia).
      simpl in H. apply bind_Raise in H. destruct H as [H|(ws1 & _ & H)].
      * apply bind_Raise in H. destruct H as [H|(c & _ & H)]; [eauto 10|discriminate].
      * apply IH in H; [|lia].
        destruct H as [(y & cell & Hy & Hg)|(-> & Hlen)]; [eauto 10|].
        right. split; [reflexivity|lia].
Qed.

(** [int] on a text that passed [isdigit] fails on the limit or on a
    digit that is not decimal. *)
Lemma int_Raise (v : PyVal) (e : exn) :
  int v = Raise e -> isdigit (text v) = true ->
  e = ValueError_digits \/
  exists s, e = ValueError_int s /\ isdigit s = true /\ decimal_text s = false.
Proof.
  destruct v as [|[]|z|s]; simpl; try discriminate.
  destruct (int_max_str_digits <? leading_decimals s); [intros [= <-]; by left|].
  destruct (decimal_text s) eqn:Hd; [discriminate|].
  intros [= <-] Hi. right. eauto.
Qed.

Lemma set_hyperlink_Raise (target : PyVal) (c : Cell) (e : exn) :
  set_hyperlink target c = Raise e -> e = TypeError_hyperlink.
Proof. destruct target; simpl; try discriminate; by intros [= <-]. Qed.

Lemma format_data_cell_Raise (results : list Record) row_key value cell (e : exn) :
  format_data_cell row_key value cell = Raise e -> raise_cause results e.
Proof.
  unfold format_data_cell. intros H.
  apply bind_Raise in H. destruct H as [H|(s & Hs & H)].
  { apply str_Raise in H. destruct H as [-> _]. exact I. }
  pose proof (str_Ok _ _ Hs) as ->.
  apply bind_Raise in H. destruct H as [H|(c1 & _ & H)].
  { apply set_value_Raise in H. destruct H as [-> _]. exact I. }
  apply bind_Raise in H. destruct H as [H|(is_score & Hguard & H)].
  { destruct (contains "Score" row_key && negb (PyVal_eqb value (VStr "-")));
      [|discriminate].
    rewrite Hs in H. discriminate. }
  assert (is_score = true -> isdigit (text value) = true) as Hd.
  { destruct (contains "Score" row_key && negb (PyVal_eqb value (VStr "-"))).
    - rewrite Hs in Hguard. injection Hguard as <-. auto.
    - injection Hguard as <-. discriminate. }
  destruct is_score.
  - apply bind_Raise in H. destruct H as [H|(score & _ & H)].
    + apply int_Raise in H; [|auto].
      destruct H as [->|(s & -> & Hi & Hdec)]; simpl; auto.
    + repeat match type of H with
             | (if ?b then _ else _) = _ => destruct b
             end; discriminate.
  - destruct (String.eqb row_key "URL" && negb (PyVal_eqb value (VStr "-")));
      [|discriminate].
    apply bind_Raise in H. destruct H as [H|(link & _ & H)]; [|discriminate].
    apply set_hyperlink_Raise in H. subst e. exact I.
Qed.

Lemma with_cell_value_Raise (l row c : nat) (v : PyVal) (g : Cell -> Cell)
    (ws : Cells) (e : exn) :
  column_index l = Some c -> 1 <= row ->
  with_cell l row (fun x => x ← set_value v x; Ok (g x)) ws = Raise e ->
  e = IllegalCharacterError.
Proof.
  intros Hl Hrow H. rewrite (with_cell_eq _ _ c) in H by auto.
  apply bind_Raise in H. destruct H as [H|(x & _ & H)]; [|discriminate].
  apply bind_Raise in H. destruct H as [H|(x & _ & H)]; [|discriminate].
  apply set_value_Raise in H. tauto.
Qed.

Lemma with_cell_set_Raise (l row c : nat) (v : PyVal) (ws : Cells) (e : exn) :
  column_index l = Some c -> 1 <= row ->
  with_cell l row (set_value v) ws = Raise e ->
  e = IllegalCharacterError.
Proof.
  intros Hl Hrow H. rewrite (with_cell_eq _ _ c) in H by auto.
  apply bind_Raise in H. destruct H as [H|(x & _ & H)]; [|discriminate].
  apply set_value_Raise in H. tauto.
Qed.

Lemma data_rows_Raise (results : list Record) (table_rows : list (string * string))
    (e : exn) :
  List.length results <= 25 ->
  forall (ws : Cells) (row : nat),
    1 <= row ->
    for_each (write_data_row results) table_rows (ws, row) = Raise e ->
    raise_cause results e.
Proof.
  intros Hlen. induction table_rows as [|[row_key row_display] table_rows IH];
    intros ws row Hrow H; simpl in H; [discriminate|].
  apply bind_Raise in H. destruct H as [H|([ws1 row1] & H1 & H)].
  - unfold write_data_row in H.
    apply bind_Raise in H. destruct H as [H|(wsA & _ & H)].
    { apply (with_cell_value_Raise _ _ 1) in H; [|reflexivity|lia]. subst e. exact I. }
    apply bind_Raise in H. destruct H as [H|(wsB & _ & H)]; [|discriminate].
    rewrite (for_each_ext _
      (fun (entry : nat * Record) ws =>
         with_cell (col_letter entry.1) row
           (format_data_cell row_key (field_value entry.2 row_key)) ws))
      in H by (intros [] ?; reflexivity).
    apply (row_loop_Raise (fun (result : Record) =>
             format_data_cell row_key (field_value result row_key))) in H; [|lia|lia].
    destruct H as [(x & cell & _ & Hg)|(_ & Hover)]; [|lia].
    by eapply format_data_cell_Raise.
  - unfold write_data_row in H1.
    apply bind_Ok in H1. destruct H1 as (wsA & _ & H1).
    apply bind_Ok in H1. destruct H1 as (wsB & _ & [= <- <-]).
    apply IH in H; [auto|lia].
Qed.

Lemma score_step_Raise (results : list Record) (field : string) (result : Record)
    (scores : list Z) (e : exn) :
  score_step field result scores = Raise e -> raise_cause results e.
Proof.
  unfold score_step. simpl. set (value := dict_get result field (VStr "-")).
  intros H. apply bind_Raise in H. destruct H as [H|(is_score & Hguard & H)].
  - destruct (negb (PyVal_eqb value (VStr "-"))); [|discriminate].
    apply bind_Raise in H. destruct H as [H|(s & _ & H)]; [|discriminate].
    apply str_Raise in H. destruct H as [-> _]. exact I.
  - destruct is_score; [|discriminate].
    assert (Hd : isdigit (text value) = true).
    { destruct (negb (PyVal_eqb value (VStr "-"))); [|discriminate].
      apply bind_Ok in Hguard. destruct Hguard as (s & Hs & [= Hi]).
      by rewrite (str_Ok _ _ Hs) in Hi. }
    apply bind_Raise in H. destruct H as [H|(score & _ & H)]; [|discriminate].
    apply int_Raise in H; [|exact Hd].
    destruct H as [->|(s & -> & Hi & Hdec)]; simpl; auto.
Qed.

Lemma collect_scores_Raise (results : list Record) (field : string) (e : exn) :
  collect_scores results field = Raise e -> raise_cause results e.
Proof.
  assert (forall rs acc,
            for_each (score_step field) rs acc = Raise e -> raise_cause results e)
    as Hacc.
  { induction rs as [|result rs IH]; intros acc H; simpl in H; [discriminate|].
    apply bind_Raise in H. destruct H as [H|(acc1 & _ & H)]; [|eauto].
    by eapply score_step_Raise. }
  intros H. eapply Hacc. exact H.
Qed.

(** A division by a positive count fails only by overflow. *)
Lemma truediv_Raise (a b : Z) (e : exn) :
  (0 < b)%Z -> truediv a b = Raise e -> e = OverflowError.
Proof.
  unfold truediv. intros Hb. destruct (Z.eqb_spec b 0); [lia|].
  destruct (a =? 0)%Z; [discriminate|].
  destruct (_ <=? _)%Z; [|discriminate]. by intros [= <-].
Qed.

Lemma averages_Raise (results : list Record) (fields : list string) (e : exn) :
  forall (ws : Cells) (row : nat),
    1 <= row ->
    for_each (write_average results) fields (ws, row) = Raise e ->
    raise_cause results e.
Proof.
  induction fields as [|field fields IH]; intros ws row Hrow H; simpl in H; [discriminate|].
  apply bind_Raise in H. destruct H as [H|([ws1 row1] & H1 & H)].
  - unfold write_average in H. apply bind_Raise in H.
    destruct H as [H|(scores & _ & H)]; [by eapply collect_scores_Raise|].
    destruct scores as [|n ns]; [discriminate|].
    apply bind_Raise in H. destruct H as [H|(avg & _ & H)].
    + apply truediv_Raise in H; [subst e; exact I|]. simpl. lia.
    + apply bind_Raise in H. destruct H as [H|(wsA & _ & H)].
      { apply (with_cell_set_Raise _ _ 1) in H; [|reflexivity|lia]. subst e. exact I. }
      apply bind_Raise in H. destruct H as [H|(wsB & _ & H)]; [|discriminate].
      apply (with_cell_set_Raise _ _ 2) in H; [|reflexivity|lia]. subst e. exact I.
  - unfold write_average in H1. apply bind_Ok in H1. destruct H1 as (scores & _ & H1).
    destruct scores as [|n ns].
    + injection H1 as <- <-. eapply IH; eauto.
    + apply bind_Ok in H1. destruct H1 as (avg & _ & H1).
      apply bind_Ok in H1. destruct H1 as (wsA & _ & H1).
      apply bind_Ok in H1. destruct H1 as (wsB & _ & H1). injection H1 as <- <-.
      eapply IH; [|exact H]. lia.
Qed.

Lemma create_excel_report_Raise (results : list Record) (now : string)
    (table_rows : list (string * string)) (e : exn) :
  create_excel_report results now table_rows = Raise e -> raise_cause results e.
Proof.
  unfold create_excel_report. intros H.
  apply bind_Raise in H. destruct H as [H|(ws1 & _ & H)].
  { apply (with_cell_value_Raise _ _ 1) in H; [|reflexivity|lia]. subst e. exact I. }
  apply bind_Raise in H. destruct H as [H|(ws2 & _ & H)].
  { apply (with_cell_set_Raise _ _ 1) in H; [|reflexivity|lia]. subst e. exact I. }
  apply bind_Raise in H. destruct H as [H|(ws3 & _ & H)].
  { apply (with_cell_set_Raise _ _ 1) in H; [|reflexivity|lia]. subst e. exact I. }
  destruct results as [|r0 rs] eqn:Hres.
  { apply bind_Raise in H. destruct H as [H|(ws4 & _ & H)]; [|discriminate].
    apply (with_cell_set_Raise _ _ 1) in H; [|reflexivity|lia]. subst e. exact I. }
  rewrite <- Hres in *.
  apply bind_Raise in H. destruct H as [H|(ws4 & _ & H)].
  { apply (with_cell_value_Raise _ _ 1) in H; [|reflexivity|lia]. subst e. exact I. }
  apply bind_Raise in H. destruct H as [H|(ws5 & H5 & H)].
  { rewrite (for_each_ext _
      (fun (entry : nat * Record) ws =>
         with_cell (col_letter entry.1) 5 (header_body entry.2) ws))
      in H by (intros [] ?; reflexivity).
    apply (row_loop_Raise header_body) in H; [|lia|lia].
    destruct H as [(x & cell & _ & Hg)|(-> & Hover)].
    - apply header_body_Raise in Hg. subst e. exact I.
    - simpl. split; [reflexivity|]. split; [reflexivity|lia]. }
  assert (Hlen : List.length results <= 25).
  { rewrite (for_each_ext _
      (fun (entry : nat * Record) ws =>
         with_cell (col_letter entry.1) 5 (header_body entry.2) ws))
      in H5 by (intros [] ?; reflexivity).
    apply (row_loop_Ok header_body) in H5; [|lia].
    destruct H5 as (Hlen & _).
    destruct Hlen as [Hlen _]; [rewrite Hres; discriminate|]. lia. }
  apply bind_Raise in H. destruct H as [H|([ws6 row6] & _ & H)].
  { eapply data_rows_Raise; [exact Hlen| |exact H]. lia. }
  apply bind_Raise in H. destruct H as [H|(ws7 & _ & H)].
  { apply (with_cell_value_Raise _ _ 1) in H; [|reflexivity|lia]. subst e. exact I. }
  apply bind_Raise in H. destruct H as [H|([ws8 row8] & _ & H)]; [|discriminate].
  eapply averages_Raise; [|exact H]. lia.
Qed.

(** X11. What an exception of the styled report tells.  The call never
    divides by zero and never applies [int] to [None]; a coordinate
    error is that of the 26th header cell (code point 91, row 5), with
    more than 25 records; an invalid literal for [int] is a text that
    [isdigit] accepts without its being decimal digits. *)
Theorem styled_report_exceptions
    (results : list Record) (now : string) (table_rows : list (string * string))
    (e : exn) :
  create_excel_report results now table_rows = Raise e ->
  e <> ZeroDivisionError /\ e <> TypeError_int /\
  (forall c r, e = ValueError_coordinate c r ->
     c = 91 /\ r = 5 /\ 25 < List.length results) /\
  (forall s, e = ValueError_int s -> isdigit s = true /\ decimal_text s = false).
Proof.
  intros H. apply create_excel_report_Raise in H.
  split; [intros ->; exact H|]. split; [intros ->; exact H|].
  split; [intros c r ->; exact H | intros s ->; exact H].
Qed.

(** A score written as a superscript two stops the report with the
    [ValueError] of [int]. *)
Lemma styled_report_exceptions_witness :
  create_excel_report superscript_results sample_now sample_rows
  = Raise (ValueError_int (String (ascii_of_nat 178) EmptyString)) /\
  ValueError_int (String (ascii_of_nat 178) EmptyString) <> ZeroDivisionError.
Proof.
  assert (H : create_excel_report superscript_results sample_now sample_rows
              = Raise (ValueError_int (String (ascii_of_nat 178) EmptyString)))
    by (vm_compute; reflexivity).
  split; [exact H|].
  apply (styled_report_exceptions _ _ _ _ H).
Defined.

End StyledExceptions.

(** ** The detailed report: sheets, shapes and columns *)

Section DetailedExtras.
Import Py Detailed.

Lemma dict_lookup_summary_row (result : Record) (col : string) :
  In col ["URL"; "Company"; "Overall Score"; "Consumer Score"; "Developer Score";
          "Investor Score"; "Trust Score"; "UX Score"] ->
  dict_lookup (summary_row result) col = Some (dict_get result col (VStr "")).
Proof.
  simpl. intros [<-|[<-|[<-|[<-|[<-|[<-|[<-|[<-|[]]]]]]]]]; reflexivity.
Qed.

(** X12. The "Summary" sheet of a completed report has the eight
    columns URL, Company, Overall Score, Consumer Score, Developer Score,
    Investor Score, Trust Score, UX Score in this order, and the entry of
    a record under each is the record's value unchanged, or the empty
    string (not "-") when the record has no such field. *)
Theorem detailed_summary_sheet (results : list Record) (wb : Writer) (i : nat)
    (result : Record) (col : string) :
  create_detailed_excel_report results = Ok wb ->
  results !! i = Some result ->
  In col ["URL"; "Company"; "Overall Score"; "Consumer Score"; "Developer Score";
          "Investor Score"; "Trust Score"; "UX Score"] ->
  exists df,
    sheet "Summary" wb = Some df /\
    df_columns df = ["URL"; "Company"; "Overall Score"; "Consumer Score";
                     "Developer Score"; "Investor Score"; "Trust Score"; "UX Score"] /\
    entry df i col = Some (dict_get result col (VStr "")) /\
    (forall v, dict_lookup result col = Some v -> entry df i col = Some v) /\
    (dict_lookup result col = None -> entry df i col = Some (VStr "")).
Proof.
  intros Hok Hi Hcol.
  destruct (detailed_report_Ok results wb Hok)
    as (Hne & summary & detailed & scores & -> & Hs & _).
  exists summary. split; [reflexivity|].
  subst summary.
  assert (Hentry : entry (from_records (map summary_row results)) i col
                   = Some (dict_get result col (VStr ""))).
  { rewrite (entry_from_records _ i (summary_row result)).
    - by apply dict_lookup_summary_row.
    - change (map summary_row results) with (summary_row <$> results).
      by rewrite list_lookup_fmap, Hi. }
  split.
  { simpl. apply union_keys_uniform.
    - destruct results; [congruence|discriminate].
    - intros r Hr. apply in_map_iff in Hr. destruct Hr as (r' & <- & _). reflexivity.
    - reflexivity. }
  split; [exact Hentry|]. rewrite Hentry, dict_get_lookup.
  split; [by intros v ->|by intros ->].
Qed.

Lemma detailed_summary_sheet_witness :
  exists df,
    create_detailed_excel_report scores_results = Ok (workbook_of scores_results) /\
    sheet "Summary" (workbook_of scores_results) = Some df /\
    entry df 0 "Company" = Some (VStr "").
Proof.
  assert (Hok : create_detailed_excel_report scores_results
                = Ok (workbook_of scores_results)) by (vm_compute; reflexivity).
  destruct (detailed_summary_sheet scores_results (workbook_of scores_results) 0
              [("URL", VStr "https://a.com"); ("Overall Score", VStr "85")]
              "Company" Hok eq_refl)
    as (df & Hsheet & _ & Hentry & _).
  { simpl. auto. }
  exists df. split; [exact Hok|]. split; [exact Hsheet|exact Hentry].
Defined.

Lemma from_records_rectangular (records : list Record) :
  rectangular (from_records records) /\
  List.length (df_rows (from_records records)) = List.length records.
Proof.
  unfold rectangular, from_records. simpl. split.
  - intros row Hrow. apply in_map_iff in Hrow. destruct Hrow as (r & <- & _).
    apply length_map.
  - apply length_map.
Qed.

Lemma select_length {A} (keep : string -> bool) (cols : list string) :
  forall row : list A,
    List.length row = List.length cols ->
    List.length (select keep cols row) = List.length (List.filter keep cols).
Proof.
  induction cols as [|c cols IH]; intros [|x row] Hlen; simpl in *; try lia; auto.
  destruct (keep c); simpl; auto.
Qed.

Lemma drop_rectangular (label : string) (df : DataFrame) :
  rectangular df ->
  rectangular (drop label df) /\
  List.length (df_rows (drop label df)) = List.length (df_rows df).
Proof.
  intros Hrect. unfold rectangular, drop. simpl. split.
  - intros row Hrow. apply in_map_iff in Hrow. destruct Hrow as (r & <- & Hr).
    apply select_length. by apply Hrect.
  - apply length_map.
Qed.

(** X13. A completed detailed report had at least one record.  It
    consists of the sheets "Summary", "Detailed Data" and "Scores
    Comparison", in this order, each with one row per record and, in
    every row, one entry per column. *)
Theorem detailed_report_shape (results : list Record) (wb : Writer) :
  create_detailed_excel_report results = Ok wb ->
  results <> [] /\
  map fst wb = ["Summary"; "Detailed Data"; "Scores Comparison"] /\
  forall name df, In (name, df) wb ->
    rectangular df /\ List.length (df_rows df) = List.length results.
Proof.
  intros H.
  destruct (detailed_report_Ok results wb H)
    as (Hne & summary & detailed & scores & -> & Hs & Hd & Hc & _).
  split; [exact Hne|]. split; [reflexivity|].
  intros name df [[= <- <-]|[[= <- <-]|[[= <- <-]|[]]]].
  - subst summary. pose proof (from_records_rectangular (map summary_row results)) as [? Hl].
    split; [auto|]. by rewrite Hl, length_map.
  - subst detailed. simpl.
    pose proof (from_records_rectangular results) as [Hr Hl].
    destruct (mem "_raw" (union_keys results)); [|auto].
    destruct (drop_rectangular "_raw" (from_records results) Hr) as [? Hl'].
    split; [auto|]. by rewrite Hl'.
  - subst scores. pose proof (from_records_rectangular (map scores_row results)) as [? Hl].
    split; [auto|]. by rewrite Hl, length_map.
Qed.

Lemma detailed_report_shape_witness :
  create_detailed_excel_report raw_results = Ok (workbook_of raw_results) /\
  map fst (workbook_of raw_results) = ["Summary"; "Detailed Data"; "Scores Comparison"].
Proof.
  assert (Hok : create_detailed_excel_report raw_results = Ok (workbook_of raw_results))
    by (vm_compute; reflexivity).
  split; [exact Hok|].
  apply (detailed_report_shape raw_results (workbook_of raw_results) Hok).
Defined.

Lemma add_keys_NoDup (ks : list string) :
  forall seen, NoDup seen -> NoDup (fold_left add_key ks seen).
Proof.
  induction ks as [|k ks IH]; intros seen Hnd; simpl; [auto|].
  apply IH. unfold add_key. destruct (mem k seen) eqn:Hm; [auto|].
  apply NoDup_app; split; [auto|]. split; [|apply NoDup_singleton].
  intros x Hx Hx'. apply list_elem_of_singleton in Hx'. subst x.
  apply list_elem_of_In, mem_In in Hx. congruence.
Qed.

Lemma add_keys_fresh (ks : list string) :
  forall seen, NoDup (seen ++ ks) -> fold_left add_key ks seen = (seen ++ ks)%list.
Proof.
  induction ks as [|k ks IH]; intros seen Hnd; simpl; [by rewrite app_nil_r|].
  assert (Hm : mem k seen = false).
  { destruct (mem k seen) eqn:Hm; [|reflexivity]. exfalso.
    apply mem_In, list_elem_of_In in Hm.
    apply NoDup_app in Hnd. destruct Hnd as (_ & Hdis & _).
    apply (Hdis k Hm). by left. }
  unfold add_key at 2. rewrite Hm.
  rewrite IH by (by rewrite <- app_assoc). by rewrite <- app_assoc.
Qed.

(** X14. The "Detailed Data" sheet of a completed report never has two
    columns of the same name; and when every record has the same keys in
    the same order, its columns are those keys in that order, without
    "_raw". *)
Theorem detailed_data_columns (results : list Record) (wb : Writer) :
  create_detailed_excel_report results = Ok wb ->
  exists df,
    sheet "Detailed Data" wb = Some df /\
    NoDup (df_columns df) /\
    (forall ks, NoDup ks -> (forall r, In r results -> dict_keys r = ks) ->
       df_columns df = List.filter (fun c => negb (String.eqb c "_raw")) ks).
Proof.
  intros Hok.
  destruct (detailed_report_Ok results wb Hok)
    as (Hne & summary & detailed & scores & -> & _ & Hd & _).
  exists detailed. split; [reflexivity|].
  assert (Hnd : NoDup (union_keys results)).
  { unfold union_keys.
    change (fun seen k => if mem k seen then seen else (seen ++ [k])%list) with add_key.
    apply add_keys_NoDup. constructor. }
  subst detailed. simpl. split.
  - destruct (mem "_raw" (union_keys results)); simpl; [|exact Hnd].
    apply NoDup_ListNoDup, Stdlib.Lists.List.NoDup_filter, NoDup_ListNoDup, Hnd.
  - intros ks Hks Hall.
    assert (Hu : union_keys results = ks).
    { apply union_keys_uniform; [auto|auto|]. by apply (add_keys_fresh ks []). }
    rewrite Hu.
    destruct (mem "_raw" ks) eqn:Hm; simpl; rewrite ?Hu; [reflexivity|].
    symmetry. apply forallb_filter_id. apply forallb_forall. intros c Hc.
    destruct (String.eqb_spec c "_raw") as [->|]; [|reflexivity].
    apply mem_In in Hc. congruence.
Qed.

Lemma detailed_data_columns_witness :
  exists df,
    create_detailed_excel_report raw_results = Ok (workbook_of raw_results) /\
    sheet "Detailed Data" (workbook_of raw_results) = Some df /\
    df_columns df = ["URL"; "Company"].
Proof.
  assert (Hok : create_detailed_excel_report raw_results = Ok (workbook_of raw_results))
    by (vm_compute; reflexivity).
  destruct (detailed_data_columns raw_results (workbook_of raw_results) Hok)
    as (df & Hsheet & _ & Hcols).
  exists df. split; [exact Hok|]. split; [exact Hsheet|].
  apply (Hcols ["URL"; "_raw"; "Company"]).
  - repeat constructor; simpl; intros H;
      repeat (apply elem_of_cons in H; destruct H as [H|H]; [discriminate H|]);
      inversion H.
  - intros r [<-|[]]. reflexivity.
Defined.

(** X15. The score columns of "Scores Comparison" are numeric only: an
    entry is empty or a non-negative integer, never text; an integer
    object is kept when it is positive and of at most 4300 digits, and
    left empty otherwise (zero and the negative integers included); and
    the "URL" column holds the record's URL value unchanged, or the empty
    string. *)
Theorem scores_sheet_numeric_only (results : list Record) (wb : Writer) (i : nat)
    (result : Record) (col : string) :
  create_detailed_excel_report results = Ok wb ->
  results !! i = Some result ->
  In col score_columns ->
  exists df cell,
    sheet "Scores Comparison" wb = Some df /\
    entry df i col = Some cell /\
    (cell = VNone \/ exists n, (0 <= n)%Z /\ cell = VInt n) /\
    (forall z, dict_lookup result col = Some (VInt z) ->
       cell = if (0 <? z)%Z && (String.length (str_of_Z z) <=? int_max_str_digits)
              then VInt z else VNone) /\
    entry df i "URL" = Some (dict_get result "URL" (VStr "")).
Proof.
  intros Hok Hi Hcol.
  destruct (detailed_report_Ok results wb Hok)
    as (Hne & summary & detailed & scores & -> & _ & _ & Hs & _).
  exists scores, (score_cell (dict_get result col (VStr ""))).
  split; [reflexivity|].
  subst scores.
  assert (Hrow : map scores_row results !! i = Some (scores_row result)).
  { change (map scores_row results) with (scores_row <$> results).
    by rewrite list_lookup_fmap, Hi. }
  split.
  { rewrite (entry_from_records _ i (scores_row result) _ Hrow).
    by apply dict_lookup_scores_row. }
  split.
  { rewrite score_cell_spec.
    destruct (truthy _ && decimal_text _ && _) eqn:Hg; [|by left].
    right. eexists. split; [|reflexivity].
    apply andb_prop in Hg. destruct Hg as [Hg _].
    apply andb_prop in Hg. destruct Hg as [_ Hd].
    unfold decimal_text in Hd. apply andb_prop in Hd. destruct Hd as [_ Hd].
    by apply digits_value_nonneg. }
  split.
  { intros z Hz. rewrite dict_get_lookup, Hz. simpl. rewrite score_cell_spec. simpl.
    destruct (Z.ltb_spec 0 z) as [Hpos|Hnpos].
    - destruct (Z.eqb_spec z 0); [lia|]. simpl.
      rewrite decimal_text_str_of_Z_nonneg, digits_value_str_of_Z by lia. reflexivity.
    - destruct (Z.eqb_spec z 0); [reflexivity|]. simpl.
      destruct (decimal_text (str_of_Z z)) eqn:Hd; [|reflexivity].
      apply decimal_text_str_of_Z in Hd. lia. }
  rewrite (entry_from_records _ i (scores_row result) _ Hrow). reflexivity.
Qed.

Lemma scores_sheet_numeric_only_witness :
  exists df cell,
    create_detailed_excel_report integer_results = Ok (workbook_of integer_results) /\
    sheet "Scores Comparison" (workbook_of integer_results) = Some df /\
    entry df 2 "Overall Score" = Some cell /\ cell = VNone.
Proof.
  assert (Hok : create_detailed_excel_report integer_results
                = Ok (workbook_of integer_results)) by (vm_compute; reflexivity).
  destruct (scores_sheet_numeric_only integer_results (workbook_of integer_results) 2
              [("URL", VStr "https://c.com"); ("Overall Score", VInt 0)]
              "Overall Score" Hok eq_refl)
    as (df & cell & Hsheet & Hentry & _ & Hint & _).
  { simpl. auto. }
  exists df, cell. split; [exact Hok|]. split; [exact Hsheet|].
  split; [exact Hentry|]. apply (Hint 0%Z). reflexivity.
Defined.

End DetailedExtras.
